(** * Employee-centric compensation aggregation and namespace-isolated upload

    A shallow embedding of [combined_excel_to_pinecone.py]:
    - [EmployeeDataStructure] and its text rendering,
    - [ExcelDataProcessor]: the per-sheet passes over the workbook, the
      derivation pass and the document generator,
    - [SecurePineconeUploader.upload_documents].

    Python dictionaries keep insertion order, and several results depend on
    it (document order, first-seen grouping), so a dictionary is an
    association list that is updated in place or extended at its end.
    Exceptions are values: pure computations return a [Result], the passes
    that mutate the employee mapping return an [Outcome] that carries the
    mapping as it stands when the exception leaves the loop. *)

From Stdlib Require Import String Ascii List ZArith Lia Bool DecimalString FinFun.
Import ListNotations.

Local Open Scope string_scope.
Local Open Scope list_scope.

Notation "a ^^ b" := (String.append a b) (at level 60, right associativity).

(* ================================================================== *)
(** ** The Python runtime the script relies on *)

(** Floating-point numbers and the built-in conversions are the Python
    runtime's, not the script's.  They are taken as an interface without
    laws: nothing below depends on how floats add or print. *)
Class PyFloat (F : Type) := {
  f_of_int : Z -> F;               (* float(n) *)
  f_of_str : string -> option F;   (* float(s); None: ValueError *)
  f_add : F -> F -> F;             (* x + y *)
  f_eqb : F -> F -> bool;          (* x == y *)
  f_eqb_int : Z -> F -> bool;      (* n == x *)
  f_gt0 : F -> bool;               (* x > 0 *)
  f_nonzero : F -> bool;           (* bool(x) *)
  f_isnan : F -> bool;             (* x is NaN *)
  f_trunc : F -> option Z;         (* int(x); None: nan or inf *)
  f_str : F -> string;             (* str(x) *)
  f_fmt0 : F -> string;            (* format(x, ',.0f') *)
  int_of_str : string -> option Z; (* int(s); None: ValueError *)
  repr_str : string -> string      (* repr(s) *)
}.

Inductive Exn :=
| KeyError (k : string)
| ValueError (msg : string)
| TypeError
| AttributeError
| IndexError
| ZeroDivisionError.

Inductive Result (A : Type) :=
| Ok (a : A)
| Err (e : Exn).
Arguments Ok {A} a.
Arguments Err {A} e.

Definition bind {A B} (r : Result A) (k : A -> Result B) : Result B :=
  match r with
  | Ok a => k a
  | Err e => Err e
  end.

Notation "x <- r ;; k" := (bind r (fun x => k))
  (at level 61, r at next level, right associativity).

(** [str(n)] for an integer and for a length. *)
Definition Z_to_string (z : Z) : string := NilZero.string_of_int (Z.to_int z).
Definition nat_to_string (n : nat) : string := Z_to_string (Z.of_nat n).

Definition nl : string := String (ascii_of_nat 10) "".

(** ["sep".join(parts)] *)
Fixpoint join (sep : string) (parts : list string) : string :=
  match parts with
  | [] => ""
  | [p] => p
  | p :: rest => p ^^ sep ^^ join sep rest
  end.

(** [s.replace(pat, "")]: the scan is bounded by the length of [s]. *)
Fixpoint drop (n : nat) (s : string) : string :=
  match n, s with
  | O, _ => s
  | S n', String _ s' => drop n' s'
  | S _, EmptyString => EmptyString
  end.

Fixpoint remove_all_fuel (fuel : nat) (pat s : string) : string :=
  match fuel with
  | O => s
  | S fuel' =>
      match s with
      | EmptyString => EmptyString
      | String c s' =>
          if prefix pat s
          then remove_all_fuel fuel' pat (drop (String.length pat) s)
          else String c (remove_all_fuel fuel' pat s')
      end
  end.

Definition remove_all (pat s : string) : string :=
  match pat with
  | EmptyString => s
  | _ => remove_all_fuel (String.length s) pat s
  end.

(* ------------------------------------------------------------------ *)
(** *** Ordered dictionaries with string keys *)

Definition dict (V : Type) := list (string * V).

Fixpoint dget {V} (k : string) (d : dict V) : option V :=
  match d with
  | [] => None
  | (k', v) :: rest => if k =? k' then Some v else dget k rest
  end.

(** [d[k] = v]: an existing key keeps its position. *)
Fixpoint dset {V} (k : string) (v : V) (d : dict V) : dict V :=
  match d with
  | [] => [(k, v)]
  | (k', v') :: rest =>
      if k =? k' then (k', v) :: rest else (k', v') :: dset k v rest
  end.

Definition dmem {V} (k : string) (d : dict V) : bool :=
  match dget k d with
  | Some _ => true
  | None => false
  end.

(** [d.get(k, default)] *)
Definition dget_or {V} (k : string) (default : V) (d : dict V) : V :=
  match dget k d with
  | Some v => v
  | None => default
  end.

(** Apply [f] to the value stored under [k], if any. *)
Fixpoint dmodify {V} (k : string) (f : V -> V) (d : dict V) : dict V :=
  match d with
  | [] => []
  | (k', v) :: rest =>
      if k =? k' then (k', f v) :: rest else (k', v) :: dmodify k f rest
  end.

Definition keys {V} (d : dict V) : list string := map fst d.
Definition values {V} (d : dict V) : list V := map snd d.

(* ================================================================== *)
Section Model.

Context {F : Type} {PF : PyFloat F}.

(** ** Values *)

(** What a spreadsheet cell or a metadata field holds.  [SDate] is a pandas
    timestamp, carried by its [str()] rendering. *)
Inductive Scalar :=
| SNone
| SBool (b : bool)
| SInt (z : Z)
| SFloat (x : F)
| SStr (s : string)
| SDate (s : string).

#[warnings="-register-all"]
Inductive PyVal :=
| VScalar (c : Scalar)
| VDict (d : list (string * PyVal))
| VList (l : list PyVal).

Definition vnone : PyVal := VScalar SNone.
Definition vstr (s : string) : PyVal := VScalar (SStr s).
Definition vint (z : Z) : PyVal := VScalar (SInt z).

Definition is_scalar (v : PyVal) : bool :=
  match v with
  | VScalar _ => true
  | _ => false
  end.

Definition bool_to_Z (b : bool) : Z := if b then 1%Z else 0%Z.

(** [str(x)] *)
Definition scalar_str (c : Scalar) : string :=
  match c with
  | SNone => "None"
  | SBool true => "True"
  | SBool false => "False"
  | SInt z => Z_to_string z
  | SFloat x => f_str x
  | SStr s => s
  | SDate s => s
  end.

Definition scalar_repr (c : Scalar) : string :=
  match c with
  | SStr s => repr_str s
  | SDate s => "Timestamp('" ^^ s ^^ "')"
  | _ => scalar_str c
  end.

Fixpoint py_repr (v : PyVal) : string :=
  match v with
  | VScalar c => scalar_repr c
  | VDict d =>
      "{" ^^ join ", " (map (fun kv => repr_str (fst kv) ^^ ": " ^^ py_repr (snd kv)) d)
          ^^ "}"
  | VList l => "[" ^^ join ", " (map py_repr l) ^^ "]"
  end.

(** [f"{v}"] *)
Definition py_str (v : PyVal) : string :=
  match v with
  | VScalar c => scalar_str c
  | _ => py_repr v
  end.

(** [bool(x)] *)
Definition scalar_truthy (c : Scalar) : bool :=
  match c with
  | SNone => false
  | SBool b => b
  | SInt z => negb (z =? 0)%Z
  | SFloat x => f_nonzero x
  | SStr s => negb (s =? "")
  | SDate _ => true
  end.

(** [x or 0] *)
Definition or0 (c : Scalar) : Scalar :=
  if scalar_truthy c then c else SInt 0.

(** [float(x)] *)
Definition py_float (c : Scalar) : Result F :=
  match c with
  | SBool b => Ok (f_of_int (bool_to_Z b))
  | SInt z => Ok (f_of_int z)
  | SFloat x => Ok x
  | SStr s =>
      match f_of_str s with
      | Some x => Ok x
      | None => Err (ValueError "could not convert string to float")
      end
  | SNone | SDate _ => Err TypeError
  end.

(** [int(x)] *)
Definition py_int (c : Scalar) : Result Z :=
  match c with
  | SBool b => Ok (bool_to_Z b)
  | SInt z => Ok z
  | SFloat x =>
      match f_trunc x with
      | Some z => Ok z
      | None => Err (ValueError "cannot convert float to integer")
      end
  | SStr s =>
      match int_of_str s with
      | Some z => Ok z
      | None => Err (ValueError "invalid literal for int()")
      end
  | SNone | SDate _ => Err TypeError
  end.

(** [pd.notna(x)] *)
Definition notna (c : Scalar) : bool :=
  match c with
  | SNone => false
  | SFloat x => negb (f_isnan x)
  | _ => true
  end.

(** [a == b] on scalars, as a dictionary sees its keys; a bool compares as
    the integer it is, values of different kinds are different keys. *)
Definition scalar_eqb (a b : Scalar) : bool :=
  match a, b with
  | SNone, SNone => true
  | SStr s, SStr t => s =? t
  | SDate s, SDate t => s =? t
  | SBool x, SBool y => Bool.eqb x y
  | SBool x, SInt z => (bool_to_Z x =? z)%Z
  | SInt z, SBool x => (z =? bool_to_Z x)%Z
  | SInt x, SInt y => (x =? y)%Z
  | SBool x, SFloat y => f_eqb_int (bool_to_Z x) y
  | SInt x, SFloat y => f_eqb_int x y
  | SFloat x, SBool y => f_eqb_int (bool_to_Z y) x
  | SFloat x, SInt y => f_eqb_int y x
  | SFloat x, SFloat y => f_eqb x y
  | _, _ => false
  end.

(** [v == 'text'] for an arbitrary value [v] *)
Definition val_eq_str (v : option PyVal) (s : string) : bool :=
  match v with
  | Some (VScalar (SStr t)) => t =? s
  | _ => false
  end.

(** [a + b] on numbers *)
Definition py_add (a b : Scalar) : Result Scalar :=
  match a, b with
  | SInt x, SInt y => Ok (SInt (x + y))
  | SInt x, SBool y => Ok (SInt (x + bool_to_Z y))
  | SBool x, SInt y => Ok (SInt (bool_to_Z x + y))
  | SBool x, SBool y => Ok (SInt (bool_to_Z x + bool_to_Z y))
  | SInt x, SFloat y => Ok (SFloat (f_add (f_of_int x) y))
  | SBool x, SFloat y => Ok (SFloat (f_add (f_of_int (bool_to_Z x)) y))
  | SFloat x, SInt y => Ok (SFloat (f_add x (f_of_int y)))
  | SFloat x, SBool y => Ok (SFloat (f_add x (f_of_int (bool_to_Z y))))
  | SFloat x, SFloat y => Ok (SFloat (f_add x y))
  | _, _ => Err TypeError
  end.

Definition py_add_val (acc : Scalar) (v : PyVal) : Result Scalar :=
  match v with
  | VScalar c => py_add acc c
  | _ => Err TypeError
  end.

(** [sum(xs)]: a left fold that starts from the integer 0. *)
Fixpoint sum_from (acc : Scalar) (xs : list PyVal) : Result Scalar :=
  match xs with
  | [] => Ok acc
  | x :: rest => acc' <- py_add_val acc x ;; sum_from acc' rest
  end.

Definition py_sum (xs : list PyVal) : Result Scalar := sum_from (SInt 0) xs.

(** [x > 0] *)
Definition py_gt0 (v : PyVal) : Result bool :=
  match v with
  | VScalar (SBool b) => Ok b
  | VScalar (SInt z) => Ok (0 <? z)%Z
  | VScalar (SFloat x) => Ok (f_gt0 x)
  | _ => Err TypeError
  end.

(** [f"{x:,.0f}"].  A timestamp takes the format as a [strftime] pattern,
    which has no directive here. *)
Definition fmt0 (v : PyVal) : Result string :=
  match v with
  | VScalar (SBool b) => Ok (f_fmt0 (f_of_int (bool_to_Z b)))
  | VScalar (SInt z) => Ok (f_fmt0 (f_of_int z))
  | VScalar (SFloat x) => Ok (f_fmt0 x)
  | VScalar (SStr _) => Err (ValueError "Unknown format code 'f' for object of type 'str'")
  | VScalar (SDate _) => Ok ",.0f"
  | _ => Err TypeError
  end.

(** [isinstance(v, (int, float))] *)
Definition is_number (v : PyVal) : bool :=
  match v with
  | VScalar (SBool _) | VScalar (SInt _) | VScalar (SFloat _) => true
  | _ => false
  end.

(* ------------------------------------------------------------------ *)
(** ** Sheets *)

Record DataFrame := {
  columns : list string;
  data : list (list Scalar)
}.

Definition Row := dict Scalar.

Definition empty_frame : DataFrame := {| columns := []; data := [] |}.

(** [df.iterrows()] *)
Definition iterrows (df : DataFrame) : list Row :=
  map (fun cells => combine (columns df) cells) (data df).

(** [df.replace({np.nan: None})] *)
Definition nan_to_none (c : Scalar) : Scalar :=
  match c with
  | SFloat x => if f_isnan x then SNone else c
  | _ => c
  end.

Definition replace_nan (df : DataFrame) : DataFrame :=
  {| columns := columns df; data := map (map nan_to_none) (data df) |}.

(** The workbook answers [pd.read_excel(path, sheet_name, header)];
    [None] stands for any exception raised by the read. *)
Definition Workbook := string -> nat -> option DataFrame.

Definition safe_read_sheet (xl : Workbook) (sheet_name : string) (header : nat)
  : DataFrame :=
  match xl sheet_name header with
  | Some df => replace_nan df
  | None => empty_frame
  end.

(** [row[k]] *)
Definition row_item (row : Row) (k : string) : Result Scalar :=
  match dget k row with
  | Some c => Ok c
  | None => Err (KeyError k)
  end.

(** [row.get(k)] and [row.get(k, 0)] *)
Definition row_get (row : Row) (k : string) : Scalar := dget_or k SNone row.
Definition row_get0 (row : Row) (k : string) : Scalar := dget_or k (SInt 0) row.

Definition in_columns (k : string) (df : DataFrame) : bool :=
  existsb (String.eqb k) (columns df).

(** The expressions the dictionary literals are made of. *)
Definition cell (row : Row) (k : string) : Result PyVal :=
  Ok (VScalar (row_get row k)).

Definition cell_str (row : Row) (k : string) : Result PyVal :=
  Ok (vstr (scalar_str (row_get row k))).

Definition cell_str_notna (row : Row) (k : string) : Result PyVal :=
  Ok (if notna (row_get row k) then vstr (scalar_str (row_get row k)) else vnone).

Definition cell_float (row : Row) (k : string) : Result PyVal :=
  x <- py_float (or0 (row_get0 row k)) ;; Ok (VScalar (SFloat x)).

Definition cell_int (row : Row) (k : string) : Result PyVal :=
  z <- py_int (or0 (row_get0 row k)) ;; Ok (vint z).

Definition const (v : PyVal) : Result PyVal := Ok v.

(** A dictionary literal: the values are evaluated in order, the first
    exception wins. *)
Fixpoint literal {V} (fields : list (string * Result V)) : Result (dict V) :=
  match fields with
  | [] => Ok []
  | (k, r) :: rest =>
      v <- r ;; d <- literal rest ;; Ok ((k, v) :: d)
  end.

Definition literal_val (fields : list (string * Result PyVal)) : Result PyVal :=
  d <- literal fields ;; Ok (VDict d).

(** Total forms of the same expressions, for literals that cannot raise. *)
Definition cellv (row : Row) (k : string) : PyVal := VScalar (row_get row k).
Definition cell_strv (row : Row) (k : string) : PyVal :=
  vstr (scalar_str (row_get row k)).
Definition cell_str_notnav (row : Row) (k : string) : PyVal :=
  if notna (row_get row k) then vstr (scalar_str (row_get row k)) else vnone.

Definition amount (row : Row) (k : string) : Result Scalar :=
  x <- py_float (or0 (row_get0 row k)) ;; Ok (SFloat x).

(* ------------------------------------------------------------------ *)
(** ** Part 1: the employee record *)

Definition Entry := dict PyVal.

Record EmployeeDataStructure := {
  sabon : string;
  employee_profile : dict PyVal;
  commission_contracts : list Entry;
  override_records : list Entry;
  policy_contracts : list Entry;
  performance_records : list Entry;
  additional_allowances : dict PyVal;
  clawback_records : list Entry;
  summary_financials : dict Scalar
}.

(** [EmployeeDataStructure()] *)
Definition new_employee : EmployeeDataStructure :=
  {| sabon := "";
     employee_profile := [];
     commission_contracts := [];
     override_records := [];
     policy_contracts := [];
     performance_records := [];
     additional_allowances := [];
     clawback_records := [];
     summary_financials := [] |}.

Definition with_sabon (s : string) (e : EmployeeDataStructure) :=
  {| sabon := s;
     employee_profile := employee_profile e;
     commission_contracts := commission_contracts e;
     override_records := override_records e;
     policy_contracts := policy_contracts e;
     performance_records := performance_records e;
     additional_allowances := additional_allowances e;
     clawback_records := clawback_records e;
     summary_financials := summary_financials e |}.

Definition with_profile (p : dict PyVal) (e : EmployeeDataStructure) :=
  {| sabon := sabon e;
     employee_profile := p;
     commission_contracts := commission_contracts e;
     override_records := override_records e;
     policy_contracts := policy_contracts e;
     performance_records := performance_records e;
     additional_allowances := additional_allowances e;
     clawback_records := clawback_records e;
     summary_financials := summary_financials e |}.

Definition with_commissions (l : list Entry) (e : EmployeeDataStructure) :=
  {| sabon := sabon e;
     employee_profile := employee_profile e;
     commission_contracts := l;
     override_records := override_records e;
     policy_contracts := policy_contracts e;
     performance_records := performance_records e;
     additional_allowances := additional_allowances e;
     clawback_records := clawback_records e;
     summary_financials := summary_financials e |}.

Definition with_overrides (l : list Entry) (e : EmployeeDataStructure) :=
  {| sabon := sabon e;
     employee_profile := employee_profile e;
     commission_contracts := commission_contracts e;
     override_records := l;
     policy_contracts := policy_contracts e;
     performance_records := performance_records e;
     additional_allowances := additional_allowances e;
     clawback_records := clawback_records e;
     summary_financials := summary_financials e |}.

Definition with_policies (l : list Entry) (e : EmployeeDataStructure) :=
  {| sabon := sabon e;
     employee_profile := employee_profile e;
     commission_contracts := commission_contracts e;
     override_records := override_records e;
     policy_contracts := l;
     performance_records := performance_records e;
     additional_allowances := additional_allowances e;
     clawback_records := clawback_records e;
     summary_financials := summary_financials e |}.

Definition with_performance (l : list Entry) (e : EmployeeDataStructure) :=
  {| sabon := sabon e;
     employee_profile := employee_profile e;
     commission_contracts := commission_contracts e;
     override_records := override_records e;
     policy_contracts := policy_contracts e;
     performance_records := l;
     additional_allowances := additional_allowances e;
     clawback_records := clawback_records e;
     summary_financials := summary_financials e |}.

Definition with_allowances (a : dict PyVal) (e : EmployeeDataStructure) :=
  {| sabon := sabon e;
     employee_profile := employee_profile e;
     commission_contracts := commission_contracts e;
     override_records := override_records e;
     policy_contracts := policy_contracts e;
     performance_records := performance_records e;
     additional_allowances := a;
     clawback_records := clawback_records e;
     summary_financials := summary_financials e |}.

Definition with_clawbacks (l : list Entry) (e : EmployeeDataStructure) :=
  {| sabon := sabon e;
     employee_profile := employee_profile e;
     commission_contracts := commission_contracts e;
     override_records := override_records e;
     policy_contracts := policy_contracts e;
     performance_records := performance_records e;
     additional_allowances := additional_allowances e;
     clawback_records := l;
     summary_financials := summary_financials e |}.

Definition with_summary (f : dict Scalar) (e : EmployeeDataStructure) :=
  {| sabon := sabon e;
     employee_profile := employee_profile e;
     commission_contracts := commission_contracts e;
     override_records := override_records e;
     policy_contracts := policy_contracts e;
     performance_records := performance_records e;
     additional_allowances := additional_allowances e;
     clawback_records := clawback_records e;
     summary_financials := f |}.

(* ------------------------------------------------------------------ *)
(** ** Part 2: the sheet processor *)

(** [self.employees] *)
Definition Employees := dict EmployeeDataStructure.

(** How a pass over the mapping ends.  Records are mutated in place, so an
    exception leaves behind whatever was written before it.  What the passes
    print is left out. *)
Inductive Outcome :=
| Done (st : Employees)
| Raise (e : Exn) (st : Employees).

Definition Proc := Employees -> Outcome.

Definition state_of (o : Outcome) : Employees :=
  match o with
  | Done st => st
  | Raise _ st => st
  end.

Definition andthen (p q : Proc) : Proc :=
  fun st =>
    match p st with
    | Done st' => q st'
    | Raise e st' => Raise e st'
    end.

(** [try: p  except Exception as e: print(...)] *)
Definition try_except (p : Proc) : Proc :=
  fun st => Done (state_of (p st)).

(** [for _, row in df.iterrows(): body] *)
Fixpoint for_rows (body : Row -> Proc) (rows : list Row) : Proc :=
  match rows with
  | [] => Done
  | row :: rest => andthen (body row) (for_rows body rest)
  end.

(** [if sabon not in self.employees: ... = EmployeeDataStructure();
     self.employees[sabon].sabon = sabon] *)
Definition ensure (s : string) (st : Employees) : Employees :=
  if dmem s st then st else dset s (with_sabon s new_employee) st.

(** Evaluate [r]; on success update the record filed under [s]. *)
Definition update_with {A} (r : Result A) (s : string)
  (f : A -> EmployeeDataStructure -> EmployeeDataStructure) : Proc :=
  fun st =>
    match r with
    | Ok a => Done (dmodify s (f a) st)
    | Err e => Raise e st
    end.

(** *** 인별명세 *)

Definition profile_of (row : Row) : dict PyVal :=
  [ ("사원명", cellv row "사원명");
    ("직종", cellv row "직종");
    ("Career_Path", cellv row "Career Path");
    ("소속", cellv row "소속");
    ("소속경로", cellv row "소속경로");
    ("위촉구분", cellv row "위촉구분");
    ("위촉일", cell_str_notnav row "위촉일");
    ("영업개시일", cell_str_notnav row "영업개시일");
    ("퇴사일자", cell_str_notnav row "퇴사일자");
    ("부지급여부", cellv row "부지급여부");
    ("계좌번호", cell_str_notnav row "계좌번호");
    ("은행", cellv row "은행");
    ("마감월", cell_strv row "마감월");
    ("조직", VDict
       [ ("회사", cellv row "현재 소속경로_회사");
         ("구분", cellv row "현재 소속경로_구분");
         ("본부", cellv row "현재 소속경로_본부");
         ("사업단", cellv row "현재 소속경로_사업단");
         ("Agency", cellv row "현재 소속경로_Agency");
         ("팀", cellv row "현재 소속경로_팀") ]) ].

Definition financials_of (row : Row) : Result (dict Scalar) :=
  literal
  [ ("최종지급액", amount row "최종지급액");
    ("커미션계", amount row "커미션계");
    ("FC_커미션계", amount row "FC 커미션계");
    ("FC계약모집_커미션", amount row "FC계약모집 커미션Ⅱ");
    ("현금시책", amount row "현금시책");
    ("FC계약유지_커미션", amount row "FC계약유지 및 서비스 커미션Ⅱ");
    ("오버라이드계", amount row "오버라이드계");
    ("BM_오버라이드", amount row "BM 오버라이드Ⅱ");
    ("MD_오버라이드", amount row "MD 오버라이드Ⅱ");
    ("사업단장_오버라이드", amount row "사업단장 오버라이드Ⅱ");
    ("지사장_오버라이드", amount row "지사장 오버라이드Ⅱ");
    ("유치자_오버라이드", amount row "유치자 오버라이드Ⅱ");
    ("공통커미션계", amount row "공통커미션계");
    ("Account_Balance_당월적립액", amount row "Account Balance 당월적립액");
    ("Account_Balance_지급액", amount row "Account Balance 지급액");
    ("이월_보수_환수금액", amount row "이월 보수 환수금액");
    ("미환수_유보금액", amount row "미환수 유보금액");
    ("기타커미션계", amount row "기타커미션계");
    ("지사지급", amount row "지사지급");
    ("과세계", amount row "과세계");
    ("공제계", amount row "공제계");
    ("소득세", amount row "소득세");
    ("주민세", amount row "주민세");
    ("원천세", amount row "원천세");
    ("근로산재보험료", amount row "근로산재보험료");
    ("고용보험료", amount row "고용보험료") ].

Definition individual_statement_row (row : Row) : Proc :=
  fun st =>
    match row_item row "사번" with
    | Err e => Raise e st
    | Ok c =>
        let s := scalar_str c in
        let st1 := if dmem s st then st else dset s new_employee st in
        let st2 := dmodify s (fun e => with_profile (profile_of row) (with_sabon s e)) st1 in
        update_with (financials_of row) s with_summary st2
    end.

Definition process_individual_statements (xl : Workbook) : Proc :=
  for_rows individual_statement_row (iterrows (safe_read_sheet xl "인별명세" 0)).

(** *** 건별수수료 *)

Definition contract_of (row : Row) : Result Entry :=
  literal
  [ ("마감월", cell_str row "마감월");
    ("보험사", cell row "보험사");
    ("증권번호", cell_str row "증권번호");
    ("계약일", cell_str_notna row "계약일");
    ("계약상태", cell row "처리계약상태");
    ("납입회차", cell_int row "처리납입회차");
    ("지급로직", cell row "지급로직");
    ("납입방법", cell row "납입방법");
    ("선지급_분급", cell row "선지급/분급");
    ("규정", cell row "규정");
    ("배분율", cell_float row "배분율");
    ("보험료", cell_float row "보험료");
    ("MFYC", cell_float row "MFYC");
    ("AFYC", cell_float row "AFYC");
    ("보험사환산", cell_float row "보험사환산");
    ("지급율", cell_float row "지급율");
    ("지급수수료_모집", cell_float row "[지급수수료] 모집");
    ("지급수수료_유지", cell_float row "[지급수수료] 유지");
    ("지급수수료_자동차", cell_float row "[지급수수료] 자동차");
    ("지급수수료_일반", cell_float row "[지급수수료] 일반");
    ("지급수수료_합계", cell_float row "[지급수수료] 합계");
    ("수입수수료_성과", cell_float row "[수입수수료] 성과");
    ("수입수수료_계약관리", cell_float row "[수입수수료] 계약관리");
    ("수입수수료_수금", cell_float row "[수입수수료] 수금");
    ("수입수수료_자동차", cell_float row "[수입수수료] 자동차");
    ("수입수수료_일반", cell_float row "[수입수수료] 일반");
    ("수입수수료_합계", cell_float row "[수입수수료] 합계");
    ("상품군1", cell row "상품군1");
    ("상품군2", cell row "상품군2");
    ("상품명", cell row "상품명");
    ("계약자", cell row "계약자");
    ("피보험자", cell row "피보험자");
    ("교차판매", cell row "교차판매");
    ("외부이관", cell row "외부이관") ].

Definition append_commission (c : Entry) (e : EmployeeDataStructure) :=
  with_commissions (commission_contracts e ++ [c]) e.

Definition commission_contract_row (row : Row) : Proc :=
  fun st =>
    match row_item row "지급사원번호" with
    | Err e => Raise e st
    | Ok c =>
        let s := scalar_str c in
        update_with (contract_of row) s append_commission (ensure s st)
    end.

Definition process_commission_contracts (xl : Workbook) : Proc :=
  for_rows commission_contract_row (iterrows (safe_read_sheet xl "건별수수료" 0)).

(** *** 건별OR *)

Definition override_of (row : Row) : Result Entry :=
  literal
  [ ("마감월", cell_str row "마감월");
    ("역할", const (vstr "receiver"));
    ("오버라이드_종류", cell row "[오버라이드] 종류");
    ("오버라이드_대상자", cell row "[오버라이드] 대상자");
    ("오버라이드_규정", cell row "[오버라이드] 규정");
    ("FC_사번", cell_str row "[FC] 대상자사번");
    ("FC_대상자", cell row "[FC] 대상자");
    ("FC_입사차월", cell_int row "[FC] 입사차월");
    ("FC_규정", cell row "[FC] 규정");
    ("보험사", cell row "보험사");
    ("증권번호", cell_str row "증권번호");
    ("계약일", cell_str_notna row "계약일");
    ("계약상태", cell row "처리계약상태");
    ("납입회차", cell_int row "처리납입회차");
    ("계산방식", cell row "계산방식");
    ("납입방법", cell row "납입방법");
    ("보험료", cell_float row "보험료");
    ("MFYC", cell_float row "MFYC");
    ("AFYC", cell_float row "AFYC");
    ("LP커미션", cell_float row "LP커미션");
    ("지급율", cell_float row "[지급수수료] 지급율");
    ("오버라이드_금액", cell_float row "[지급수수료] 오버라이드");
    ("수입수수료_합계", cell_float row "[수입수수료] 합계");
    ("상품군1", cell row "상품군1");
    ("상품군2", cell row "상품군2");
    ("상품명", cell row "상품명");
    ("계약자", cell row "계약자");
    ("피보험자", cell row "피보험자") ].

(** [fc_override = override.copy()] followed by the three assignments. *)
Definition fc_override_of (override : Entry) (receiver_sabon : string) (row : Row)
  : Entry :=
  dset "수령자_이름" (cellv row "[오버라이드] 대상자")
    (dset "수령자_사번" (vstr receiver_sabon)
       (dset "역할" (vstr "fc") override)).

Definition append_override (o : Entry) (e : EmployeeDataStructure) :=
  with_overrides (override_records e ++ [o]) e.

Definition override_record_row (row : Row) : Proc :=
  fun st =>
    match row_item row "[오버라이드] 대상자사번" with
    | Err e => Raise e st
    | Ok c =>
        let receiver_sabon := scalar_str c in
        let st1 := ensure receiver_sabon st in
        match override_of row with
        | Err e => Raise e st1
        | Ok override =>
            let st2 := dmodify receiver_sabon (append_override override) st1 in
            match row_item row "[FC] 대상자사번" with
            | Err e => Raise e st2
            | Ok fc =>
                let fc_sabon := scalar_str fc in
                let st3 := ensure fc_sabon st2 in
                Done (dmodify fc_sabon
                        (append_override (fc_override_of override receiver_sabon row))
                        st3)
            end
        end
    end.

Definition process_override_records (xl : Workbook) : Proc :=
  for_rows override_record_row (iterrows (safe_read_sheet xl "건별OR" 0)).

(** *** 시책건별 *)

Definition policy_of (row : Row) : Result Entry :=
  literal
  [ ("마감월", cell_str row "마감월");
    ("소속", cell row "소속");
    ("보험사", cell row "보험사");
    ("증권번호", cell_str row "증권번호");
    ("계약일자", cell_str_notna row "계약일자");
    ("납입방법", cell row ("납입" ^^ nl ^^ "방법"));
    ("초회보험료", cell_float row "초회보험료");
    ("CMIP", cell_float row "CMIP");
    ("상품명", cell row "상품명");
    ("계약자", cell row "계약자");
    ("피보험자", cell row "피보험자");
    ("납입기간", cell row "납입기간");
    ("지급시책_법인", cell_float row ("지급시책" ^^ nl ^^ "_법인"));
    ("지급시책_사용인", cell_float row ("지급시책" ^^ nl ^^ "_사용인"));
    ("지급_계", cell_float row "지급 계");
    ("비고", cell row "비고") ].

Definition append_policy (p : Entry) (e : EmployeeDataStructure) :=
  with_policies (policy_contracts e ++ [p]) e.

Definition policy_contract_row (row : Row) : Proc :=
  fun st =>
    match row_item row "사번" with
    | Err e => Raise e st
    | Ok c =>
        let s := scalar_str c in
        update_with (policy_of row) s append_policy (ensure s st)
    end.

Definition process_policy_contracts (xl : Workbook) : Proc :=
  for_rows policy_contract_row (iterrows (safe_read_sheet xl "시책건별" 0)).

(** *** 업적 *)

Definition sabon_fields : list string := ["수금LP사번"; "모집LP사번"; "원모집FC사번"].

Definition performance_of (field : string) (row : Row) : Entry :=
  [ ("역할", vstr (remove_all "사번" field));
    ("원모집LP", cellv row "원모집LP");
    ("수금LP", cellv row "수금LP");
    ("수금자소속", VDict
       [ ("소속1", cellv row "수금자소속1");
         ("소속2", cellv row "수금자소속2");
         ("소속3", cellv row "수금자소속3");
         ("소속4", cellv row "수금자소속4");
         ("소속5", cellv row "수금자소속5");
         ("소속6", cellv row "수금자소속6") ]);
    ("모집LP", cellv row "모집LP");
    ("보험사", cellv row "보험사");
    ("생손보구분", cellv row "생손보구분");
    ("상품군1", cellv row "상품군1");
    ("상품군2", cellv row "상품군2");
    ("증권번호", cell_str_notnav row "증권번호");
    ("계약일자", cell_str_notnav row "계약일자");
    ("계약상태", cellv row "계약상태");
    ("계약상세상태", cellv row "계약상세상태");
    ("상태변경일", cell_str_notnav row "상태변경일") ].

Definition append_performance (p : Entry) (e : EmployeeDataStructure) :=
  with_performance (performance_records e ++ [p]) e.

Definition performance_field (row : Row) (field : string) : Proc :=
  fun st =>
    if dmem field row && notna (row_get row field) then
      match row_item row field with
      | Err e => Raise e st
      | Ok c =>
          let s := scalar_str c in
          Done (dmodify s (append_performance (performance_of field row)) (ensure s st))
      end
    else Done st.

Fixpoint for_fields (body : string -> Proc) (fields : list string) : Proc :=
  match fields with
  | [] => Done
  | f :: rest => andthen (body f) (for_fields body rest)
  end.

Definition performance_record_row (row : Row) : Proc :=
  for_fields (performance_field row) sabon_fields.

Definition process_performance_records (xl : Workbook) : Proc :=
  try_except
    (for_rows performance_record_row (iterrows (safe_read_sheet xl "업적" 2))).

(** *** Additional allowance sheets *)

(** The guard every optional sheet puts in front of a row:
    [if key in df.columns and pd.notna(row.get(key))], then the lazy creation of
    the record. *)
Definition keyed (df : DataFrame) (key : string) (row : Row)
  (body : string -> Proc) : Proc :=
  fun st =>
    if in_columns key df && notna (row_get row key) then
      match row_item row key with
      | Err e => Raise e st
      | Ok c => let s := scalar_str c in body s (ensure s st)
      end
    else Done st.

(** One [try: ... except Exception] block around the read and the loop. *)
Definition optional_sheet (xl : Workbook) (sheet_name : string) (header : nat)
  (key : string) (body : Row -> string -> Proc) : Proc :=
  try_except
    (fun st =>
       let df := safe_read_sheet xl sheet_name header in
       for_rows (fun row => keyed df key row (body row)) (iterrows df) st).

Definition set_allowance (category : string) (v : PyVal) (e : EmployeeDataStructure) :=
  with_allowances (dset category v (additional_allowances e)) e.

Definition branch_policy_of (row : Row) : Result PyVal :=
  literal_val
  [ ("금액", cell_float row "지급액");
    ("비고", cell row "비고") ].

Definition nonlife_ext_of (row : Row) : Result PyVal :=
  literal_val
  [ ("금액", cell_float row "손보시책 Ext");
    ("비고", cell row "비고") ].

Definition newcomer_ip_of (row : Row) : Result PyVal :=
  literal_val
  [ ("금액", cell_float row "지급액");
    ("모집업적", cell_float row "모집(환산)업적");
    ("지급대상액", cell_float row "지급대상액") ].

Definition mgr_of (row : Row) : Result PyVal :=
  literal_val
  [ ("금액", cell_float row "활성화 지원금");
    ("총_모집업적", cell_float row ("총 모집업적" ^^ nl ^^ "(생,손보)"));
    ("손보모집업적", cell_float row "손보모집업적(①)");
    ("지급율", cell_float row "지급율(%)") ].

Definition retention_of (row : Row) : Result Entry :=
  literal
  [ ("보험사", cell row "보험사");
    ("증권번호", cell_str_notna row "증번");
    ("계약일", cell_str_notna row "계약일");
    ("회차", cell_int row "회차");
    ("상품명", cell row "상품명");
    ("추가지급율", cell_float row "추가지급율");
    ("지급액", cell_float row "지급액");
    ("비고", cell row "비고") ].

(** [if '13회차유지' not in emp.additional_allowances: ... = []]
    [emp.additional_allowances['13회차유지'].append(retention)] *)
Definition append_retention (retention : Entry) (e : EmployeeDataStructure)
  : Result EmployeeDataStructure :=
  let a := additional_allowances e in
  let a1 := if dmem "13회차유지" a then a else dset "13회차유지" (VList []) a in
  match dget "13회차유지" a1 with
  | Some (VList l) =>
      Ok (with_allowances (dset "13회차유지" (VList (l ++ [VDict retention])) a1) e)
  | _ => Err AttributeError
  end.

Definition retention_row (row : Row) (s : string) : Proc :=
  fun st =>
    match retention_of row with
    | Err x => Raise x st
    | Ok retention =>
        match dget s st with
        | None => Raise (KeyError s) st
        | Some e =>
            match append_retention retention e with
            | Ok e' => Done (dmodify s (fun _ => e') st)
            | Err x => Raise x st
            end
        end
    end.

Definition allowance_row (category : string) (build : Row -> Result PyVal)
  (row : Row) (s : string) : Proc :=
  update_with (build row) s (set_allowance category).

Definition process_branch_policy (xl : Workbook) : Proc :=
  optional_sheet xl "시책2 인별명세" 4 "FC 사번"
    (allowance_row "시책2_지사시책" branch_policy_of).

Definition process_nonlife_ext (xl : Workbook) : Proc :=
  optional_sheet xl "손보EXT" 4 "FC 사번" (allowance_row "손보EXT" nonlife_ext_of).

Definition process_newcomer_ip (xl : Workbook) : Proc :=
  optional_sheet xl "수당_신입IP(2025위촉)" 5 "FC 사번"
    (allowance_row "신입IP수당" newcomer_ip_of).

Definition process_mgr (xl : Workbook) : Proc :=
  optional_sheet xl "MGR상생(BM)" 4 "사번" (allowance_row "MGR상생" mgr_of).

Definition process_retention (xl : Workbook) : Proc :=
  optional_sheet xl "13회차 유지(4%)" 4 "FC 사번" retention_row.

Definition process_additional_allowances (xl : Workbook) : Proc :=
  andthen (process_branch_policy xl)
    (andthen (process_nonlife_ext xl)
       (andthen (process_newcomer_ip xl)
          (andthen (process_mgr xl) (process_retention xl)))).

(** *** Clawback sheets *)

Definition clawback_policy_of (row : Row) : Result Entry :=
  literal
  [ ("환수유형", const (vstr "시책2지급분"));
    ("보험사", cell row "보험사");
    ("증권번호", cell_str_notna row "증번");
    ("계약일", cell_str_notna row "계약일");
    ("상품명", cell row "상품명");
    ("계약상태", cell row "계약상태");
    ("초기_월납P", cell_float row "초기_월납P");
    ("변경_월납P", cell_float row "변경_월납P");
    ("환수금액", cell_float row "지급액") ].

Definition clawback_referral_of (row : Row) : Result Entry :=
  literal
  [ ("환수유형", const (vstr "소개비"));
    ("도입자사번", cell_str_notna row "도입자사번");
    ("도입인원", cell_int row "도입인원");
    ("위촉일", cell_str_notna row "위촉일");
    ("해촉일", cell_str_notna row "해촉일");
    ("환수금액", cell_float row "환수대상액") ].

Definition clawback_training_of (row : Row) : Result Entry :=
  literal
  [ ("환수유형", const (vstr "교육비"));
    ("위촉일", cell_str_notna row "위촉일");
    ("해촉일", cell_str_notna row "해촉일");
    ("환수금액", cell_float row "환수대상액");
    ("기준월", cell_str_notna row "기준월") ].

Definition append_clawback (c : Entry) (e : EmployeeDataStructure) :=
  with_clawbacks (clawback_records e ++ [c]) e.

Definition clawback_row (build : Row -> Result Entry) (row : Row) (s : string) : Proc :=
  update_with (build row) s append_clawback.

Definition process_clawback_policy (xl : Workbook) : Proc :=
  optional_sheet xl "환수_시책2지급분_완료" 5 "사번" (clawback_row clawback_policy_of).

Definition process_clawback_referral (xl : Workbook) : Proc :=
  optional_sheet xl "환수_소개비_완료" 5 "사번" (clawback_row clawback_referral_of).

Definition process_clawback_training (xl : Workbook) : Proc :=
  optional_sheet xl "환수_교육비_완료" 18 "사번" (clawback_row clawback_training_of).

Definition process_clawback_records (xl : Workbook) : Proc :=
  andthen (process_clawback_policy xl)
    (andthen (process_clawback_referral xl) (process_clawback_training xl)).

(** *** The derivation pass *)

(** [entry.get(k, 0)] *)
Definition field_or0 (k : string) (e : Entry) : PyVal := dget_or k (vint 0) e.

(** [o.get('역할') == 'receiver'] *)
Definition is_receiver (o : Entry) : bool := val_eq_str (dget "역할" o) "receiver".

Definition total_commission (e : EmployeeDataStructure) : Result Scalar :=
  py_sum (map (field_or0 "지급수수료_합계") (commission_contracts e)).

Definition total_override (e : EmployeeDataStructure) : Result Scalar :=
  py_sum (map (field_or0 "오버라이드_금액") (filter is_receiver (override_records e))).

Definition total_policy (e : EmployeeDataStructure) : Result Scalar :=
  py_sum (map (field_or0 "지급_계") (policy_contracts e)).

Definition total_clawback (e : EmployeeDataStructure) : Result Scalar :=
  py_sum (map (field_or0 "환수금액") (clawback_records e)).

Definition count {A : Type} (l : list A) : Scalar := SInt (Z.of_nat (length l)).

(** The body of the loop over [self.employees.items()]. *)
Definition derive (e : EmployeeDataStructure) : Result EmployeeDataStructure :=
  tc <- total_commission e ;;
  tov <- total_override e ;;
  tp <- total_policy e ;;
  tcl <- total_clawback e ;;
  Ok (with_summary
        (dset "환수건수" (count (clawback_records e))
        (dset "시책계약건수" (count (policy_contracts e))
        (dset "오버라이드건수" (count (filter is_receiver (override_records e)))
        (dset "계약건수" (count (commission_contracts e))
        (dset "총_환수금액" tcl
        (dset "총_시책금액" tp
        (dset "총_오버라이드" tov
        (dset "총_커미션" tc (summary_financials e))))))))) e).

Fixpoint calculate_items (items : Employees) : Outcome :=
  match items with
  | [] => Done []
  | (s, e) :: rest =>
      match derive e with
      | Err x => Raise x items
      | Ok e' =>
          match calculate_items rest with
          | Done st => Done ((s, e') :: st)
          | Raise x st => Raise x ((s, e') :: st)
          end
      end
  end.

Definition calculate_aggregated_financials : Proc := calculate_items.

(** [process_all], run on the empty mapping the processor starts with. *)
Definition process_sheets (xl : Workbook) : Proc :=
  andthen (process_individual_statements xl)
    (andthen (process_commission_contracts xl)
       (andthen (process_override_records xl)
          (andthen (process_policy_contracts xl)
             (andthen (process_performance_records xl)
                (andthen (process_additional_allowances xl)
                   (process_clawback_records xl)))))).

Definition process_all (xl : Workbook) : Outcome :=
  andthen (process_sheets xl) calculate_aggregated_financials [].

(* ------------------------------------------------------------------ *)
(** ** The text fed to the embedding model *)

(** Grouping into a dictionary of lists:
    [if k not in d: d[k] = []] then [d[k].append(x)]. *)
Fixpoint group_add {A} (k : Scalar) (x : A) (g : list (Scalar * list A))
  : list (Scalar * list A) :=
  match g with
  | [] => [(k, [x])]
  | (k', xs) :: rest =>
      if scalar_eqb k' k then (k', xs ++ [x]) :: rest
      else (k', xs) :: group_add k x rest
  end.

(** A dictionary key has to be hashable. *)
Definition hashable (v : PyVal) : Result Scalar :=
  match v with
  | VScalar c => Ok c
  | _ => Err TypeError
  end.

Fixpoint group_into (key : string) (entries : list Entry)
  (g : list (Scalar * list Entry)) : Result (list (Scalar * list Entry)) :=
  match entries with
  | [] => Ok g
  | x :: rest =>
      k <- hashable (dget_or key (vstr "") x) ;;
      group_into key rest (group_add k x g)
  end.

Definition group_by (key : string) (entries : list Entry) :=
  group_into key entries [].

(** [f"  - {k}: {len(xs)}건, {sum(...):,.0f}원"] for every group. *)
Fixpoint group_lines (amount_key : string) (g : list (Scalar * list Entry))
  : Result (list string) :=
  match g with
  | [] => Ok []
  | (k, xs) :: rest =>
      total <- py_sum (map (field_or0 amount_key) xs) ;;
      shown <- fmt0 (VScalar total) ;;
      more <- group_lines amount_key rest ;;
      Ok (("  - " ^^ scalar_str k ^^ ": " ^^ nat_to_string (length xs) ^^ "건, "
             ^^ shown ^^ "원") :: more)
  end.

Definition profile_lines (e : EmployeeDataStructure) : list string :=
  match employee_profile e with
  | [] => []
  | p =>
      [ "사번: " ^^ sabon e;
        "사원명: " ^^ py_str (dget_or "사원명" (vstr "") p);
        "직종: " ^^ py_str (dget_or "직종" (vstr "") p);
        "소속: " ^^ py_str (dget_or "소속" (vstr "") p);
        "소속경로: " ^^ py_str (dget_or "소속경로" (vstr "") p);
        "위촉일: " ^^ py_str (dget_or "위촉일" (vstr "") p);
        "위촉구분: " ^^ py_str (dget_or "위촉구분" (vstr "") p) ]
  end.

Definition summary_line (label key : string) (f : dict Scalar) : Result string :=
  shown <- fmt0 (VScalar (dget_or key (SInt 0) f)) ;;
  Ok (label ^^ ": " ^^ shown ^^ "원").

Definition summary_lines (e : EmployeeDataStructure) : Result (list string) :=
  match summary_financials e with
  | [] => Ok []
  | f =>
      l1 <- summary_line "최종지급액" "최종지급액" f ;;
      l2 <- summary_line "총 커미션" "총_커미션" f ;;
      l3 <- summary_line "총 오버라이드" "총_오버라이드" f ;;
      l4 <- summary_line "총 시책금액" "총_시책금액" f ;;
      l5 <- summary_line "총 환수금액" "총_환수금액" f ;;
      Ok [nl ^^ "## 재무 요약"; l1; l2; l3; l4; l5]
  end.

Definition commission_lines (e : EmployeeDataStructure) : Result (list string) :=
  match commission_contracts e with
  | [] => Ok []
  | cs =>
      total <- py_sum (map (field_or0 "지급수수료_합계") cs) ;;
      shown <- fmt0 (VScalar total) ;;
      by_insurer <- group_by "보험사" cs ;;
      groups <- group_lines "지급수수료_합계" by_insurer ;;
      Ok ([ nl ^^ "## 수수료 계약: " ^^ nat_to_string (length cs) ^^ "건";
            "총 수수료: " ^^ shown ^^ "원";
            "보험사별 계약:" ] ++ groups)
  end.

Definition override_lines (e : EmployeeDataStructure) : Result (list string) :=
  match override_records e with
  | [] => Ok []
  | os =>
      total <- py_sum (map (field_or0 "오버라이드_금액") os) ;;
      shown <- fmt0 (VScalar total) ;;
      by_type <- group_by "오버라이드_종류" os ;;
      groups <- group_lines "오버라이드_금액" by_type ;;
      Ok ([ nl ^^ "## 오버라이드: " ^^ nat_to_string (length os) ^^ "건";
            "총 오버라이드: " ^^ shown ^^ "원" ] ++ groups)
  end.

Definition policy_lines (e : EmployeeDataStructure) : Result (list string) :=
  match policy_contracts e with
  | [] => Ok []
  | ps =>
      total <- py_sum (map (field_or0 "지급_계") ps) ;;
      shown <- fmt0 (VScalar total) ;;
      Ok [ nl ^^ "## 시책 계약: " ^^ nat_to_string (length ps) ^^ "건";
           "총 시책금액: " ^^ shown ^^ "원" ]
  end.

(** One pass of the loop over [self.additional_allowances.items()]. *)
Definition allowance_line (key : string) (value : PyVal) : Result (list string) :=
  if is_number value then
    positive <- py_gt0 value ;;
    if positive : bool
    then shown <- fmt0 value ;; Ok ["  - " ^^ key ^^ ": " ^^ shown ^^ "원"]
    else Ok []
  else
    match value with
    | VDict d =>
        positive <- py_gt0 (dget_or "금액" (vint 0) d) ;;
        if positive : bool
        then shown <- fmt0 (dget_or "금액" (vint 0) d) ;;
             Ok ["  - " ^^ key ^^ ": " ^^ shown ^^ "원"]
        else Ok []
    | _ => Ok []
    end.

Fixpoint allowance_items (items : dict PyVal) : Result (list string) :=
  match items with
  | [] => Ok []
  | (key, value) :: rest =>
      l <- allowance_line key value ;;
      more <- allowance_items rest ;;
      Ok (l ++ more)
  end.

Definition allowance_lines (e : EmployeeDataStructure) : Result (list string) :=
  match additional_allowances e with
  | [] => Ok []
  | a => items <- allowance_items a ;; Ok ((nl ^^ "## 추가 수당") :: items)
  end.

(** [by_type[ctype] += amount], the key starting at 0. *)
Fixpoint total_add (k : Scalar) (x : PyVal) (g : list (Scalar * Scalar))
  : Result (list (Scalar * Scalar)) :=
  match g with
  | [] => v <- py_add_val (SInt 0) x ;; Ok [(k, v)]
  | (k', v) :: rest =>
      if scalar_eqb k' k then v' <- py_add_val v x ;; Ok ((k', v') :: rest)
      else rest' <- total_add k x rest ;; Ok ((k', v) :: rest')
  end.

Fixpoint totals_into (entries : list Entry) (g : list (Scalar * Scalar))
  : Result (list (Scalar * Scalar)) :=
  match entries with
  | [] => Ok g
  | c :: rest =>
      k <- hashable (dget_or "환수유형" (vstr "") c) ;;
      g' <- total_add k (field_or0 "환수금액" c) g ;;
      totals_into rest g'
  end.

Fixpoint total_lines (g : list (Scalar * Scalar)) : Result (list string) :=
  match g with
  | [] => Ok []
  | (k, v) :: rest =>
      shown <- fmt0 (VScalar v) ;;
      more <- total_lines rest ;;
      Ok (("  - " ^^ scalar_str k ^^ ": " ^^ shown ^^ "원") :: more)
  end.

Definition clawback_lines (e : EmployeeDataStructure) : Result (list string) :=
  match clawback_records e with
  | [] => Ok []
  | cs =>
      total <- py_sum (map (field_or0 "환수금액") cs) ;;
      shown <- fmt0 (VScalar total) ;;
      by_type <- totals_into cs [] ;;
      groups <- total_lines by_type ;;
      Ok ([ nl ^^ "## 환수 기록: " ^^ nat_to_string (length cs) ^^ "건";
            "총 환수금액: " ^^ shown ^^ "원" ] ++ groups)
  end.

Definition performance_lines (e : EmployeeDataStructure) : list string :=
  match performance_records e with
  | [] => []
  | ps => [ nl ^^ "## 업적 기록: " ^^ nat_to_string (length ps) ^^ "건" ]
  end.

(** The list [parts] at the end of [to_text_for_embedding]. *)
Definition text_parts (e : EmployeeDataStructure) : Result (list string) :=
  summary <- summary_lines e ;;
  commission <- commission_lines e ;;
  override <- override_lines e ;;
  policy <- policy_lines e ;;
  allowance <- allowance_lines e ;;
  clawback <- clawback_lines e ;;
  Ok (profile_lines e ++ summary ++ commission ++ override ++ policy
        ++ allowance ++ clawback ++ performance_lines e).

Definition to_text_for_embedding (e : EmployeeDataStructure) : Result string :=
  parts <- text_parts e ;; Ok (join nl parts).

(* ------------------------------------------------------------------ *)
(** ** Documents *)

Record Document := {
  id : string;
  doc_type : string;
  text : string;
  metadata : dict PyVal
}.

Definition profile_document (s : string) (e : EmployeeDataStructure)
  : Result Document :=
  t <- to_text_for_embedding e ;;
  Ok {| id := s ^^ "_profile";
        doc_type := "employee_profile";
        text := t;
        metadata :=
          [ ("사번", vstr s);
            ("사원명", dget_or "사원명" (vstr "") (employee_profile e));
            ("직종", dget_or "직종" (vstr "") (employee_profile e));
            ("소속", dget_or "소속" (vstr "") (employee_profile e));
            ("위촉일", dget_or "위촉일" (vstr "") (employee_profile e));
            ("최종지급액", VScalar (dget_or "최종지급액" (SInt 0) (summary_financials e)));
            ("총_커미션", VScalar (dget_or "총_커미션" (SInt 0) (summary_financials e)));
            ("총_오버라이드", VScalar (dget_or "총_오버라이드" (SInt 0) (summary_financials e)));
            ("계약건수", VScalar (dget_or "계약건수" (SInt 0) (summary_financials e))) ] |}.

Fixpoint generate_employee_centric_documents (employees : Employees)
  : Result (list Document) :=
  match employees with
  | [] => Ok []
  | (s, e) :: rest =>
      doc <- profile_document s e ;;
      docs <- generate_employee_centric_documents rest ;;
      Ok (doc :: docs)
  end.

(* ------------------------------------------------------------------ *)
(** ** Part 3: the uploader *)

Record Vector := {
  vector_id : string;
  vector_values : list F;
  vector_metadata : dict PyVal
}.

Section Uploader.

(** The two remote services.  [World] is whatever they remember between
    calls; a call returns the new world and its answer or its failure. *)
Variable World : Type.
Variable embeddings_create : World -> list string -> World * Result (list (list F)).
Variable index_upsert : World -> list Vector -> string -> World * bool.

Definition generate_embeddings_batch (w : World) (texts : list string)
  : World * Result (list (list F)) :=
  if (2048 <? length texts)%nat
  then (w, Err (ValueError "OpenAI supports max 2048 texts per batch"))
  else embeddings_create w texts.

(** What the run has done so far: the accepted [upsert] calls in order and
    the counter [total_uploaded].  The cost estimate, the progress bar and
    the closing [verify_upload] only print. *)
Record UploadState := {
  world : World;
  upserted : list (string * list Vector);
  total_uploaded : nat
}.

Inductive UploadOutcome :=
| Uploaded (st : UploadState)
| Aborted (e : Exn) (st : UploadState).

Definition with_world (w : World) (st : UploadState) : UploadState :=
  {| world := w; upserted := upserted st; total_uploaded := total_uploaded st |}.

(** [doc['metadata'][k]] *)
Definition meta_item (doc : Document) (k : string) : Result PyVal :=
  match dget k (metadata doc) with
  | Some v => Ok v
  | None => Err (KeyError k)
  end.

(** Lines 884-889: [docs_by_employee]. *)
Fixpoint group_documents_into (documents : list Document)
  (g : list (Scalar * list Document)) : Result (list (Scalar * list Document)) :=
  match documents with
  | [] => Ok g
  | doc :: rest =>
      v <- meta_item doc "사번" ;;
      k <- hashable v ;;
      group_documents_into rest (group_add k doc g)
  end.

Definition group_documents (documents : list Document) :=
  group_documents_into documents [].

(** [doc_sabon != sabon] *)
Definition differs (doc_sabon : PyVal) (s : Scalar) : bool :=
  match doc_sabon with
  | VScalar c => negb (scalar_eqb c s)
  | _ => true
  end.

Definition security_error (doc_sabon : PyVal) (s : Scalar) : Exn :=
  ValueError ("🚨 Security Error: Document 사번 (" ^^ py_str doc_sabon
              ^^ ") doesn't match employee (" ^^ scalar_str s ^^ ")").

Definition is_security_error (e : Exn) : bool :=
  match e with
  | ValueError msg => prefix "🚨 Security Error" msg
  | _ => false
  end.

Definition reserved (k : string) : bool :=
  existsb (String.eqb k) ["사번"; "사원명"; "doc_type"].

Definition is_none (v : PyVal) : bool :=
  match v with
  | VScalar SNone => true
  | _ => false
  end.

Definition vector_of (doc : Document) (embedding : list F) : Result Vector :=
  s <- meta_item doc "사번" ;;
  name <- meta_item doc "사원명" ;;
  Ok {| vector_id := id doc;
        vector_values := embedding;
        vector_metadata :=
          [ ("사번", s); ("사원명", name); ("doc_type", vstr (doc_type doc)) ]
          ++ filter (fun kv => negb (reserved (fst kv)) && negb (is_none (snd kv)))
               (metadata doc) |}.

(** Lines 924-944: the loop over [zip(batch, embeddings)]. *)
Fixpoint build_vectors (s : Scalar) (pairs : list (Document * list F))
  : Result (list Vector) :=
  match pairs with
  | [] => Ok []
  | (doc, embedding) :: rest =>
      doc_sabon <- meta_item doc "사번" ;;
      if differs doc_sabon s then Err (security_error doc_sabon s)
      else
        v <- vector_of doc embedding ;;
        vs <- build_vectors s rest ;;
        Ok (v :: vs)
  end.

(** [range(0, len(docs), batch_size)] with the slices it selects. *)
Fixpoint chunks {A} (fuel n : nat) (l : list A) : list (list A) :=
  match fuel with
  | O => []
  | S fuel' =>
      match l with
      | [] => []
      | _ => firstn n l :: chunks fuel' n (skipn n l)
      end
  end.

Definition batches_of {A} (batch_size : Z) (l : list A) : Result (list (list A)) :=
  if (batch_size =? 0)%Z then Err (ValueError "range() arg 3 must not be zero")
  else if (batch_size <? 0)%Z then Ok []
  else Ok (chunks (length l) (Z.to_nat batch_size) l).

Definition record_upsert (w : World) (namespace : string) (vectors : list Vector)
  (st : UploadState) : UploadState :=
  {| world := w;
     upserted := upserted st ++ [(namespace, vectors)];
     total_uploaded := total_uploaded st + length vectors |}.

(** Lines 908-953: the batches of one employee. *)
Fixpoint upload_batches (s : Scalar) (namespace : string)
  (batches : list (list Document)) (st : UploadState) : UploadOutcome :=
  match batches with
  | [] => Uploaded st
  | batch :: rest =>
      match generate_embeddings_batch (world st) (map text batch) with
      | (w, Err _) => upload_batches s namespace rest (with_world w st)
      | (w, Ok embeddings) =>
          match build_vectors s (combine batch embeddings) with
          | Err e => Aborted e (with_world w st)
          | Ok vectors =>
              match index_upsert w vectors namespace with
              | (w', true) =>
                  upload_batches s namespace rest (record_upsert w' namespace vectors st)
              | (w', false) => upload_batches s namespace rest (with_world w' st)
              end
          end
      end
  end.

(** Lines 903-953: the loop over [docs_by_employee.items()]. *)
Fixpoint upload_groups (batch_size : Z) (groups : list (Scalar * list Document))
  (st : UploadState) : UploadOutcome :=
  match groups with
  | [] => Uploaded st
  | (s, employee_docs) :: rest =>
      match employee_docs with
      | [] => Aborted IndexError st
      | _ =>
          match batches_of batch_size employee_docs with
          | Err e => Aborted e st
          | Ok batches =>
              match upload_batches s ("employee_" ^^ scalar_str s) batches st with
              | Uploaded st' => upload_groups batch_size rest st'
              | Aborted e st' => Aborted e st'
              end
          end
      end
  end.

Definition start (w : World) : UploadState :=
  {| world := w; upserted := []; total_uploaded := 0 |}.

(** [upload_documents]; the statistics printed at line 894 divide by the
    number of groups. *)
Definition upload_documents (documents : list Document) (batch_size : Z) (w : World)
  : UploadOutcome :=
  match group_documents documents with
  | Err e => Aborted e (start w)
  | Ok [] => Aborted ZeroDivisionError (start w)
  | Ok docs_by_employee => upload_groups batch_size docs_by_employee (start w)
  end.

End Uploader.

End Model.

Arguments Scalar : clear implicits.
Arguments PyVal : clear implicits.
Arguments DataFrame : clear implicits.
Arguments Row : clear implicits.
Arguments Workbook : clear implicits.
Arguments Entry : clear implicits.
Arguments EmployeeDataStructure : clear implicits.
Arguments Employees : clear implicits.
Arguments Outcome : clear implicits.
Arguments Proc : clear implicits.
Arguments Document : clear implicits.
Arguments Vector : clear implicits.
Arguments UploadState : clear implicits.
Arguments UploadOutcome : clear implicits.
Arguments Uploaded {F World} st.
Arguments Aborted {F World} e st.
Arguments world {F World} u.
Arguments upserted {F World} u.
Arguments total_uploaded {F World} u.
Arguments with_world {F World} w st.
Arguments record_upsert {F World} w namespace vectors st.
Arguments start {F World} w.

(* ================================================================== *)
(** ** A runtime to evaluate the model on concrete sheets

    Floats with integral values, which is what amounts in won and numeric
    identifiers are: [12345.0] is the integer 12345.  On these values
    addition is integer addition, [str] prints the digits followed by [.0]
    and [format(x, ',.0f')] prints the digits in groups of three.  Text is
    read back when it is a plain integer literal; the sheets below hold no
    other numeric text. *)

Fixpoint commas_rev (digits : list ascii) : list ascii :=
  match digits with
  | a :: b :: c :: (_ :: _) as rest => a :: b :: c :: ","%char :: commas_rev rest
  | _ => digits
  end.

Definition with_commas (z : Z) : string :=
  let body :=
    string_of_list_ascii
      (rev (commas_rev (rev (list_ascii_of_string (Z_to_string (Z.abs z)))))) in
  if (z <? 0)%Z then "-" ^^ body else body.

Definition read_integer (s : string) : option Z :=
  match NilZero.int_of_string s with
  | Some d => Some (Z.of_int d)
  | None => None
  end.

#[export] Instance integral_floats : PyFloat Z := {|
  f_of_int := fun z => z;
  f_of_str := read_integer;
  f_add := Z.add;
  f_eqb := Z.eqb;
  f_eqb_int := Z.eqb;
  f_gt0 := fun x => (0 <? x)%Z;
  f_nonzero := fun x => negb (x =? 0)%Z;
  f_isnan := fun _ => false;
  f_trunc := fun x => Some x;
  f_str := fun x => Z_to_string x ^^ ".0";
  f_fmt0 := with_commas;
  int_of_str := read_integer;
  repr_str := fun s => "'" ^^ s ^^ "'"
|}.

(* ================================================================== *)
(** ** Observations used in the statements *)

Section Observations.

Context {F : Type} {PF : PyFloat F}.

(** [isinstance(v, (int, float))] as a proposition. *)
Definition numeric (v : PyVal F) : Prop := is_number v = true.

(** The summary fields written by the derivation pass. *)
Definition derived_keys : list string :=
  [ "총_커미션"; "총_오버라이드"; "총_시책금액"; "총_환수금액";
    "계약건수"; "오버라이드건수"; "시책계약건수"; "환수건수" ].

(** Everything of a record except its summary. *)
Definition same_sources (e e' : EmployeeDataStructure F) : Prop :=
  sabon e' = sabon e
  /\ employee_profile e' = employee_profile e
  /\ commission_contracts e' = commission_contracts e
  /\ override_records e' = override_records e
  /\ policy_contracts e' = policy_contracts e
  /\ performance_records e' = performance_records e
  /\ additional_allowances e' = additional_allowances e
  /\ clawback_records e' = clawback_records e.

(** The summary of [e] holds the sums and counts of the lists of [e]. *)
Definition summary_matches_lists (e : EmployeeDataStructure F) : Prop :=
  exists tc tov tp tcl,
    py_sum (map (field_or0 "지급수수료_합계") (commission_contracts e)) = Ok tc
    /\ py_sum (map (field_or0 "오버라이드_금액")
                 (filter is_receiver (override_records e))) = Ok tov
    /\ py_sum (map (field_or0 "지급_계") (policy_contracts e)) = Ok tp
    /\ py_sum (map (field_or0 "환수금액") (clawback_records e)) = Ok tcl
    /\ dget "총_커미션" (summary_financials e) = Some tc
    /\ dget "총_오버라이드" (summary_financials e) = Some tov
    /\ dget "총_시책금액" (summary_financials e) = Some tp
    /\ dget "총_환수금액" (summary_financials e) = Some tcl
    /\ dget "계약건수" (summary_financials e)
       = Some (count (commission_contracts e))
    /\ dget "오버라이드건수" (summary_financials e)
       = Some (count (filter is_receiver (override_records e)))
    /\ dget "시책계약건수" (summary_financials e)
       = Some (count (policy_contracts e))
    /\ dget "환수건수" (summary_financials e)
       = Some (count (clawback_records e)).

(** The override entries filed under [s], none if there is no record. *)
Definition overrides_of (s : string) (st : Employees F) : list (Entry F) :=
  match dget s st with
  | Some e => override_records e
  | None => []
  end.

(** Number of override entries in the whole mapping. *)
Definition override_entries (st : Employees F) : nat :=
  list_sum (map (fun kv => length (override_records (snd kv))) st).

(** What one processed row of the override sheet leaves behind: the row's
    entry under the receiver, its copy under the FC, each naming the other
    employee, and nothing else. *)
Definition files_two_linked_entries (row : Row F) (st st' : Employees F) : Prop :=
  exists rc fc o,
    row_item row "[오버라이드] 대상자사번" = Ok rc
    /\ row_item row "[FC] 대상자사번" = Ok fc
    /\ override_of row = Ok o
    /\ dget "역할" o = Some (vstr "receiver")
    /\ dget "FC_사번" o = Some (vstr (scalar_str fc))
    /\ dget "FC_대상자" o = Some (cellv row "[FC] 대상자")
    /\ dget "역할" (fc_override_of o (scalar_str rc) row) = Some (vstr "fc")
    /\ dget "수령자_사번" (fc_override_of o (scalar_str rc) row)
       = Some (vstr (scalar_str rc))
    /\ dget "수령자_이름" (fc_override_of o (scalar_str rc) row)
       = Some (cellv row "[오버라이드] 대상자")
    /\ (scalar_str rc <> scalar_str fc ->
          overrides_of (scalar_str rc) st'
          = overrides_of (scalar_str rc) st ++ [o]
          /\ overrides_of (scalar_str fc) st'
             = overrides_of (scalar_str fc) st
                 ++ [fc_override_of o (scalar_str rc) row])
    /\ (scalar_str rc = scalar_str fc ->
          overrides_of (scalar_str rc) st'
          = overrides_of (scalar_str rc) st
              ++ [o; fc_override_of o (scalar_str rc) row])
    /\ (forall s, s <> scalar_str rc -> s <> scalar_str fc ->
          overrides_of s st' = overrides_of s st)
    /\ override_entries st' = override_entries st + 2.

(** The commission entries filed under [s]. *)
Definition commissions_of (s : string) (st : Employees F) : list (Entry F) :=
  match dget s st with
  | Some e => commission_contracts e
  | None => []
  end.

(** The cell writes the identifier [z] as a number or as its digits. *)
Definition writes_id (z : Z) (c : Scalar F) : Prop :=
  c = SInt z \/ c = SStr (Z_to_string z).

(** The value filed under an allowance category of the record of [s]. *)
Definition allowance_of (category s : string) (st : Employees F)
  : option (PyVal F) :=
  match dget s st with
  | Some e => dget category (additional_allowances e)
  | None => None
  end.

(** The retention entries of the record of [s]. *)
Definition retained (s : string) (st : Employees F) : list (PyVal F) :=
  match allowance_of "13회차유지" s st with
  | Some (VList l) => l
  | _ => []
  end.

(** The row passes the guard of its sheet and names employee [s]. *)
Definition keyed_to (df : DataFrame F) (key s : string) (row : Row F) : bool :=
  in_columns key df && notna (row_get row key)
  && (scalar_str (row_get row key) =? s).

(** The loop of an optional sheet, without the [try] around it. *)
Definition sheet_loop (df : DataFrame F) (key : string)
  (body : Row F -> string -> Proc F) (rows : list (Row F)) : Proc F :=
  for_rows (fun row => keyed df key row (body row)) rows.

(** The categories that hold one structure, with the literal of each. *)
Definition single_categories : list (string * (Row F -> Result (PyVal F))) :=
  [ ("시책2_지사시책", branch_policy_of);
    ("손보EXT", nonlife_ext_of);
    ("신입IP수당", newcomer_ip_of);
    ("MGR상생", mgr_of) ].

(** The retention entries of the rows of a sheet that name [s], in order. *)
Fixpoint retention_entries (df : DataFrame F) (s : string) (rows : list (Row F))
  : list (PyVal F) :=
  match rows with
  | [] => []
  | row :: rest =>
      if keyed_to df "FC 사번" s row then
        match retention_of row with
        | Ok r => VDict r :: retention_entries df s rest
        | Err _ => retention_entries df s rest
        end
      else retention_entries df s rest
  end.

(** The literals of the three clawback sheets. *)
Definition clawback_literals : list (Row F -> Result (Entry F)) :=
  [ clawback_policy_of; clawback_referral_of; clawback_training_of ].

(** [P] survives the pass, however the pass ends. *)
Definition keeps (P : Employees F -> Prop) (p : Proc F) : Prop :=
  forall st, P st -> P (state_of (p st)).

(** [P] survives every single write the sheet passes perform. *)
Record Stable (P : Employees F -> Prop) : Prop := {
  stable_ensure : forall s st, P st -> P (ensure s st);
  stable_create : forall s st,
    P st -> dmem s st = false -> P (dset s new_employee st);
  stable_profile : forall row s st,
    P st ->
    P (dmodify s (fun e => with_profile (profile_of row) (with_sabon s e)) st);
  stable_summary : forall row fin s st,
    financials_of row = Ok fin -> P st -> P (dmodify s (with_summary fin) st);
  stable_commission : forall row c s st,
    contract_of row = Ok c -> P st -> P (dmodify s (append_commission c) st);
  stable_override : forall row o s st,
    override_of row = Ok o -> P st -> P (dmodify s (append_override o) st);
  stable_override_fc : forall row o r s st,
    override_of row = Ok o -> P st ->
    P (dmodify s (append_override (fc_override_of o r row)) st);
  stable_policy : forall row p s st,
    policy_of row = Ok p -> P st -> P (dmodify s (append_policy p) st);
  stable_performance : forall field row s st,
    P st -> P (dmodify s (append_performance (performance_of field row)) st);
  stable_allowance : forall category build row v s st,
    In (category, build) single_categories -> build row = Ok v ->
    P st -> P (dmodify s (set_allowance category v) st);
  stable_retention : forall row r s e e' st,
    retention_of row = Ok r -> dget s st = Some e ->
    append_retention r e = Ok e' ->
    P st -> P (dmodify s (fun _ => e') st);
  stable_clawback : forall build row c s st,
    In build clawback_literals -> build row = Ok c ->
    P st -> P (dmodify s (append_clawback c) st)
}.

(** The record is as it was, apart from its allowances. *)
Definition same_but_allowances (e e' : EmployeeDataStructure F) : Prop :=
  sabon e' = sabon e
  /\ employee_profile e' = employee_profile e
  /\ commission_contracts e' = commission_contracts e
  /\ override_records e' = override_records e
  /\ policy_contracts e' = policy_contracts e
  /\ performance_records e' = performance_records e
  /\ clawback_records e' = clawback_records e
  /\ summary_financials e' = summary_financials e.

(** The record is as it was, apart from its clawback entries. *)
Definition same_but_clawbacks (e e' : EmployeeDataStructure F) : Prop :=
  sabon e' = sabon e
  /\ employee_profile e' = employee_profile e
  /\ commission_contracts e' = commission_contracts e
  /\ override_records e' = override_records e
  /\ policy_contracts e' = policy_contracts e
  /\ performance_records e' = performance_records e
  /\ additional_allowances e' = additional_allowances e
  /\ summary_financials e' = summary_financials e.

(** Every record of [st0] is still there in [st], related by [r]. *)
Definition kept (r : EmployeeDataStructure F -> EmployeeDataStructure F -> Prop)
  (st0 st : Employees F) : Prop :=
  forall s e0, dget s st0 = Some e0 -> exists e, dget s st = Some e /\ r e0 e.

(** The optional sheets: name, header offset, key column and row body. *)
Record OptionalSheet := {
  os_name : string;
  os_header : nat;
  os_key : string;
  os_body : Row F -> string -> Proc F
}.

Definition run_optional (xl : Workbook F) (o : OptionalSheet) : Proc F :=
  optional_sheet xl (os_name o) (os_header o) (os_key o) (os_body o).

Definition allowance_sheets : list OptionalSheet :=
  [ {| os_name := "시책2 인별명세"; os_header := 4; os_key := "FC 사번";
       os_body := allowance_row "시책2_지사시책" branch_policy_of |};
    {| os_name := "손보EXT"; os_header := 4; os_key := "FC 사번";
       os_body := allowance_row "손보EXT" nonlife_ext_of |};
    {| os_name := "수당_신입IP(2025위촉)"; os_header := 5; os_key := "FC 사번";
       os_body := allowance_row "신입IP수당" newcomer_ip_of |};
    {| os_name := "MGR상생(BM)"; os_header := 4; os_key := "사번";
       os_body := allowance_row "MGR상생" mgr_of |};
    {| os_name := "13회차 유지(4%)"; os_header := 4; os_key := "FC 사번";
       os_body := retention_row |} ].

Definition clawback_sheets : list OptionalSheet :=
  [ {| os_name := "환수_시책2지급분_완료"; os_header := 5; os_key := "사번";
       os_body := clawback_row clawback_policy_of |};
    {| os_name := "환수_소개비_완료"; os_header := 5; os_key := "사번";
       os_body := clawback_row clawback_referral_of |};
    {| os_name := "환수_교육비_완료"; os_header := 18; os_key := "사번";
       os_body := clawback_row clawback_training_of |} ].

(** The passes in sequence, as [process_additional_allowances] and
    [process_clawback_records] run them. *)
Fixpoint run_in_order (xl : Workbook F) (sheets : list OptionalSheet) : Proc F :=
  match sheets with
  | [] => Done
  | [o] => run_optional xl o
  | o :: rest => andthen (run_optional xl o) (run_in_order xl rest)
  end.

(** The document declares its owner, as text. *)
Definition carries_text_sabon (doc : Document F) : Prop :=
  exists s, dget "사번" (metadata doc) = Some (vstr s).

(** Every document of the group declares the key of the group. *)
Definition well_grouped (g : Scalar F * list (Document F)) : Prop :=
  Forall (fun doc => dget "사번" (metadata doc) = Some (VScalar (fst g))) (snd g).

(** A group whose key is text. *)
Definition text_group (g : Scalar F * list (Document F)) : Prop :=
  (exists t, fst g = SStr t) /\ well_grouped g.

(** The documents of all groups. *)
Definition grouped_documents (groups : list (Scalar F * list (Document F)))
  : list (Document F) :=
  flat_map snd groups.

(** Every profile attribute is a scalar, except the nested 조직. *)
Definition profile_scalars (e : EmployeeDataStructure F) : Prop :=
  Forall (fun kv => fst kv = "조직" \/ is_scalar (snd kv) = true)
    (employee_profile e).

(** The keys of the mapping are distinct and its profiles are flat. *)
Definition well_formed (st : Employees F) : Prop :=
  NoDup (keys st) /\ Forall (fun kv => profile_scalars (snd kv)) st.

Definition metadata_keys : list string :=
  [ "사번"; "사원명"; "직종"; "소속"; "위촉일";
    "최종지급액"; "총_커미션"; "총_오버라이드"; "계약건수" ].

(** [doc] is the profile document of the record [e] filed under [s]. *)
Definition profile_document_of (s : string) (e : EmployeeDataStructure F)
  (doc : Document F) : Prop :=
  id doc = s ^^ "_profile"
  /\ doc_type doc = "employee_profile"
  /\ to_text_for_embedding e = Ok (text doc)
  /\ dget "사번" (metadata doc) = Some (vstr s)
  /\ keys (metadata doc) = metadata_keys
  /\ forallb is_scalar (values (metadata doc)) = true.

(** The entry holds a number under [key], and a scalar under [key]. *)
Definition amount_typed (key : string) (x : Entry F) : Prop :=
  numeric (field_or0 key x).

Definition key_hashable (key : string) (x : Entry F) : Prop :=
  is_scalar (dget_or key (vstr "") x) = true.

Definition allowance_typed (v : PyVal F) : Prop :=
  match v with
  | VDict d => numeric (dget_or "금액" (vint 0) d)
  | _ => True
  end.

(** The shape the passes give to the fields the derivation pass and the
    text rendering read. *)
Definition typed (e : EmployeeDataStructure F) : Prop :=
  Forall (fun c => amount_typed "지급수수료_합계" c /\ key_hashable "보험사" c)
    (commission_contracts e)
  /\ Forall (fun o => amount_typed "오버라이드_금액" o
                     /\ key_hashable "오버라이드_종류" o)
       (override_records e)
  /\ Forall (amount_typed "지급_계") (policy_contracts e)
  /\ Forall (fun c => amount_typed "환수금액" c /\ key_hashable "환수유형" c)
       (clawback_records e)
  /\ Forall (fun kv => allowance_typed (snd kv)) (additional_allowances e)
  /\ Forall (fun kv => numeric (VScalar (snd kv))) (summary_financials e).

Definition all_typed (st : Employees F) : Prop :=
  Forall (fun kv => typed (snd kv)) st.

(** The passes over the four required sheets. *)
Definition required_passes (xl : Workbook F) : Proc F :=
  andthen (process_individual_statements xl)
    (andthen (process_commission_contracts xl)
       (andthen (process_override_records xl) (process_policy_contracts xl))).

(** The role tags of all override entries, record by record. *)
Definition override_roles (st : Employees F) : list (option (PyVal F)) :=
  flat_map (fun kv => map (dget "역할") (override_records (snd kv))) st.

(** The headers that open the sections of the text. *)
Definition summary_header : string := nl ^^ "## 재무 요약".
Definition commission_header : string := nl ^^ "## 수수료 계약".
Definition allowance_header : string := nl ^^ "## 추가 수당".
Definition clawback_header : string := nl ^^ "## 환수 기록".





(** The grouping key of an entry when it is text. *)
Definition text_key (key : string) (x : Entry F) : string :=
  match dget_or key (vstr "") x with
  | VScalar (SStr s) => s
  | _ => ""
  end.

Definition has_text_key (key : string) (x : Entry F) : Prop :=
  dget_or key (vstr "") x = vstr (text_key key x).

(** The distinct elements of a list, in the order they first occur. *)
Fixpoint first_seen (l : list string) : list string :=
  match l with
  | [] => []
  | k :: rest => k :: filter (fun k' => negb (k' =? k)) (first_seen rest)
  end.

Definition with_key (key k : string) (xs : list (Entry F)) : list (Entry F) :=
  filter (fun x => text_key key x =? k) xs.

(** One group per distinct key, in first-seen order, each holding the
    entries with that key in their order. *)
Definition groups_of (key : string) (xs : list (Entry F))
  : list (Scalar F * list (Entry F)) :=
  map (fun k => (SStr k, with_key key k xs)) (first_seen (map (text_key key) xs)).

(** The same grouping seen from a dictionary already under construction. *)
Definition mem (k : string) (l : list string) : bool := existsb (String.eqb k) l.

Fixpoint text_group_add (k : string) (x : Entry F) (g : list (string * list (Entry F)))
  : list (string * list (Entry F)) :=
  match g with
  | [] => [(k, [x])]
  | (k', ys) :: rest =>
      if k' =? k then (k', ys ++ [x]) :: rest
      else (k', ys) :: text_group_add k x rest
  end.

Definition as_scalar_keys (g : list (string * list (Entry F)))
  : list (Scalar F * list (Entry F)) :=
  map (fun kv => (SStr (fst kv), snd kv)) g.

Definition extended (key : string) (g : list (string * list (Entry F)))
  (xs : list (Entry F)) : list (string * list (Entry F)) :=
  map (fun kv => (fst kv, snd kv ++ with_key key (fst kv) xs)) g
  ++ map (fun k => (k, with_key key k xs))
       (filter (fun k => negb (mem k (map fst g)))
          (first_seen (map (text_key key) xs))).

(** The line of one group in a breakdown. *)
Definition group_line (name : string) (entries : nat) (shown : string) : string :=
  "  - " ^^ name ^^ ": " ^^ nat_to_string entries ^^ "건, " ^^ shown ^^ "원".








End Observations.

(* ================================================================== *)
(** ** Sample sheets *)

Definition sheet (cols : list string) (rows : list (list (Scalar Z))) : DataFrame Z :=
  {| columns := cols; data := rows |}.

(** A workbook given by its sheets; a sheet that is not listed cannot be
    read. *)
Definition book (sheets : dict (DataFrame Z)) : Workbook Z :=
  fun sheet_name _ => dget sheet_name sheets.

Definition roster_sheet : DataFrame Z :=
  sheet ["사번"; "사원명"; "직종"; "소속"; "위촉일"; "최종지급액"]
    [ [SInt 12345; SStr "김철수"; SStr "FC"; SStr "서울지점";
       SDate "2024-03-01 00:00:00"; SInt 2500000];
      [SInt 777; SStr "이영희"; SStr "BM"; SStr "서울지점"; SNone; SFloat 3100000%Z] ].

Definition commission_sheet : DataFrame Z :=
  sheet ["지급사원번호"; "보험사"; "증권번호"; "[지급수수료] 합계"]
    [ [SStr "12345"; SStr "A생명"; SStr "P-1"; SFloat 60%Z];
      [SStr "12345"; SStr "B화재"; SStr "P-2"; SFloat 50%Z];
      [SInt 12345; SStr "A생명"; SStr "P-3"; SFloat 40%Z] ].

Definition override_sheet : DataFrame Z :=
  sheet ["[오버라이드] 대상자사번"; "[오버라이드] 대상자"; "[오버라이드] 종류";
         "[FC] 대상자사번"; "[FC] 대상자"; "[지급수수료] 오버라이드"]
    [ [SInt 777; SStr "이영희"; SStr "BM"; SInt 12345; SStr "김철수"; SFloat 300%Z] ].

Definition policy_sheet : DataFrame Z :=
  sheet ["사번"; "지급 계"] [ [SInt 12345; SFloat 70%Z] ].

Definition branch_policy_sheet : DataFrame Z :=
  sheet ["FC 사번"; "지급액"; "비고"]
    [ [SInt 12345; SFloat 500%Z; SNone];
      [SInt 12345; SFloat 650%Z; SStr "정정"] ].

Definition retention_sheet : DataFrame Z :=
  sheet ["FC 사번"; "보험사"; "지급액"]
    [ [SInt 12345; SStr "A생명"; SFloat 10%Z];
      [SInt 12345; SStr "B화재"; SFloat 20%Z] ].

Definition clawback_sheet : DataFrame Z :=
  sheet ["사번"; "지급액"] [ [SInt 777; SFloat 30%Z] ].

Definition sample_book : Workbook Z :=
  book [ ("인별명세", roster_sheet);
         ("건별수수료", commission_sheet);
         ("건별OR", override_sheet);
         ("시책건별", policy_sheet);
         ("시책2 인별명세", branch_policy_sheet);
         ("13회차 유지(4%)", retention_sheet);
         ("환수_시책2지급분_완료", clawback_sheet) ].

(** The mapping before and after the derivation pass on the sample
    workbook, and the record of the FC of its override row. *)
Definition sample_sources : Employees Z := state_of (process_sheets sample_book []).
Definition sample_employees : Employees Z := state_of (process_all sample_book).
Definition sample_fc : EmployeeDataStructure Z :=
  match dget "12345" sample_employees with
  | Some e => e
  | None => new_employee
  end.

Definition sample_override_row : Row Z := hd [] (iterrows override_sheet).
Definition sample_roster_row : Row Z := hd [] (iterrows roster_sheet).
Definition sample_commission_row : Row Z := hd [] (iterrows commission_sheet).
Definition first_branch_row : Row Z := nth 0 (iterrows branch_policy_sheet) [].
Definition second_branch_row : Row Z := nth 1 (iterrows branch_policy_sheet) [].

(** The roster row as pandas reads it when the identifier column holds a
    blank somewhere: the column is of floats. *)
Definition float_keyed_roster_row : Row Z :=
  [ ("사번", SFloat 12345%Z); ("사원명", SStr "김철수"); ("최종지급액", SInt 2500000) ].

Definition text_keyed_commission_row : Row Z :=
  [ ("지급사원번호", SStr "12345"); ("보험사", SStr "A생명");
    ("[지급수수료] 합계", SFloat 60%Z) ].

(** An allowance sheet whose second row carries text in its amount cell. *)
Definition malformed_allowance_sheet : DataFrame Z :=
  sheet ["FC 사번"; "지급액"; "비고"]
    [ [SInt 12345; SFloat 500%Z; SNone];
      [SInt 888; SStr "미정"; SNone];
      [SInt 777; SFloat 900%Z; SNone] ].

Definition malformed_book : Workbook Z :=
  book [ ("인별명세", roster_sheet);
         ("건별수수료", commission_sheet);
         ("건별OR", override_sheet);
         ("시책건별", policy_sheet);
         ("시책2 인별명세", malformed_allowance_sheet) ].

(** The mapping when the allowance pass starts on [malformed_book], the
    description of its first sheet, and the rows of that sheet. *)
Definition malformed_before : Employees Z :=
  state_of
    (andthen (process_individual_statements malformed_book)
       (andthen (process_commission_contracts malformed_book)
          (andthen (process_override_records malformed_book)
             (andthen (process_policy_contracts malformed_book)
                (process_performance_records malformed_book)))) []).

Definition branch_policy_source : OptionalSheet (F := Z) :=
  {| os_name := "시책2 인별명세"; os_header := 4; os_key := "FC 사번";
     os_body := allowance_row "시책2_지사시책" branch_policy_of |}.

Definition malformed_rows : list (Row Z) := iterrows malformed_allowance_sheet.

(** Remote services that always answer: one fixed embedding per text, and
    an index that accepts every call. *)
Definition embed_fixed (w : unit) (texts : list string)
  : unit * Result (list (list Z)) :=
  (w, Ok (map (fun _ => [1%Z; 0%Z]) texts)).

Definition upsert_accepts (w : unit) (vectors : list (Vector Z)) (namespace : string)
  : unit * bool :=
  (w, true).

Definition document_for (owner name : string) : Document Z :=
  {| id := owner ^^ "_profile";
     doc_type := "employee_profile";
     text := "사번: " ^^ owner;
     metadata := [ ("사번", vstr owner); ("사원명", vstr name) ] |}.


Definition sample_documents : list (Document Z) :=
  [ document_for "1001" "김철수"; document_for "2002" "이영희";
    document_for "1001" "김철수" ].














(* ================================================================== *)
(** ** The rest of the script: the storage form, the report, the connection *)

Section Reporting.

Context {F : Type} {PF : PyFloat F}.

(** [EmployeeDataStructure.to_dict] *)
Definition to_dict (e : EmployeeDataStructure F) : dict (PyVal F) :=
  [ ("sabon", vstr (sabon e));
    ("employee_profile", VDict (employee_profile e));
    ("commission_contracts", VList (map VDict (commission_contracts e)));
    ("override_records", VList (map VDict (override_records e)));
    ("policy_contracts", VList (map VDict (policy_contracts e)));
    ("performance_records", VList (map VDict (performance_records e)));
    ("additional_allowances", VDict (additional_allowances e));
    ("clawback_records", VList (map VDict (clawback_records e)));
    ("summary_financials",
       VDict (map (fun kv => (fst kv, VScalar (snd kv))) (summary_financials e))) ].

(** [sum(len(emp.<list>) for emp in self.employees.values())] *)
Definition count_records (list_of : EmployeeDataStructure F -> list (Entry F))
  (st : Employees F) : nat :=
  list_sum (map (fun e => length (list_of e)) (values st)).

(** [sum(emp.summary_financials.get(key, 0) for emp in self.employees.values())] *)
Definition sum_summary (key : string) (st : Employees F) : Result (Scalar F) :=
  py_sum (map (fun e => VScalar (dget_or key (SInt 0) (summary_financials e)))
            (values st)).

(** ["="*80] *)
Definition rule : string := string_of_list_ascii (repeat "="%char 80).

(** [f"{n:,}"] for a length. *)
Definition with_thousands (n : nat) : string := with_commas (Z.of_nat n).

(** A sequence of [print(f"...")] statements: what was printed, and the
    exception that ended the sequence, if any. *)
Fixpoint print_each (lines : list (Result string)) : list string * option Exn :=
  match lines with
  | [] => ([], None)
  | Ok line :: rest =>
      let (printed, x) := print_each rest in (line :: printed, x)
  | Err e :: _ => ([], Some e)
  end.

(** Lines 753-770 of [print_summary]: the counts. *)
Definition summary_counts (st : Employees F) : list string :=
  [ nl ^^ rule;
    "DATA SUMMARY";
    rule;
    nl ^^ "Total Employees: " ^^ nat_to_string (length st);
    nl ^^ "Total Records:";
    "  - Commission Contracts: "
      ^^ with_thousands (count_records commission_contracts st);
    "  - Override Records: " ^^ with_thousands (count_records override_records st);
    "  - Policy Contracts: " ^^ with_thousands (count_records policy_contracts st);
    "  - Performance Records: "
      ^^ with_thousands (count_records performance_records st);
    "  - Clawback Records: " ^^ with_thousands (count_records clawback_records st) ].

Definition money_line (label : string) (total : Scalar F) : Result string :=
  shown <- fmt0 (VScalar total) ;; Ok ("  - " ^^ label ^^ ": " ^^ shown ^^ " 원").

(** [print_summary]: the three sums are taken before the financial block
    is printed. *)
Definition print_summary (st : Employees F) : list string * option Exn :=
  match
    (total_final_payment <- sum_summary "최종지급액" st ;;
     total_commission_sum <- sum_summary "총_커미션" st ;;
     total_override_sum <- sum_summary "총_오버라이드" st ;;
     Ok (total_final_payment, total_commission_sum, total_override_sum))
  with
  | Err e => (summary_counts st, Some e)
  | Ok (total_final_payment, total_commission_sum, total_override_sum) =>
      let (printed, x) :=
        print_each
          [ Ok (nl ^^ "Financial Summary:");
            money_line "Total Final Payments" total_final_payment;
            money_line "Total Commissions" total_commission_sum;
            money_line "Total Overrides" total_override_sum ] in
      (summary_counts st ++ printed, x)
  end.

End Reporting.

(* ------------------------------------------------------------------ *)
(** ** The connection of the uploader *)

(** [os.environ] *)
Definition Environ := string -> option string.

(** [[var for var in required if not os.environ.get(var)]] *)
Definition missing_variables (environ : Environ) : list string :=
  filter (fun var =>
            match environ var with
            | Some value => value =? ""
            | None => true
            end)
    ["PINECONE_API_KEY"; "OPENAI_API_KEY"].

(** [validate_environment]: the exit code of [sys.exit], if it is reached. *)
Definition validate_environment (environ : Environ) : option Z :=
  match missing_variables environ with
  | [] => None
  | _ => Some 1%Z
  end.

(** What [pc.list_indexes()] yields for one index. *)
Record IndexModel := {
  index_model_name : string;
  index_model_dimension : Z;
  index_model_metric : string
}.

(** The fields of the uploader that [setup_index] reads and writes. *)
Record UploaderConfig := {
  index_name : string;
  embedding_model : string;
  dimension : Z
}.

(** [setup_index]: [list_indexes] is the answer of the service, an
    exception of the call included; every exception is printed and raised
    again.  The index objects of the service are true, so [if
    existing_index] asks whether one was found. *)
Definition setup_index (list_indexes : Result (list IndexModel)) (u : UploaderConfig)
  : Result UploaderConfig :=
  indexes <- list_indexes ;;
  match find (fun idx => index_model_name idx =? index_name u) indexes with
  | Some existing_index =>
      if negb (index_model_dimension existing_index =? dimension u)%Z then
        Ok {| index_name := index_name u;
              embedding_model :=
                if (index_model_dimension existing_index =? 1536)%Z
                then "text-embedding-3-small"
                else embedding_model u;
              dimension := index_model_dimension existing_index |}
      else Ok u
  | None => Err (ValueError ("Index '" ^^ index_name u ^^ "' does not exist"))
  end.

(** How the construction of the uploader ends. *)
Inductive Started :=
| Connected (u : UploaderConfig)
| Exited (code : Z)
| Failed (e : Exn).

(** [SecurePineconeUploader.__init__].  [clients] is how the construction
    of the two clients from the validated keys ends, [list_indexes] what
    [setup_index] is answered, and [open_index] how [self.pc.Index] ends. *)
Definition connect (environ : Environ) (clients : Result unit)
  (list_indexes : Result (list IndexModel)) (open_index : Result unit)
  (index_name embedding_model : string) (dimension : Z) : Started :=
  match validate_environment environ with
  | Some code => Exited code
  | None =>
      match
        (_ <- clients ;;
         u <- setup_index list_indexes
                {| index_name := index_name;
                   embedding_model := embedding_model;
                   dimension := dimension |} ;;
         _ <- open_index ;;
         Ok u)
      with
      | Ok u => Connected u
      | Err e => Failed e
      end
  end.

(* ================================================================== *)
(** ** Observations on the passes as a whole *)

Section PassObservations.

Context {F : Type} {PF : PyFloat F}.

(** A field of the record filed under [s]; that of a fresh record when
    there is none. *)
Definition field_of {A} (proj : EmployeeDataStructure F -> A) (s : string)
  (st : Employees F) : A :=
  match dget s st with
  | Some e => proj e
  | None => proj new_employee
  end.

(** The key a row gets from its identifier column: [str(row[key])]. *)
Definition key_of (key : string) (row : Row F) : string :=
  scalar_str (row_get row key).

(** The entries the rows of a sheet give the employee [s]: one per row that
    names [s], in the order of the rows. *)
Definition entries_for (key : string) (build : Row F -> Result (Entry F))
  (s : string) (rows : list (Row F)) : list (Entry F) :=
  flat_map (fun row =>
              if key_of key row =? s then
                match build row with
                | Ok c => [c]
                | Err _ => []
                end
              else [])
    rows.

(** The last row of a sheet that names [s]. *)
Fixpoint last_keyed (key s : string) (rows : list (Row F)) : option (Row F) :=
  match rows with
  | [] => None
  | row :: rest =>
      match last_keyed key s rest with
      | Some later => Some later
      | None => if key_of key row =? s then Some row else None
      end
  end.

(** The rows of the sheets that are read without a guard. *)
Definition roster_rows (xl : Workbook F) : list (Row F) :=
  iterrows (safe_read_sheet xl "인별명세" 0).
Definition commission_rows (xl : Workbook F) : list (Row F) :=
  iterrows (safe_read_sheet xl "건별수수료" 0).
Definition override_rows (xl : Workbook F) : list (Row F) :=
  iterrows (safe_read_sheet xl "건별OR" 0).
Definition policy_rows (xl : Workbook F) : list (Row F) :=
  iterrows (safe_read_sheet xl "시책건별" 0).
Definition performance_rows (xl : Workbook F) : list (Row F) :=
  iterrows (safe_read_sheet xl "업적" 2).

(** The policy entries filed under [s]. *)
Definition policies_of (s : string) (st : Employees F) : list (Entry F) :=
  field_of policy_contracts s st.

(** The required sheets: the sheet, its identifier column and its pass. *)
Definition required_sheets : list (string * string * (Workbook F -> Proc F)) :=
  [ ("인별명세", "사번", process_individual_statements);
    ("건별수수료", "지급사원번호", process_commission_contracts);
    ("건별OR", "[오버라이드] 대상자사번", process_override_records);
    ("시책건별", "사번", process_policy_contracts) ].

(** The bodies of the loops over the required sheets, with the column that
    names the employee a row is filed under. *)
Definition required_rows : list (string * (Row F -> Proc F)) :=
  [ ("사번", individual_statement_row);
    ("지급사원번호", commission_contract_row);
    ("[오버라이드] 대상자사번", override_record_row);
    ("사번", policy_contract_row) ].

(** The seven passes over the sheets. *)
Definition sheet_passes : list (Workbook F -> Proc F) :=
  [ process_individual_statements; process_commission_contracts;
    process_override_records; process_policy_contracts;
    process_performance_records; process_additional_allowances;
    process_clawback_records ].

(** [l] is [l0] with entries added at its end. *)
Definition extends {A} (l0 l : list A) : Prop := exists more, l = l0 ++ more.

(** The five lists of the record have only grown. *)
Definition grown (e0 e : EmployeeDataStructure F) : Prop :=
  extends (commission_contracts e0) (commission_contracts e)
  /\ extends (override_records e0) (override_records e)
  /\ extends (policy_contracts e0) (policy_contracts e)
  /\ extends (performance_records e0) (performance_records e)
  /\ extends (clawback_records e0) (clawback_records e).

(** The role cells of a performance row that name an employee. *)
Definition named_roles (row : Row F) : list string :=
  filter (fun field => dmem field row && notna (row_get row field)) sabon_fields.

(** The performance entries the rows give the employee [s]: one per role
    cell that names [s], row by row and role by role. *)
Definition performance_for (s : string) (rows : list (Row F)) : list (Entry F) :=
  flat_map (fun row =>
              map (fun field => performance_of field row)
                (filter (fun field => key_of field row =? s) (named_roles row)))
    rows.

(** Every row of the sheet names its employee and evaluates to an entry. *)
Definition all_rows_file (key : string) (build : Row F -> Result (Entry F))
  (rows : list (Row F)) : Prop :=
  Forall (fun row => (exists c, row_item row key = Ok c) /\ exists x, build row = Ok x)
    rows.

(** The loop body shared by the sheets that give one entry per row:
    [sabon = str(row[key])], the lazy creation, the literal, the append. *)
Definition append_row (key : string) (build : Row F -> Result (Entry F))
  (append : Entry F -> EmployeeDataStructure F -> EmployeeDataStructure F)
  (row : Row F) : Proc F :=
  fun st =>
    match row_item row key with
    | Err e => Raise e st
    | Ok c =>
        let s := scalar_str c in
        update_with (build row) s append (ensure s st)
    end.

(** The record filed under [s], a fresh one when there is none. *)
Definition record_of (s : string) (st : Employees F) : EmployeeDataStructure F :=
  field_of (fun e => e) s st.

(** What a roster row makes of the record it names: the identifier, the
    profile and the summary are replaced, the rest stays. *)
Definition refreshed (row : Row F) (fin : dict (Scalar F)) (s : string)
  (e : EmployeeDataStructure F) : EmployeeDataStructure F :=
  with_summary fin (with_profile (profile_of row) (with_sabon s e)).

(** Every record carries the key it is filed under. *)
Definition filed_under_own_key (st : Employees F) : Prop :=
  forall s e, dget s st = Some e -> sabon e = s.

End PassObservations.

(* ------------------------------------------------------------------ *)
(** ** Observations on an upload *)

Section UploadObservations.

Context {F : Type} {PF : PyFloat F}.

(** The state an upload ends in, whether it returns or raises. *)
Definition final_state {World} (o : UploadOutcome F World) : UploadState F World :=
  match o with
  | Uploaded st => st
  | Aborted _ st => st
  end.

(** The vector declares an owner that does not differ from [s]. *)
Definition owned_by (s : Scalar F) (v : Vector F) : Prop :=
  exists d, dget "사번" (vector_metadata v) = Some d /\ differs d s = false.

(** An accepted [upsert] call: its namespace is the one of some employee
    key, and every vector of the call is owned by that key. *)
Definition isolated (call : string * list (Vector F)) : Prop :=
  exists s, fst call = "employee_" ^^ scalar_str s /\ Forall (owned_by s) (snd call).

(** The vectors the index has accepted, call by call. *)
Definition stored_vectors {World} (st : UploadState F World) : list (Vector F) :=
  flat_map snd (upserted st).

(** The exceptions the steps of [upload_documents] raise themselves. *)
Definition raised_by_the_script (x : Exn) : Prop :=
  x = KeyError "사번" \/ x = KeyError "사원명" \/ x = TypeError
  \/ x = ZeroDivisionError
  \/ x = ValueError "range() arg 3 must not be zero"
  \/ is_security_error x = true.

(** A document the uploader can turn into a vector: its owner is text and
    it has a name. *)
Definition uploadable (doc : Document F) : Prop :=
  carries_text_sabon doc /\ dmem "사원명" (metadata doc) = true.

(** The number of calls the documents of one employee are sent in. *)
Definition calls_for (batch_size : Z) (docs : list (Document F)) : nat :=
  match batches_of batch_size docs with
  | Ok batches => length batches
  | Err _ => 0
  end.

(** Services that answer: one embedding per text for every call within
    the limit of the service, and an index that accepts every call. *)
Definition embeds_every_batch {World}
  (embeddings_create : World -> list string -> World * Result (list (list F)))
  : Prop :=
  forall w texts,
    length texts <= 2048 ->
    exists w' embeddings,
      embeddings_create w texts = (w', Ok embeddings)
      /\ length embeddings = length texts.

Definition accepts_every_call {World}
  (index_upsert : World -> list (Vector F) -> string -> World * bool) : Prop :=
  forall w vectors namespace, exists w', index_upsert w vectors namespace = (w', true).

(** The namespaces the groups are sent to, one per call. *)
Definition namespaces_of (batch_size : Z) (groups : list (Scalar F * list (Document F)))
  : list string :=
  flat_map (fun g => repeat ("employee_" ^^ scalar_str (fst g))
                       (calls_for batch_size (snd g)))
    groups.

(** What the vector of a document carries besides the three reserved
    keys: the metadata of the document that is not reserved and not
    [None], in the order of the document. *)
Definition carried_over (doc : Document F) : dict (PyVal F) :=
  filter (fun kv => negb (reserved (fst kv)) && negb (is_none (snd kv)))
    (metadata doc).

End UploadObservations.

(* ------------------------------------------------------------------ *)
(** ** Observations on the text *)

Section TextObservations.

Context {F : Type} {PF : PyFloat F}.


(** The tags the three clawback sheets give their entries. *)
Definition clawback_types : list string := ["시책2지급분"; "소개비"; "교육비"].

Definition clawback_tagged (c : Entry F) : Prop :=
  exists t, In t clawback_types /\ dget "환수유형" c = Some (vstr t).

(** The line of one clawback type: the sum of the amounts of its entries. *)
Definition type_total_line (cs : list (Entry F)) (k line : string) : Prop :=
  exists total shown,
    py_sum (map (field_or0 "환수금액") (with_key "환수유형" k cs)) = Ok total
    /\ fmt0 (VScalar total) = Ok shown
    /\ line = "  - " ^^ k ^^ ": " ^^ shown ^^ "원".

(** The clawback section: header with the number of entries, the total of
    all entries, and one line per clawback type in first-seen order. *)
Definition clawback_section (cs : list (Entry F)) (ls : list string) : Prop :=
  exists total shown groups,
    py_sum (map (field_or0 "환수금액") cs) = Ok total
    /\ fmt0 (VScalar total) = Ok shown
    /\ ls = [ clawback_header ^^ ": " ^^ nat_to_string (length cs) ^^ "건";
              "총 환수금액: " ^^ shown ^^ "원" ] ++ groups
    /\ Forall2 (type_total_line cs)
         (first_seen (map (text_key "환수유형") cs)) groups.

(** The running totals [by_type] seen against the grouping of the same
    entries: the same keys in the same order, each total the sum of the
    amounts of its group. *)
Definition totals_of_groups (totals : list (Scalar F * Scalar F))
  (groups : list (Scalar F * list (Entry F))) : Prop :=
  Forall2 (fun kt kx =>
             fst kt = fst kx
             /\ py_sum (map (field_or0 "환수금액") (snd kx)) = Ok (snd kt))
    totals groups.

End TextObservations.

(* ------------------------------------------------------------------ *)
(** ** Observations on cells and on the connection *)

Section CellObservations.

Context {F : Type} {PF : PyFloat F}.

(** A cell that [x or 0] turns into 0: a column the row does not have, or
    an empty cell, an empty text, a zero or [False]. *)
Definition blank (row : Row F) (k : string) : Prop :=
  dget k row = None
  \/ dget k row = Some SNone
  \/ dget k row = Some (SStr "")
  \/ dget k row = Some (SInt 0)
  \/ dget k row = Some (SBool false).

(** [c is not None] *)
Definition is_not_none (c : Scalar F) : bool :=
  match c with
  | SNone => false
  | _ => true
  end.

End CellObservations.

(** The index of the given name that [setup_index] looks at: the first. *)
Definition named_index (name : string) (indexes : list IndexModel) : option IndexModel :=
  find (fun idx => index_model_name idx =? name) indexes.

(** The environment holds a value that is not empty for the variable. *)
Definition is_set (environ : Environ) (var : string) : Prop :=
  exists value, environ var = Some value /\ value <> "".

(* ------------------------------------------------------------------ *)
(** ** More sample sheets *)

(** A roster that names one employee twice. *)
Definition roster_twice : DataFrame Z :=
  sheet ["사번"; "사원명"; "소속"; "최종지급액"]
    [ [SInt 101; SStr "김철수"; SStr "서울지점"; SInt 100];
      [SInt 101; SStr "김철수"; SStr "부산지점"; SInt 250] ].

(** Commissions, two of them for an employee the roster does not have. *)
Definition outside_commissions : DataFrame Z :=
  sheet ["지급사원번호"; "보험사"; "[지급수수료] 합계"]
    [ [SInt 999; SStr "A생명"; SFloat 60%Z];
      [SInt 101; SStr "B화재"; SFloat 50%Z];
      [SInt 999; SStr "B화재"; SFloat 40%Z] ].

Definition outside_overrides : DataFrame Z :=
  sheet ["[오버라이드] 대상자사번"; "[오버라이드] 종류"; "[FC] 대상자사번";
         "[지급수수료] 오버라이드"]
    [ [SInt 101; SStr "BM"; SInt 999; SFloat 300%Z];
      [SInt 101; SStr "MD"; SInt 999; SFloat 200%Z];
      [SInt 101; SStr "BM"; SInt 999; SFloat 100%Z] ].

Definition outside_policies : DataFrame Z :=
  sheet ["사번"; "지급 계"] [ [SInt 999; SFloat 70%Z]; [SInt 101; SFloat 30%Z] ].

(** A performance sheet whose first row names one employee in two roles. *)
Definition performance_sheet : DataFrame Z :=
  sheet ["수금LP사번"; "모집LP사번"; "원모집FC사번"; "보험사"]
    [ [SInt 101; SInt 101; SNone; SStr "A생명"];
      [SInt 999; SNone; SInt 101; SStr "B화재"] ].

Definition referral_clawbacks : DataFrame Z :=
  sheet ["사번"; "환수대상액"] [ [SInt 101; SFloat 15%Z]; [SInt 101; SFloat 5%Z] ].

Definition outside_book : Workbook Z :=
  book [ ("인별명세", roster_twice);
         ("건별수수료", outside_commissions);
         ("건별OR", outside_overrides);
         ("시책건별", outside_policies);
         ("업적", performance_sheet);
         ("환수_시책2지급분_완료", sheet ["사번"; "지급액"] [ [SInt 101; SFloat 30%Z] ]);
         ("환수_소개비_완료", referral_clawbacks) ].

Definition outside_roster : Employees Z :=
  state_of (process_individual_statements outside_book []).
Definition outside_employees : Employees Z := state_of (process_all outside_book).

(** The record of the employee the roster does not have, and the one of
    the employee it names twice. *)
Definition outside_record : EmployeeDataStructure Z :=
  match dget "999" outside_employees with
  | Some e => e
  | None => new_employee
  end.

Definition twice_named_record : EmployeeDataStructure Z :=
  match dget "101" outside_employees with
  | Some e => e
  | None => new_employee
  end.

(** A workbook whose commission sheet has no identifier column. *)
Definition unkeyed_book : Workbook Z :=
  book [ ("건별수수료", sheet ["보험사"] [ [SStr "A생명"] ]) ].

(** Rows with a blank identifier. *)
Definition blank_commission_row : Row Z :=
  [ ("지급사원번호", SNone); ("보험사", SStr "A생명") ].

Definition blank_clawback_row : Row Z := [ ("사번", SNone); ("지급액", SFloat 30%Z) ].

(** A roster row whose amount is text, and an override row without the FC
    column. *)
Definition malformed_roster_row : Row Z :=
  [ ("사번", SInt 101); ("사원명", SStr "김철수"); ("최종지급액", SStr "미정") ].

Definition fc_less_override_row : Row Z :=
  [ ("[오버라이드] 대상자사번", SInt 101); ("[오버라이드] 종류", SStr "BM") ].

(** A document without a name, and one whose metadata holds a [None]. *)
Definition nameless_document : Document Z :=
  {| id := "1001_profile";
     doc_type := "employee_profile";
     text := "사번: 1001";
     metadata := [ ("사번", vstr "1001") ] |}.

Definition document_without_branch : Document Z :=
  {| id := "1001_profile";
     doc_type := "employee_profile";
     text := "사번: 1001";
     metadata := [ ("사번", vstr "1001"); ("사원명", vstr "김철수");
                   ("doc_type", vstr "employee_profile");
                   ("직종", vstr "FC"); ("소속", vnone);
                   ("계약건수", vint 3) ] |}.

Definition vector_without_branch : Vector Z :=
  {| vector_id := "1001_profile";
     vector_values := [1%Z; 0%Z];
     vector_metadata := [ ("사번", vstr "1001"); ("사원명", vstr "김철수");
                          ("doc_type", vstr "employee_profile");
                          ("직종", vstr "FC"); ("계약건수", vint 3) ] |}.

(** What the upload of the sample documents leaves behind. *)
Definition sample_upload : UploadState Z unit :=
  final_state (upload_documents unit embed_fixed upsert_accepts sample_documents 2 tt).

(** A retention entry, and the sample FC after it is appended. *)
Definition sample_retention : Entry Z :=
  [ ("보험사", vstr "C손보"); ("지급액", VScalar (SFloat 40%Z)) ].

Definition sample_fc_retained : EmployeeDataStructure Z :=
  match append_retention sample_retention sample_fc with
  | Ok e => e
  | Err _ => sample_fc
  end.

(** An environment with both keys, and one whose second key is empty. *)
Definition both_keys : Environ :=
  fun var =>
    if var =? "PINECONE_API_KEY" then Some "pc-key"
    else if var =? "OPENAI_API_KEY" then Some "sk-key"
    else None.

Definition empty_openai_key : Environ :=
  fun var =>
    if var =? "PINECONE_API_KEY" then Some "pc-key"
    else if var =? "OPENAI_API_KEY" then Some ""
    else None.

Definition small_index : IndexModel :=
  {| index_model_name := "hof-branch-chatbot";
     index_model_dimension := 1536;
     index_model_metric := "cosine" |}.

Definition default_config : UploaderConfig :=
  {| index_name := "hof-branch-chatbot";
     embedding_model := "text-embedding-3-large";
     dimension := 3072 |}.
(* ================================================================== *)
(** * Properties *)

(** ** The model at work *)

Example sample_keys : keys sample_employees = ["12345"; "777"].
Proof. reflexivity. Qed.

Example sample_commission_section :
  commission_lines sample_fc
  = Ok [ commission_header ^^ ": 3건"; "총 수수료: 150원"; "보험사별 계약:";
         group_line "A생명" 2 "100"; group_line "B화재" 1 "50" ].
Proof. vm_compute. reflexivity. Qed.

Example performance_roles :
  map (remove_all "사번") sabon_fields = ["수금LP"; "모집LP"; "원모집FC"].
Proof. reflexivity. Qed.

Example sample_override_totals :
  map (fun kv => dget "총_오버라이드" (summary_financials (snd kv))) sample_employees
  = [Some (SInt 0); Some (SFloat 300%Z)].
Proof. vm_compute. reflexivity. Qed.

Example sample_namespaces :
  match upload_documents unit embed_fixed upsert_accepts sample_documents 100 tt with
  | Uploaded st => map fst (upserted st)
  | Aborted _ _ => []
  end
  = ["employee_1001"; "employee_2002"].
Proof. vm_compute. reflexivity. Qed.

(** ** Dictionaries *)

Section DictFacts.

Context {V : Type}.
Implicit Types (k : string) (v : V) (d : dict V).

Lemma dget_dset_same k v d : dget k (dset k v d) = Some v.
Proof.
  induction d as [|[k' v'] d IH]; simpl.
  - now rewrite String.eqb_refl.
  - destruct (k =? k') eqn:E; simpl; rewrite E; auto.
Qed.

Lemma dget_dset_other k k' v d : k <> k' -> dget k (dset k' v d) = dget k d.
Proof.
  intros N. induction d as [|[k2 v2] d IH]; simpl.
  - apply String.eqb_neq in N. now rewrite N.
  - destruct (k' =? k2) eqn:E; simpl.
    + apply String.eqb_eq in E. subst k2.
      apply String.eqb_neq in N. now rewrite N.
    + now rewrite IH.
Qed.

Lemma dset_same_value k v d : dget k d = Some v -> dset k v d = d.
Proof.
  induction d as [|[k' v'] d IH]; simpl; [discriminate|].
  destruct (k =? k') eqn:E.
  - now intros [= ->].
  - intros H. now rewrite IH.
Qed.

Lemma dget_dmodify_same k f d v :
  dget k d = Some v -> dget k (dmodify k f d) = Some (f v).
Proof.
  induction d as [|[k' v'] d IH]; simpl; [discriminate|].
  destruct (k =? k') eqn:E; simpl; rewrite E.
  - now intros [= ->].
  - exact IH.
Qed.

Lemma dget_dmodify_other k k' f d : k <> k' -> dget k (dmodify k' f d) = dget k d.
Proof.
  intros N. induction d as [|[k2 v2] d IH]; simpl; [reflexivity|].
  destruct (k' =? k2) eqn:E; simpl.
  - apply String.eqb_eq in E. subst k2.
    apply String.eqb_neq in N. now rewrite N.
  - now rewrite IH.
Qed.

Lemma dmodify_absent k f d : dget k d = None -> dmodify k f d = d.
Proof.
  induction d as [|[k' v'] d IH]; simpl; [reflexivity|].
  destruct (k =? k'); [discriminate|]. intros H. now rewrite IH.
Qed.

Lemma keys_dmodify k f d : keys (dmodify k f d) = keys d.
Proof.
  induction d as [|[k' v'] d IH]; simpl; [reflexivity|].
  destruct (k =? k'); simpl; [reflexivity|]. f_equal. exact IH.
Qed.

Lemma length_dmodify k f d : length (dmodify k f d) = length d.
Proof.
  induction d as [|[k' v'] d IH]; simpl; [reflexivity|].
  destruct (k =? k'); simpl; [reflexivity|]. now rewrite IH.
Qed.

Lemma dset_absent k v d : dget k d = None -> dset k v d = d ++ [(k, v)].
Proof.
  induction d as [|[k' v'] d IH]; simpl; [reflexivity|].
  destruct (k =? k'); [discriminate|]. intros H. now rewrite IH.
Qed.

Lemma dget_app_absent k d d' : dget k d = None -> dget k (d ++ d') = dget k d'.
Proof.
  induction d as [|[k' v'] d IH]; simpl; [reflexivity|].
  destruct (k =? k'); [discriminate|]. exact IH.
Qed.

Lemma dget_app_present k d d' v : dget k d = Some v -> dget k (d ++ d') = Some v.
Proof.
  induction d as [|[k' v'] d IH]; simpl; [discriminate|].
  destruct (k =? k'); [trivial|]. exact IH.
Qed.

Lemma dget_None_not_In k d : dget k d = None -> ~ In k (keys d).
Proof.
  induction d as [|[k' v'] d IH]; simpl; [tauto|].
  destruct (k =? k') eqn:E; [discriminate|].
  apply String.eqb_neq in E. intros H [A|A]; [congruence|]. now apply IH.
Qed.

Lemma dget_In k d v : dget k d = Some v -> In (k, v) d.
Proof.
  induction d as [|[k' v'] d IH]; simpl; [discriminate|].
  destruct (k =? k') eqn:E.
  - apply String.eqb_eq in E. subst k'. intros [= ->]. now left.
  - intros H. right. now apply IH.
Qed.

Lemma In_dget_NoDup k d v : NoDup (keys d) -> In (k, v) d -> dget k d = Some v.
Proof.
  induction d as [|[k' v'] d IH]; simpl; [tauto|].
  intros ND [A|A].
  - injection A as -> ->. now rewrite String.eqb_refl.
  - inversion ND as [|? ? NI ND']; subst.
    destruct (k =? k') eqn:E.
    + apply String.eqb_eq in E. subst k'. exfalso. apply NI.
      change (In (fst (k, v)) (map fst d)). now apply in_map.
    + now apply IH.
Qed.

Lemma dmem_true k d : dmem k d = true <-> exists v, dget k d = Some v.
Proof.
  unfold dmem. destruct (dget k d); split; eauto; try discriminate.
  intros [v H]. discriminate.
Qed.

Lemma dmem_false k d : dmem k d = false <-> dget k d = None.
Proof.
  unfold dmem. destruct (dget k d); split; auto; discriminate.
Qed.

End DictFacts.

(** A literal that evaluates holds, under each key, the value of that
    key's expression. *)
Lemma literal_get {V} (fields : list (string * Result V)) (d : dict V) k v :
  literal fields = Ok d -> dget k fields = Some (Ok v) -> dget k d = Some v.
Proof.
  revert d. induction fields as [|[k' r] fields IH]; simpl; [discriminate|].
  intros d. destruct r as [a|e]; simpl; [|discriminate].
  destruct (literal fields) as [d'|e]; simpl; [|discriminate].
  intros [= <-]. simpl. destruct (k =? k').
  - now intros [= ->].
  - now apply IH.
Qed.

Lemma literal_keys {V} (fields : list (string * Result V)) (d : dict V) :
  literal fields = Ok d -> keys d = keys fields.
Proof.
  revert d. induction fields as [|[k' r] fields IH]; simpl.
  - now intros d [= <-].
  - intros d. destruct r as [a|e]; simpl; [|discriminate].
    destruct (literal fields) as [d'|e]; simpl; [|discriminate].
    intros [= <-]. simpl. f_equal. now apply IH.
Qed.

(* ------------------------------------------------------------------ *)
(** ** The derivation pass *)

Ltac dget_chain :=
  repeat (rewrite dget_dset_other by (intro; discriminate));
  apply dget_dset_same.

Section DerivationFacts.

Context {F : Type} {PF : PyFloat F}.
Implicit Types (e : EmployeeDataStructure F) (st : Employees F).

Ltac split_derive H :=
  unfold derive, total_commission, total_override, total_policy, total_clawback in H;
  repeat match type of H with
    | bind ?r _ = Ok _ =>
        let E := fresh "E" in
        destruct r eqn:E; simpl in H; [|discriminate H]
    end;
  injection H as H.

Lemma derive_sources e e' : derive e = Ok e' -> same_sources e e'.
Proof.
  intros H. split_derive H. subst e'. repeat split.
Qed.

Lemma derive_summary e e' : derive e = Ok e' -> summary_matches_lists e'.
Proof.
  intros H. split_derive H. subst e'.
  exists a, a0, a1, a2. simpl. repeat split; try assumption; dget_chain.
Qed.

(** Keys the pass does not write keep their value. *)
Lemma derive_other_keys e e' k :
  derive e = Ok e' -> ~ In k derived_keys ->
  dget k (summary_financials e') = dget k (summary_financials e).
Proof.
  intros H N. split_derive H. subst e'. simpl.
  unfold derived_keys in N. simpl in N.
  repeat (rewrite dget_dset_other by (intro; subst; tauto)). reflexivity.
Qed.

Lemma derive_idempotent e e' : derive e = Ok e' -> derive e' = Ok e'.
Proof.
  intros H. split_derive H. subst e'.
  unfold derive, total_commission, total_override, total_policy, total_clawback.
  simpl. rewrite E, E0, E1, E2. simpl. f_equal.
  unfold with_summary. simpl.
  repeat (rewrite dset_same_value by dget_chain). reflexivity.
Qed.

Lemma calculate_items_spec st st' :
  calculate_items st = Done st' ->
  Forall2 (fun kv kv' => fst kv' = fst kv /\ derive (snd kv) = Ok (snd kv')) st st'.
Proof.
  revert st'. induction st as [|[s e] st IH]; simpl; intros st'.
  - intros [= <-]. constructor.
  - destruct (derive e) as [e'|x] eqn:D; [|discriminate].
    destruct (calculate_items st) as [st1|x st1]; [|discriminate].
    intros [= <-]. constructor; auto.
Qed.

Lemma calculate_items_idempotent st st' :
  calculate_items st = Done st' -> calculate_items st' = Done st'.
Proof.
  intros H. apply calculate_items_spec in H.
  induction H as [|[s e] [s' e'] st st' [A B] _ IH]; simpl; [reflexivity|].
  simpl in A, B. rewrite (derive_idempotent _ _ B), IH. reflexivity.
Qed.

Lemma calculate_items_lookup st st' s e' :
  calculate_items st = Done st' -> dget s st' = Some e' ->
  exists e, dget s st = Some e /\ derive e = Ok e'.
Proof.
  intros H. apply calculate_items_spec in H.
  induction H as [|[s0 e0] [s1 e1] st st' [A B] _ IH]; simpl; [discriminate|].
  simpl in A, B. subst s1. destruct (s =? s0).
  - intros [= ->]. eauto.
  - exact IH.
Qed.

Lemma py_add_val_numeric (acc : Scalar F) v :
  is_number (VScalar acc) = true -> numeric v ->
  exists acc', py_add_val acc v = Ok acc' /\ is_number (VScalar acc') = true.
Proof.
  unfold numeric. destruct v as [c| |]; simpl; try discriminate.
  destruct acc, c; simpl; try discriminate; eauto.
Qed.

Lemma sum_from_numeric (xs : list (PyVal F)) : forall acc,
  is_number (VScalar acc) = true -> Forall numeric xs ->
  exists total, sum_from acc xs = Ok total /\ is_number (VScalar total) = true.
Proof.
  induction xs as [|x xs IH]; simpl; intros acc A H.
  - eauto.
  - inversion H as [|? ? Hx Hxs]; subst.
    destruct (py_add_val_numeric acc x A Hx) as (acc' & -> & A'). simpl.
    now apply IH.
Qed.

Lemma py_sum_numeric (xs : list (PyVal F)) :
  Forall numeric xs ->
  exists total, py_sum xs = Ok total /\ is_number (VScalar total) = true.
Proof. intros H. now apply sum_from_numeric. Qed.

(** The values written depend on the four lists only. *)
Lemma derive_depends_on_lists_only e1 e1' e2 e2' k :
  derive e1 = Ok e1' -> derive e2 = Ok e2' ->
  commission_contracts e1 = commission_contracts e2 ->
  override_records e1 = override_records e2 ->
  policy_contracts e1 = policy_contracts e2 ->
  clawback_records e1 = clawback_records e2 ->
  In k derived_keys ->
  dget k (summary_financials e1') = dget k (summary_financials e2').
Proof.
  intros D1 D2 Hc Ho Hp Hw Hk.
  split_derive D1. split_derive D2. subst e1' e2'.
  rewrite Hc in E. rewrite Ho in E0. rewrite Hp in E1. rewrite Hw in E2.
  rewrite E in E3. rewrite E0 in E4. rewrite E1 in E5. rewrite E2 in E6.
  injection E3 as <-. injection E4 as <-. injection E5 as <-. injection E6 as <-.
  rewrite Hc, Ho, Hp, Hw. simpl.
  unfold derived_keys in Hk. simpl in Hk.
  destruct Hk as [<-|[<-|[<-|[<-|[<-|[<-|[<-|[<-|[]]]]]]]]].
  all: repeat first [ rewrite dget_dset_same
                    | rewrite dget_dset_other by (intro; discriminate) ].
  all: reflexivity.
Qed.

Lemma calculate_items_derived st st' :
  calculate_items st = Done st' ->
  Forall2
    (fun kv kv' =>
       fst kv' = fst kv
       /\ same_sources (snd kv) (snd kv')
       /\ summary_matches_lists (snd kv')
       /\ (forall k, ~ In k derived_keys ->
             dget k (summary_financials (snd kv'))
             = dget k (summary_financials (snd kv))))
    st st'.
Proof.
  intros H. apply calculate_items_spec in H.
  induction H as [|[s e] [s' e'] l l' [A B] _ IH]; constructor; auto.
  simpl in *. split; [exact A|]. split; [apply (derive_sources _ _ B)|].
  split; [apply (derive_summary _ _ B)|].
  intros k N. apply (derive_other_keys _ _ _ B N).
Qed.

End DerivationFacts.

(* ------------------------------------------------------------------ *)
(** ** Lazy creation and in-place update of records *)

Section RecordFacts.

Context {F : Type} {PF : PyFloat F}.
Implicit Types (e : EmployeeDataStructure F) (st : Employees F) (s : string).

Lemma ensure_present s st : dmem s st = true -> ensure s st = st.
Proof. unfold ensure. now intros ->. Qed.

Lemma ensure_absent s st :
  dmem s st = false -> ensure s st = st ++ [(s, with_sabon s new_employee)].
Proof.
  unfold ensure. intros H. rewrite H. apply dset_absent. now apply dmem_false.
Qed.

Lemma dmem_ensure s st : dmem s (ensure s st) = true.
Proof.
  unfold ensure. destruct (dmem s st) eqn:E; [exact E|].
  apply dmem_true. eexists. apply dget_dset_same.
Qed.

Lemma dget_ensure_other s s' st : s <> s' -> dget s (ensure s' st) = dget s st.
Proof.
  intros N. unfold ensure. destruct (dmem s' st); [reflexivity|].
  now apply dget_dset_other.
Qed.

Lemma dget_ensure_present s s' st e :
  dget s st = Some e -> dget s (ensure s' st) = Some e.
Proof.
  intros H. unfold ensure. destruct (dmem s' st) eqn:E; [exact H|].
  rewrite dget_dset_other; [exact H|].
  intros ->. apply dmem_false in E. congruence.
Qed.

Lemma dget_ensure_new s st :
  dget s st = None -> dget s (ensure s st) = Some (with_sabon s new_employee).
Proof.
  intros H. unfold ensure. apply dmem_false in H. rewrite H. apply dget_dset_same.
Qed.

Lemma dmem_dmodify s s' (f : EmployeeDataStructure F -> EmployeeDataStructure F) st :
  dmem s (dmodify s' f st) = dmem s st.
Proof.
  unfold dmem. destruct (String.eqb_spec s s') as [->|N].
  - destruct (dget s' st) eqn:E.
    + now rewrite (dget_dmodify_same _ _ _ _ E).
    + now rewrite (dmodify_absent _ _ _ E), E.
  - now rewrite dget_dmodify_other.
Qed.

Lemma keys_ensure s st :
  keys (ensure s st) = if dmem s st then keys st else keys st ++ [s].
Proof.
  destruct (dmem s st) eqn:E.
  - now rewrite ensure_present.
  - rewrite ensure_absent by exact E. unfold keys. now rewrite map_app.
Qed.

Lemma NoDup_keys_ensure s st : NoDup (keys st) -> NoDup (keys (ensure s st)).
Proof.
  intros H. rewrite keys_ensure. destruct (dmem s st) eqn:E; [exact H|].
  apply dmem_false, dget_None_not_In in E.
  apply NoDup_app; [exact H|repeat constructor; simpl; tauto|].
  intros x Hx [<-|[]]. contradiction.
Qed.

(** *** Override entries *)

Lemma overrides_of_ensure s s' st : overrides_of s (ensure s' st) = overrides_of s st.
Proof.
  unfold overrides_of. destruct (String.eqb_spec s s') as [->|N].
  - destruct (dget s' st) eqn:E.
    + now rewrite (dget_ensure_present _ _ _ _ E).
    + now rewrite (dget_ensure_new _ _ E).
  - now rewrite dget_ensure_other.
Qed.

Lemma overrides_of_append s st o :
  dmem s st = true ->
  overrides_of s (dmodify s (append_override o) st) = overrides_of s st ++ [o].
Proof.
  intros H. apply dmem_true in H. destruct H as [e H]. unfold overrides_of.
  now rewrite (dget_dmodify_same _ _ _ _ H), H.
Qed.

Lemma overrides_of_other s s' f st :
  s <> s' -> overrides_of s (dmodify s' f st) = overrides_of s st.
Proof. intros N. unfold overrides_of. now rewrite dget_dmodify_other. Qed.

Lemma override_entries_app st st' :
  override_entries (st ++ st') = override_entries st + override_entries st'.
Proof. unfold override_entries. now rewrite map_app, list_sum_app. Qed.

Lemma override_entries_ensure s st :
  override_entries (ensure s st) = override_entries st.
Proof.
  destruct (dmem s st) eqn:E.
  - now rewrite ensure_present.
  - rewrite ensure_absent by exact E. rewrite override_entries_app.
    unfold override_entries at 2. simpl. lia.
Qed.

Lemma override_entries_append s st o :
  dmem s st = true ->
  override_entries (dmodify s (append_override o) st) = S (override_entries st).
Proof.
  unfold dmem, override_entries.
  induction st as [|[k e] st IH]; simpl; [discriminate|].
  destruct (s =? k); simpl.
  - intros _. rewrite length_app. simpl. lia.
  - intros H. rewrite (IH H). lia.
Qed.

Lemma for_rows_app (body : Row F -> Proc F) rows rows' st :
  for_rows body (rows ++ rows') st
  = andthen (for_rows body rows) (for_rows body rows') st.
Proof.
  revert st. induction rows as [|r rows IH]; simpl; intros st; [reflexivity|].
  unfold andthen in *. destruct (body r st) as [st1|x st1]; [|reflexivity].
  apply IH.
Qed.

Lemma row_item_get (row : Row F) k c : row_item row k = Ok c -> row_get row k = c.
Proof.
  unfold row_item, row_get, dget_or. destruct (dget k row); [|discriminate].
  now intros [= ->].
Qed.

End RecordFacts.

(* ------------------------------------------------------------------ *)
(** ** The override sheet *)

Section OverrideFacts.

Context {F : Type} {PF : PyFloat F}.
Implicit Types (e : EmployeeDataStructure F) (st : Employees F) (row : Row F).

Lemma override_row_count row st st' :
  override_record_row row st = Done st' ->
  override_entries st' = override_entries st + 2.
Proof.
  unfold override_record_row.
  destruct (row_item row "[오버라이드] 대상자사번") as [rc|x]; [|discriminate].
  destruct (override_of row) as [o|x]; [|discriminate].
  destruct (row_item row "[FC] 대상자사번") as [fc|x]; [|discriminate].
  intros [= <-].
  rewrite override_entries_append
    by (rewrite dmem_ensure; reflexivity).
  rewrite override_entries_ensure.
  rewrite override_entries_append by apply dmem_ensure.
  rewrite override_entries_ensure. lia.
Qed.

Lemma override_rows_count rows : forall st st',
  for_rows override_record_row rows st = Done st' ->
  override_entries st' = override_entries st + 2 * length rows.
Proof.
  induction rows as [|row rows IH]; simpl; intros st st'.
  - intros [= <-]. lia.
  - unfold andthen. destruct (override_record_row row st) as [st1|x st1] eqn:E;
      [|discriminate].
    intros H. rewrite (IH _ _ H), (override_row_count _ _ _ E). lia.
Qed.

(** C6, as the code has it: a row of the override sheet that is processed
    appends exactly two override entries to the mapping.  The first is the
    row's entry with 역할 'receiver', filed under the receiving employee and
    naming the FC in FC_사번 and FC_대상자.  The second is a copy with 역할
    'fc', filed under the FC and naming the receiver in 수령자_사번 and
    수령자_이름.  No other record changes its override entries, and a sheet
    that is processed to its end adds two entries per row. *)
Theorem override_row_files_two_linked_entries :
  (forall row st st',
     override_record_row row st = Done st' -> files_two_linked_entries row st st')
  /\ (forall xl st st',
        process_override_records xl st = Done st' ->
        override_entries st'
        = override_entries st + 2 * length (iterrows (safe_read_sheet xl "건별OR" 0))).
Proof.
  split.
  - intros row st st' H.
    pose proof (override_row_count _ _ _ H) as Hcount.
    unfold override_record_row in H.
    destruct (row_item row "[오버라이드] 대상자사번") as [rc|x] eqn:Erc; [|discriminate].
    destruct (override_of row) as [o|x] eqn:Eo; [|discriminate].
    destruct (row_item row "[FC] 대상자사번") as [fc|x] eqn:Efc; [|discriminate].
    injection H as <-.
    exists rc, fc, o. repeat split; auto.
    + apply (literal_get _ _ _ _ Eo). reflexivity.
    + apply (literal_get _ _ _ _ Eo). simpl. unfold cell_str.
      now rewrite (row_item_get _ _ _ Efc).
    + apply (literal_get _ _ _ _ Eo). reflexivity.
    + unfold fc_override_of.
      rewrite !dget_dset_other by (intro; discriminate). apply dget_dset_same.
    + unfold fc_override_of.
      rewrite dget_dset_other by (intro; discriminate). apply dget_dset_same.
    + unfold fc_override_of. apply dget_dset_same.
    + rewrite overrides_of_other by assumption.
      rewrite overrides_of_ensure.
      rewrite overrides_of_append by apply dmem_ensure.
      now rewrite overrides_of_ensure.
    + rewrite overrides_of_append by apply dmem_ensure.
      rewrite overrides_of_ensure.
      rewrite overrides_of_other by (intro; congruence).
      now rewrite overrides_of_ensure.
    + intros E. rewrite <- E.
      rewrite overrides_of_append by apply dmem_ensure.
      rewrite overrides_of_ensure.
      rewrite overrides_of_append by apply dmem_ensure.
      rewrite overrides_of_ensure. now rewrite <- app_assoc.
    + intros s N1 N2.
      rewrite overrides_of_other by assumption. rewrite overrides_of_ensure.
      rewrite overrides_of_other by assumption. now rewrite overrides_of_ensure.
  - intros xl st st' H. now apply override_rows_count.
Qed.

End OverrideFacts.

Lemma override_row_files_two_linked_entries_witness :
  files_two_linked_entries sample_override_row []
    (state_of (override_record_row sample_override_row []))
  /\ override_entries (state_of (process_override_records sample_book []))
     = 0 + 2 * 1.
Proof.
  split.
  - apply (proj1 (@override_row_files_two_linked_entries Z integral_floats)).
    vm_compute; reflexivity.
  - apply (proj2 (@override_row_files_two_linked_entries Z integral_floats)
             sample_book [] (state_of (process_override_records sample_book []))).
    vm_compute; reflexivity.
Defined.

(** C6 as stated fails: the entry filed under the FC carries the role tag
    'fc'; no entry is tagged 'originator'. *)
Lemma no_entry_is_tagged_originator :
  override_roles (state_of (process_override_records sample_book []))
  = [Some (vstr "receiver"); Some (vstr "fc")]
  /\ ~ In (Some (vstr "originator"))
         (override_roles (state_of (process_override_records sample_book []))).
Proof.
  split; [vm_compute; reflexivity|].
  vm_compute. intros [H|[H|[]]]; discriminate H.
Qed.

(* ------------------------------------------------------------------ *)
(** ** Allowance sheets *)

Section AllowanceFacts.

Context {F : Type} {PF : PyFloat F}.
Implicit Types (e : EmployeeDataStructure F) (st : Employees F) (row : Row F).

Lemma allowance_of_ensure_present category s s' st :
  dmem s st = true ->
  allowance_of category s (ensure s' st) = allowance_of category s st.
Proof.
  intros H. apply dmem_true in H. destruct H as [e H]. unfold allowance_of.
  now rewrite (dget_ensure_present _ _ _ _ H), H.
Qed.

Lemma allowance_of_ensure category s s' st :
  allowance_of category s (ensure s' st) = allowance_of category s st.
Proof.
  destruct (dmem s st) eqn:E; [now apply allowance_of_ensure_present|].
  apply dmem_false in E. unfold allowance_of.
  destruct (String.eqb_spec s s') as [->|N].
  - now rewrite (dget_ensure_new _ _ E), E.
  - now rewrite dget_ensure_other.
Qed.

Lemma allowance_of_other category s s' f st :
  s <> s' -> allowance_of category s (dmodify s' f st) = allowance_of category s st.
Proof. intros N. unfold allowance_of. now rewrite dget_dmodify_other. Qed.

Lemma allowance_of_set category s v st :
  dmem s st = true ->
  allowance_of category s (dmodify s (set_allowance category v) st) = Some v.
Proof.
  intros H. apply dmem_true in H. destruct H as [e H]. unfold allowance_of.
  rewrite (dget_dmodify_same _ _ _ _ H). simpl. apply dget_dset_same.
Qed.

Lemma allowance_of_set_other category c' s v st :
  c' <> category ->
  allowance_of c' s (dmodify s (set_allowance category v) st)
  = allowance_of c' s st.
Proof.
  intros N. unfold allowance_of. destruct (dget s st) as [e|] eqn:H.
  - rewrite (dget_dmodify_same _ _ _ _ H). simpl. now apply dget_dset_other.
  - now rewrite (dmodify_absent _ _ _ H), H.
Qed.

(** The literal of a single-structure category is a dictionary with a
    float under 금액. *)
Lemma amount_first_literal row k (rest : list (string * Result (PyVal F))) v :
  literal_val (("금액", cell_float row k) :: rest) = Ok v ->
  exists d x, v = VDict d /\ dget "금액" d = Some (VScalar (SFloat x)).
Proof.
  unfold literal_val. simpl. unfold cell_float.
  destruct (py_float (or0 (row_get0 row k))) as [x|?]; simpl; [|discriminate].
  destruct (literal rest) as [d|?]; simpl; [|discriminate].
  intros [= <-]. exists (("금액", VScalar (SFloat x)) :: d), x. auto.
Qed.

Lemma single_literal_amount category build row v :
  In (category, build) single_categories -> build row = Ok v ->
  exists d x, v = VDict d /\ dget "금액" d = Some (VScalar (SFloat x)).
Proof.
  unfold single_categories. simpl.
  intros [H|[H|[H|[H|[]]]]]; injection H as <- <-; apply amount_first_literal.
Qed.

(** One row of a single-structure sheet. *)
Lemma allowance_row_sets category build row s st st' :
  dmem s st = true ->
  allowance_row category build row s st = Done st' ->
  exists v,
    build row = Ok v
    /\ allowance_of category s st' = Some v
    /\ (forall c', c' <> category -> allowance_of c' s st' = allowance_of c' s st)
    /\ (forall c' s', s' <> s -> allowance_of c' s' st' = allowance_of c' s' st).
Proof.
  intros M. unfold allowance_row, update_with.
  destruct (build row) as [v|x]; [|discriminate]. intros [= <-].
  exists v. repeat split.
  - now apply allowance_of_set.
  - intros c' N. now apply allowance_of_set_other.
  - intros c' s' N. now apply allowance_of_other.
Qed.

Lemma append_retention_spec (r : Entry F) e e' :
  append_retention r e = Ok e' ->
  exists l,
    match dget "13회차유지" (additional_allowances e) with
    | None => l = []
    | Some v => v = VList l
    end
    /\ dget "13회차유지" (additional_allowances e') = Some (VList (l ++ [VDict r]))
    /\ (forall c', c' <> "13회차유지" ->
          dget c' (additional_allowances e') = dget c' (additional_allowances e)).
Proof.
  unfold append_retention, dmem.
  destruct (dget "13회차유지" (additional_allowances e)) as [v|] eqn:G.
  - rewrite G. destruct v as [c|d|l]; try discriminate.
    intros [= <-]. exists l. simpl. repeat split.
    + apply dget_dset_same.
    + intros c' N. now apply dget_dset_other.
  - rewrite dget_dset_same. intros [= <-]. exists []. simpl. repeat split.
    + apply dget_dset_same.
    + intros c' N. now rewrite !dget_dset_other.
Qed.

(** One row of the retention sheet. *)
Lemma retention_row_appends row s st st' :
  retention_row row s st = Done st' ->
  exists r,
    retention_of row = Ok r
    /\ allowance_of "13회차유지" s st'
       = Some (VList (retained s st ++ [VDict r]))
    /\ (forall c', c' <> "13회차유지" -> allowance_of c' s st' = allowance_of c' s st)
    /\ (forall c' s', s' <> s -> allowance_of c' s' st' = allowance_of c' s' st).
Proof.
  unfold retention_row.
  destruct (retention_of row) as [r|x]; [|discriminate].
  destruct (dget s st) as [e|] eqn:G; [|discriminate].
  destruct (append_retention r e) as [e'|x] eqn:A; [|discriminate].
  intros [= <-]. exists r.
  destruct (append_retention_spec _ _ _ A) as (l & Hl & Hget & Hother).
  repeat split.
  - unfold allowance_of, retained, allowance_of.
    rewrite (dget_dmodify_same _ _ _ _ G), G, Hget.
    destruct (dget "13회차유지" (additional_allowances e)); now subst.
  - intros c' N. unfold allowance_of.
    rewrite (dget_dmodify_same _ _ _ _ G), G. now apply Hother.
  - intros c' s' N. now apply allowance_of_other.
Qed.

(** A row that is skipped, or that names another employee, leaves the
    allowances of [s] alone. *)
Lemma keyed_elsewhere df key (body : Row F -> string -> Proc F) row s st st' :
  (forall s1 st1 st2, body row s1 st1 = Done st2 ->
     forall c' s', s' <> s1 -> allowance_of c' s' st2 = allowance_of c' s' st1) ->
  keyed_to df key s row = false ->
  keyed df key row (body row) st = Done st' ->
  forall c', allowance_of c' s st' = allowance_of c' s st.
Proof.
  intros Hbody K. unfold keyed, keyed_to in *.
  destruct (in_columns key df && notna (row_get row key)) eqn:G;
    [|now intros [= <-]].
  simpl in K. apply String.eqb_neq in K.
  destruct (row_item row key) as [c|x] eqn:I; [|discriminate].
  rewrite (row_item_get _ _ _ I) in K.
  intros H c'. rewrite (Hbody _ _ _ H c' s) by congruence.
  apply allowance_of_ensure.
Qed.

Lemma keyed_here df key (body : Row F -> string -> Proc F) row s st st' :
  keyed_to df key s row = true ->
  keyed df key row (body row) st = Done st' ->
  body row s (ensure s st) = Done st'.
Proof.
  unfold keyed, keyed_to.
  destruct (in_columns key df && notna (row_get row key)); [|discriminate].
  simpl. intros K. apply String.eqb_eq in K.
  destruct (row_item row key) as [c|x] eqn:I; [|discriminate].
  rewrite (row_item_get _ _ _ I) in K. now rewrite K.
Qed.

Lemma sheet_loop_cons df key body row rows st st' :
  sheet_loop df key body (row :: rows) st = Done st' ->
  exists st1, keyed df key row (body row) st = Done st1
              /\ sheet_loop df key body rows st1 = Done st'.
Proof.
  unfold sheet_loop. simpl. unfold andthen.
  destruct (keyed df key row (body row) st) as [st1|x st1]; [|discriminate].
  eauto.
Qed.

Lemma sheet_loop_elsewhere df key body s rows : forall st st',
  (forall row s1 st1 st2, body row s1 st1 = Done st2 ->
     forall c' s', s' <> s1 -> allowance_of c' s' st2 = allowance_of c' s' st1) ->
  forallb (fun row => negb (keyed_to df key s row)) rows = true ->
  sheet_loop df key body rows st = Done st' ->
  forall c', allowance_of c' s st' = allowance_of c' s st.
Proof.
  induction rows as [|row rows IH]; intros st st' Hbody A H c'.
  - injection H as <-. reflexivity.
  - simpl in A. apply andb_true_iff in A. destruct A as [A1 A2].
    apply negb_true_iff in A1.
    destruct (sheet_loop_cons _ _ _ _ _ _ _ H) as (st1 & H1 & H2).
    rewrite (IH _ _ Hbody A2 H2 c').
    apply (keyed_elsewhere df key body row s st st1); auto.
    intros s1 sa sb. apply Hbody.
Qed.

Lemma sheet_loop_split df key body pre row post st st' :
  sheet_loop df key body (pre ++ row :: post) st = Done st' ->
  exists st1 st2,
    sheet_loop df key body pre st = Done st1
    /\ keyed df key row (body row) st1 = Done st2
    /\ sheet_loop df key body post st2 = Done st'.
Proof.
  unfold sheet_loop. rewrite for_rows_app. unfold andthen at 1.
  destruct (for_rows _ pre st) as [st1|x st1]; [|discriminate].
  intros H. apply (sheet_loop_cons df key body) in H.
  destruct H as (st2 & H1 & H2). eauto.
Qed.

Lemma retention_loop df s rows : forall st st',
  sheet_loop df "FC 사번" retention_row rows st = Done st' ->
  retained s st' = retained s st ++ retention_entries df s rows.
Proof.
  induction rows as [|row rows IH]; intros st st' H.
  - injection H as <-. simpl. now rewrite app_nil_r.
  - destruct (sheet_loop_cons _ _ _ _ _ _ _ H) as (st1 & H1 & H2).
    rewrite (IH _ _ H2). simpl.
    destruct (keyed_to df "FC 사번" s row) eqn:K.
    + apply (keyed_here _ _ _ _ _ _ _ K) in H1.
      destruct (retention_row_appends _ _ _ _ H1) as (r & -> & G & _).
      unfold retained at 1. rewrite G.
      unfold retained. rewrite allowance_of_ensure. now rewrite <- app_assoc.
    + f_equal. unfold retained.
      rewrite (keyed_elsewhere df "FC 사번" retention_row row s st st1); auto.
      intros s1 sa sb Hr.
      destruct (retention_row_appends _ _ _ _ Hr) as (r & _ & _ & _ & O). exact O.
Qed.

(** C9: each of the four single-structure categories holds, for an
    employee, the dictionary built from the last row of its sheet that names
    that employee, a dictionary with a float under 금액: a row replaces
    whatever the category held.  The retention category holds a list, and
    the retention sheet appends to it one entry per row that names the
    employee, in row order. *)
Theorem allowance_categories_single_or_accumulating :
  (forall category build, In (category, build) single_categories ->
     (forall row s st st',
        dmem s st = true ->
        allowance_row category build row s st = Done st' ->
        exists d x,
          build row = Ok (VDict d)
          /\ dget "금액" d = Some (VScalar (SFloat x))
          /\ allowance_of category s st' = Some (VDict d))
     /\ (forall df key pre row post s st st',
           sheet_loop df key (allowance_row category build) (pre ++ row :: post) st
           = Done st' ->
           keyed_to df key s row = true ->
           forallb (fun r => negb (keyed_to df key s r)) post = true ->
           exists d, build row = Ok (VDict d)
                     /\ allowance_of category s st' = Some (VDict d)))
  /\ (forall row s st st',
        retention_row row s st = Done st' ->
        exists r,
          retention_of row = Ok r
          /\ allowance_of "13회차유지" s st'
             = Some (VList (retained s st ++ [VDict r])))
  /\ (forall df s rows st st',
        sheet_loop df "FC 사번" retention_row rows st = Done st' ->
        retained s st' = retained s st ++ retention_entries df s rows).
Proof.
  split; [|split].
  - intros category build Hin. split.
    + intros row s st st' M H.
      destruct (allowance_row_sets _ _ _ _ _ _ M H) as (v & B & G & _).
      destruct (single_literal_amount _ _ _ _ Hin B) as (d & x & -> & A).
      exists d, x. auto.
    + intros df key pre row post s st st' H K A.
      destruct (sheet_loop_split _ _ _ _ _ _ _ _ H) as (st1 & st2 & H1 & H2 & H3).
      apply (keyed_here _ _ _ _ _ _ _ K) in H2.
      destruct (allowance_row_sets _ _ _ _ _ _ (dmem_ensure s st1) H2)
        as (v & B & G & _).
      destruct (single_literal_amount _ _ _ _ Hin B) as (d & x & -> & _).
      exists d. split; [exact B|].
      rewrite (sheet_loop_elsewhere df key (allowance_row category build) s post
                 st2 st'); auto.
      intros r s1 sa sb Hr c' s' N.
      unfold allowance_row, update_with in Hr.
      destruct (build r); [|discriminate]. injection Hr as <-.
      now apply allowance_of_other.
  - intros row s st st' H.
    destruct (retention_row_appends _ _ _ _ H) as (r & A & B & _). eauto.
  - intros df s rows st st'. apply retention_loop.
Qed.

End AllowanceFacts.

Lemma allowance_categories_single_or_accumulating_witness :
  (exists d,
     branch_policy_of second_branch_row = Ok (VDict d)
     /\ allowance_of "시책2_지사시책" "12345"
          (state_of (sheet_loop branch_policy_sheet "FC 사번"
                       (allowance_row "시책2_지사시책" branch_policy_of)
                       ([first_branch_row] ++ second_branch_row :: []) []))
        = Some (VDict d))
  /\ retained "12345"
       (state_of (sheet_loop retention_sheet "FC 사번" retention_row
                    (iterrows retention_sheet) []))
     = retained "12345" []
         ++ retention_entries retention_sheet "12345" (iterrows retention_sheet).
Proof.
  pose proof (@allowance_categories_single_or_accumulating Z integral_floats)
    as (Single & _ & Loop).
  split.
  - apply (proj2 (Single "시책2_지사시책" branch_policy_of (or_introl eq_refl))
             branch_policy_sheet "FC 사번" [first_branch_row] second_branch_row []
             "12345" []).
    + vm_compute; reflexivity.
    + vm_compute; reflexivity.
    + vm_compute; reflexivity.
  - apply Loop. vm_compute; reflexivity.
Defined.

(* ------------------------------------------------------------------ *)
(** ** Identifiers *)

Section IdentifierFacts.

Context {F : Type} {PF : PyFloat F}.
Implicit Types (e : EmployeeDataStructure F) (st : Employees F) (row : Row F).

Lemma writes_id_str z (c : Scalar F) : writes_id z c -> scalar_str c = Z_to_string z.
Proof. now intros [->| ->]. Qed.

(** What a processed roster row leaves under its key. *)
Lemma individual_statement_row_files row c st st1 :
  row_item row "사번" = Ok c ->
  individual_statement_row row st = Done st1 ->
  exists e fin,
    dget (scalar_str c) st1 = Some e
    /\ financials_of row = Ok fin
    /\ sabon e = scalar_str c
    /\ employee_profile e = profile_of row
    /\ summary_financials e = fin
    /\ commission_contracts e = commissions_of (scalar_str c) st.
Proof.
  intros I. unfold individual_statement_row, update_with. rewrite I.
  destruct (financials_of row) as [fin|x]; [|discriminate].
  intros [= <-]. set (s := scalar_str c).
  assert (exists e0,
            dget s (if dmem s st then st else dset s new_employee st) = Some e0
            /\ commission_contracts e0 = commissions_of s st) as (e0 & G & C).
  { unfold commissions_of, dmem. destruct (dget s st) as [e0|] eqn:E.
    - exists e0. auto.
    - exists new_employee. split; [apply dget_dset_same|reflexivity]. }
  eexists _, fin.
  rewrite (dget_dmodify_same _ _ _ _
             (dget_dmodify_same _ _ _ _ G)).
  split; [reflexivity|]. simpl. auto.
Qed.

(** C2, as the code has it: the key of a row is [str] of its identifier
    cell.  An identifier written as an integer and the same identifier
    written as its decimal digits give the same key: the commission row is
    appended to the record the roster row filled, and no second record appears. *)
Theorem integer_and_text_identifier_share_a_record
  z (c1 c2 : Scalar F) row1 row2 st st1 st2 :
  writes_id z c1 -> writes_id z c2 ->
  row_item row1 "사번" = Ok c1 ->
  row_item row2 "지급사원번호" = Ok c2 ->
  individual_statement_row row1 st = Done st1 ->
  commission_contract_row row2 st1 = Done st2 ->
  scalar_str c1 = scalar_str c2
  /\ keys st2 = keys st1
  /\ exists e contract,
       dget (Z_to_string z) st2 = Some e
       /\ sabon e = Z_to_string z
       /\ employee_profile e = profile_of row1
       /\ contract_of row2 = Ok contract
       /\ commission_contracts e = commissions_of (Z_to_string z) st ++ [contract].
Proof.
  intros W1 W2 I1 I2 H1 H2.
  apply writes_id_str in W1, W2.
  destruct (individual_statement_row_files _ _ _ _ I1 H1)
    as (e1 & fin & G1 & _ & S1 & P1 & _ & C1).
  rewrite W1 in *.
  unfold commission_contract_row, update_with in H2. rewrite I2, W2 in H2.
  destruct (contract_of row2) as [contract|x]; [|discriminate].
  injection H2 as <-.
  assert (M : dmem (Z_to_string z) st1 = true) by (apply dmem_true; eauto).
  rewrite (ensure_present _ _ M).
  split; [congruence|]. split; [apply keys_dmodify|].
  exists (append_commission contract e1), contract.
  rewrite (dget_dmodify_same _ _ _ _ G1). simpl.
  repeat split; auto. now rewrite C1.
Qed.

End IdentifierFacts.

Lemma integer_and_text_identifier_share_a_record_witness :
  keys (state_of (commission_contract_row sample_commission_row
                    (state_of (individual_statement_row sample_roster_row []))))
  = ["12345"].
Proof.
  assert (H := @integer_and_text_identifier_share_a_record Z integral_floats
                 12345 (SInt 12345) (SStr "12345")
                 sample_roster_row sample_commission_row []
                 (state_of (individual_statement_row sample_roster_row []))
                 (state_of (commission_contract_row sample_commission_row
                    (state_of (individual_statement_row sample_roster_row []))))
                 (or_introl eq_refl) (or_intror eq_refl)
                 eq_refl eq_refl eq_refl eq_refl).
  destruct H as (_ & K & _). rewrite K. vm_compute. reflexivity.
Defined.

(** C2 as stated fails: an identifier column read as floats prints with a
    trailing [.0], so the number 12345 of the roster and the text "12345" of
    the commission sheet end up in two records. *)
Lemma float_identifier_splits_the_record :
  row_item float_keyed_roster_row "사번" = Ok (SFloat 12345%Z)
  /\ row_item text_keyed_commission_row "지급사원번호" = Ok (SStr "12345")
  /\ exists st1 st2,
       individual_statement_row float_keyed_roster_row [] = Done st1
       /\ commission_contract_row text_keyed_commission_row st1 = Done st2
       /\ keys st2 = ["12345.0"; "12345"]
       /\ commissions_of "12345.0" st2 = []
       /\ length (commissions_of "12345" st2) = 1.
Proof.
  split; [reflexivity|]. split; [reflexivity|].
  eexists _, _. split; [vm_compute; reflexivity|].
  split; [vm_compute; reflexivity|].
  repeat split; vm_compute; reflexivity.
Qed.

(* ------------------------------------------------------------------ *)
(** ** What the passes preserve *)

Section Preservation.

Context {F : Type} {PF : PyFloat F}.
Variable P : Employees F -> Prop.

Lemma keeps_andthen p q : keeps P p -> keeps P q -> keeps P (andthen p q).
Proof.
  intros Hp Hq st H. unfold andthen. specialize (Hp st H).
  destruct (p st) as [st1|x st1]; simpl in *; auto.
Qed.

Lemma keeps_try_except p : keeps P p -> keeps P (try_except p).
Proof. intros Hp st H. unfold try_except. simpl. auto. Qed.

Lemma keeps_for_rows (body : Row F -> Proc F) rows :
  (forall row, keeps P (body row)) -> keeps P (for_rows body rows).
Proof.
  intros Hb. induction rows as [|row rows IH]; simpl.
  - intros st H. exact H.
  - apply keeps_andthen; auto.
Qed.

Lemma keeps_for_fields (body : string -> Proc F) fields :
  (forall f, keeps P (body f)) -> keeps P (for_fields body fields).
Proof.
  intros Hb. induction fields as [|f fields IH]; simpl.
  - intros st H. exact H.
  - apply keeps_andthen; auto.
Qed.

Lemma keeps_update_with {A} (r : Result A) s f :
  (forall a st, r = Ok a -> P st -> P (dmodify s (f a) st)) ->
  keeps P (update_with r s f).
Proof.
  intros H st Hst. unfold update_with. destruct r as [a|x]; simpl; auto.
Qed.

Lemma keeps_keyed df key row body :
  (forall s st, P st -> P (ensure s st)) ->
  (forall s, keeps P (body s)) ->
  keeps P (keyed df key row body).
Proof.
  intros He Hb st H. unfold keyed.
  destruct (in_columns key df && notna (row_get row key)); [|exact H].
  destruct (row_item row key) as [c|x]; [|exact H].
  apply Hb, He, H.
Qed.

Lemma keeps_optional_sheet xl sheet_name header key body :
  (forall s st, P st -> P (ensure s st)) ->
  (forall row s, keeps P (body row s)) ->
  keeps P (optional_sheet xl sheet_name header key body).
Proof.
  intros He Hb. unfold optional_sheet. apply keeps_try_except.
  intros st H. apply keeps_for_rows; auto.
  intros row. apply keeps_keyed; auto.
Qed.

Lemma keeps_allowance_row category build row s :
  (forall v st, build row = Ok v -> P st ->
     P (dmodify s (set_allowance category v) st)) ->
  keeps P (allowance_row category build row s).
Proof. intros H. unfold allowance_row. now apply keeps_update_with. Qed.

Lemma keeps_retention_row row s :
  (forall r e e' st, retention_of row = Ok r -> dget s st = Some e ->
     append_retention r e = Ok e' -> P st -> P (dmodify s (fun _ => e') st)) ->
  keeps P (retention_row row s).
Proof.
  intros H st Hst. unfold retention_row.
  destruct (retention_of row) as [r|x] eqn:R; [|exact Hst].
  destruct (dget s st) as [e|] eqn:G; [|exact Hst].
  destruct (append_retention r e) as [e'|x] eqn:A; [|exact Hst].
  simpl. eauto.
Qed.

Lemma keeps_clawback_row build row s :
  (forall c st, build row = Ok c -> P st -> P (dmodify s (append_clawback c) st)) ->
  keeps P (clawback_row build row s).
Proof. intros H. unfold clawback_row. now apply keeps_update_with. Qed.

(** The allowance sheets write allowances only, the clawback sheets
    clawback entries only. *)
Lemma keeps_additional_allowances xl :
  (forall s st, P st -> P (ensure s st)) ->
  (forall category build row v s st,
     In (category, build) single_categories -> build row = Ok v ->
     P st -> P (dmodify s (set_allowance category v) st)) ->
  (forall row r s e e' st,
     retention_of row = Ok r -> dget s st = Some e ->
     append_retention r e = Ok e' -> P st -> P (dmodify s (fun _ => e') st)) ->
  keeps P (process_additional_allowances xl).
Proof.
  intros He Ha Hr. unfold process_additional_allowances, single_categories in *.
  repeat apply keeps_andthen;
    apply keeps_optional_sheet; auto; intros row s;
    try (apply keeps_retention_row; intros; eapply Hr; eauto);
    apply keeps_allowance_row; intros v st B; eapply Ha; eauto; simpl; tauto.
Qed.

Lemma keeps_clawback_records xl :
  (forall s st, P st -> P (ensure s st)) ->
  (forall build row c s st,
     In build clawback_literals -> build row = Ok c ->
     P st -> P (dmodify s (append_clawback c) st)) ->
  keeps P (process_clawback_records xl).
Proof.
  intros He Hc. unfold process_clawback_records, clawback_literals in *.
  repeat apply keeps_andthen;
    apply keeps_optional_sheet; auto; intros row s;
    apply keeps_clawback_row; intros c st B; eapply Hc; eauto; simpl; tauto.
Qed.

Hypothesis stable : Stable P.

Lemma keeps_individual_statements xl : keeps P (process_individual_statements xl).
Proof.
  apply keeps_for_rows. intros row st H. unfold individual_statement_row.
  destruct (row_item row "사번") as [c|x]; [|exact H].
  apply keeps_update_with.
  - intros fin st1 E H1. now apply (stable_summary P stable row).
  - apply (stable_profile P stable).
    destruct (dmem (scalar_str c) st) eqn:M; [exact H|].
    now apply (stable_create P stable).
Qed.

Lemma keeps_commission_contracts xl : keeps P (process_commission_contracts xl).
Proof.
  apply keeps_for_rows. intros row st H. unfold commission_contract_row.
  destruct (row_item row "지급사원번호") as [c|x]; [|exact H].
  apply keeps_update_with.
  - intros a st1 E H1. now apply (stable_commission P stable row).
  - now apply (stable_ensure P stable).
Qed.

Lemma keeps_override_records xl : keeps P (process_override_records xl).
Proof.
  apply keeps_for_rows. intros row st H. unfold override_record_row.
  destruct (row_item row "[오버라이드] 대상자사번") as [rc|x]; [|exact H].
  pose proof (stable_ensure P stable (scalar_str rc) st H) as H1.
  destruct (override_of row) as [o|x] eqn:O; [|exact H1].
  pose proof (stable_override P stable row o (scalar_str rc) _ O H1) as H2.
  destruct (row_item row "[FC] 대상자사번") as [fc|x]; [|exact H2].
  simpl. apply (stable_override_fc P stable row); auto.
  now apply (stable_ensure P stable).
Qed.

Lemma keeps_policy_contracts xl : keeps P (process_policy_contracts xl).
Proof.
  apply keeps_for_rows. intros row st H. unfold policy_contract_row.
  destruct (row_item row "사번") as [c|x]; [|exact H].
  apply keeps_update_with.
  - intros a st1 E H1. now apply (stable_policy P stable row).
  - now apply (stable_ensure P stable).
Qed.

Lemma keeps_performance_records xl : keeps P (process_performance_records xl).
Proof.
  apply keeps_try_except, keeps_for_rows. intros row.
  apply keeps_for_fields. intros field st H. unfold performance_field.
  destruct (dmem field row && notna (row_get row field)); [|exact H].
  destruct (row_item row field) as [c|x]; [|exact H].
  simpl. apply (stable_performance P stable).
  now apply (stable_ensure P stable).
Qed.

Theorem keeps_process_sheets xl : keeps P (process_sheets xl).
Proof.
  unfold process_sheets.
  apply keeps_andthen; [apply keeps_individual_statements|].
  apply keeps_andthen; [apply keeps_commission_contracts|].
  apply keeps_andthen; [apply keeps_override_records|].
  apply keeps_andthen; [apply keeps_policy_contracts|].
  apply keeps_andthen; [apply keeps_performance_records|].
  apply keeps_andthen.
  - apply keeps_additional_allowances.
    + apply (stable_ensure P stable).
    + apply (stable_allowance P stable).
    + apply (stable_retention P stable).
  - apply keeps_clawback_records.
    + apply (stable_ensure P stable).
    + apply (stable_clawback P stable).
Qed.

End Preservation.

(* ------------------------------------------------------------------ *)
(** ** Optional sheets that fail *)

Section OptionalFacts.

Context {F : Type} {PF : PyFloat F}.
Implicit Types (e : EmployeeDataStructure F) (st : Employees F) (row : Row F).

Lemma kept_refl r st : (forall e, r e e) -> kept r st st.
Proof. intros R s e0 H. eauto. Qed.

Lemma kept_ensure r st0 s st : kept r st0 st -> kept r st0 (ensure s st).
Proof.
  intros K s0 e0 H. destruct (K s0 e0 H) as (e & G & R).
  exists e. split; [now apply dget_ensure_present|exact R].
Qed.

Lemma kept_dmodify (r : EmployeeDataStructure F -> EmployeeDataStructure F -> Prop)
  st0 s f st :
  (forall e0 e, dget s st = Some e -> r e0 e -> r e0 (f e)) ->
  kept r st0 st -> kept r st0 (dmodify s f st).
Proof.
  intros Hf K s0 e0 H. destruct (K s0 e0 H) as (e & G & R).
  destruct (String.eqb_spec s0 s) as [->|N].
  - exists (f e). split; [now apply dget_dmodify_same|]. now apply Hf.
  - exists e. split; [now rewrite dget_dmodify_other|exact R].
Qed.

Lemma allowance_sheets_run xl :
  process_additional_allowances xl = run_in_order xl allowance_sheets.
Proof. reflexivity. Qed.

Lemma clawback_sheets_run xl :
  process_clawback_records xl = run_in_order xl clawback_sheets.
Proof. reflexivity. Qed.

Lemma allowances_frame xl st0 :
  keeps (kept same_but_allowances st0) (process_additional_allowances xl).
Proof.
  apply keeps_additional_allowances.
  - intros s st. apply kept_ensure.
  - intros category build row v s st _ _. apply kept_dmodify.
    intros e0 e _ R. unfold same_but_allowances in *. simpl. exact R.
  - intros row r s e e' st _ G A. apply kept_dmodify.
    intros e0 e1 G1 R. rewrite G in G1. injection G1 as <-.
    unfold append_retention in A.
    destruct (dget "13회차유지" _) as [[c|d|l]|]; try discriminate.
    injection A as <-. unfold same_but_allowances in *. simpl. exact R.
Qed.

Lemma clawbacks_frame xl st0 :
  keeps (kept same_but_clawbacks st0) (process_clawback_records xl).
Proof.
  apply keeps_clawback_records.
  - intros s st. apply kept_ensure.
  - intros build row c s st _ _. apply kept_dmodify.
    intros e0 e _ R. unfold same_but_clawbacks in *. simpl. exact R.
Qed.

Lemma try_except_done p (st : Employees F) : exists st', try_except p st = Done st'.
Proof. unfold try_except. eauto. Qed.

Lemma run_in_order_done xl sheets : forall st,
  exists st', run_in_order xl sheets st = Done st'.
Proof.
  induction sheets as [|o sheets IH]; intros st; [simpl; eauto|].
  destruct sheets as [|o' sheets].
  - apply try_except_done.
  - change (exists st', andthen (run_optional xl o) (run_in_order xl (o' :: sheets)) st
                        = Done st').
    unfold andthen, run_optional, optional_sheet, try_except. apply IH.
Qed.

(** A row body that raises has written nothing. *)
Lemma update_with_raise {A} (r : Result A) s f st x st' :
  update_with r s f st = Raise x st' -> st' = st.
Proof. unfold update_with. destruct r; [discriminate|]. now intros [= _ <-]. Qed.

Lemma retention_row_raise row s st x st' :
  retention_row row s st = Raise x st' -> st' = st.
Proof.
  unfold retention_row. destruct (retention_of row); [|now intros [= _ <-]].
  destruct (dget s st); [|now intros [= _ <-]].
  destruct (append_retention _ _); [discriminate|]. now intros [= _ <-].
Qed.

Lemma optional_body_raise o row s st x st' :
  In o (allowance_sheets ++ clawback_sheets) ->
  os_body o row s st = Raise x st' -> st' = st.
Proof.
  simpl. intros [<-|[<-|[<-|[<-|[<-|[<-|[<-|[<-|[]]]]]]]]]; simpl;
    first [apply update_with_raise | apply retention_row_raise].
Qed.

Lemma keyed_raise o df row st x st' :
  In o (allowance_sheets ++ clawback_sheets) ->
  keyed df (os_key o) row (os_body o row) st = Raise x st' ->
  st' = st \/ st' = ensure (scalar_str (row_get row (os_key o))) st.
Proof.
  intros Hin. unfold keyed.
  destruct (in_columns _ df && notna _); [|discriminate].
  destruct (row_item row (os_key o)) as [c|y] eqn:I; [|intros [= _ <-]; now left].
  rewrite (row_item_get _ _ _ I). intros H. right.
  now apply (optional_body_raise _ _ _ _ _ _ Hin H).
Qed.

(** The two optional passes return and keep what was there. *)
Lemma optional_passes_return xl st :
  exists st1 st2,
    process_additional_allowances xl st = Done st1
    /\ kept same_but_allowances st st1
    /\ process_clawback_records xl st1 = Done st2
    /\ kept same_but_clawbacks st1 st2.
Proof.
  destruct (run_in_order_done xl allowance_sheets st) as [st1 E1].
  destruct (run_in_order_done xl clawback_sheets st1) as [st2 E2].
  rewrite <- allowance_sheets_run in E1. rewrite <- clawback_sheets_run in E2.
  exists st1, st2. repeat split; auto.
  - assert (K0 : kept same_but_allowances st st)
      by (apply kept_refl; intros e; repeat split).
    pose proof (allowances_frame xl st st K0) as K. now rewrite E1 in K.
  - assert (K0 : kept same_but_clawbacks st1 st1)
      by (apply kept_refl; intros e; repeat split).
    pose proof (clawbacks_frame xl st1 st1 K0) as K. now rewrite E2 in K.
Qed.

End OptionalFacts.

(* ------------------------------------------------------------------ *)
(** ** The uploader *)

Section UploadFacts.

Context {F : Type} {PF : PyFloat F}.
Variable World : Type.
Variable embeddings_create : World -> list string -> World * Result (list (list F)).
Variable index_upsert : World -> list (Vector F) -> string -> World * bool.

#[local] Abbreviation upload_batches := (upload_batches World embeddings_create index_upsert).
#[local] Abbreviation upload_groups := (upload_groups World embeddings_create index_upsert).
#[local] Abbreviation upload_documents := (upload_documents World embeddings_create index_upsert).
#[local] Abbreviation generate_embeddings_batch :=
  (generate_embeddings_batch World embeddings_create).

Implicit Types (doc : Document F) (s : Scalar F).

(** *** Batching *)

Lemma Forall_firstn_skipn {A} (Q : A -> Prop) n (l : list A) :
  Forall Q l -> Forall Q (firstn n l) /\ Forall Q (skipn n l).
Proof.
  intros H. rewrite <- (firstn_skipn n l) in H. now apply Forall_app in H.
Qed.

Lemma chunks_Forall {A} (Q : A -> Prop) n fuel : forall (l : list A),
  Forall Q l -> Forall (Forall Q) (chunks fuel n l).
Proof.
  induction fuel as [|fuel IH]; intros l H; simpl; [constructor|].
  destruct l as [|x l]; [constructor|].
  destruct (Forall_firstn_skipn Q n (x :: l) H) as [H1 H2].
  constructor; auto.
Qed.

(** The batches cover the documents: [length l] rounds are enough. *)
Lemma chunks_concat {A} n fuel : forall (l : list A),
  0 < n -> length l <= fuel -> concat (chunks fuel n l) = l.
Proof.
  induction fuel as [|fuel IH]; intros l Hn Hl.
  - destruct l; [reflexivity|simpl in Hl; lia].
  - destruct l as [|x l]; [reflexivity|].
    cbn [chunks concat].
    rewrite IH; [apply firstn_skipn|exact Hn|].
    rewrite length_skipn. simpl in Hl. simpl length. lia.
Qed.

Lemma batches_of_Forall {A} (Q : A -> Prop) batch_size (l : list A) batches :
  Forall Q l -> batches_of batch_size l = Ok batches -> Forall (Forall Q) batches.
Proof.
  intros H. unfold batches_of.
  destruct (batch_size =? 0)%Z; [discriminate|].
  destruct (batch_size <? 0)%Z; intros [= <-]; [constructor|].
  now apply chunks_Forall.
Qed.


(** *** Grouping *)

Lemma group_add_text t doc g :
  dget "사번" (metadata doc) = Some (vstr t) ->
  Forall text_group g -> Forall text_group (group_add (SStr t) doc g).
Proof.
  intros D. induction g as [|[k ds] g IH]; simpl; intros H.
  - repeat constructor; [now exists t|]. unfold well_grouped. simpl.
    repeat constructor. exact D.
  - inversion H as [|? ? [[t' Hk] Hg] Hrest]; subst. simpl in Hk. subst k.
    simpl. destruct (t' =? t) eqn:E.
    + apply String.eqb_eq in E. subst t'. constructor; [|exact Hrest].
      split; [now exists t|]. unfold well_grouped in *. simpl in *.
      apply Forall_app. split; [exact Hg|]. repeat constructor. exact D.
    + constructor; [|now apply IH]. split; [now exists t'|exact Hg].
Qed.

Lemma group_add_documents {A} (k : Scalar F) (x : A) g :
  forall y, In y (flat_map snd (group_add k x g)) <-> y = x \/ In y (flat_map snd g).
Proof.
  induction g as [|[k' xs] g IH]; simpl; intros y.
  - intuition auto.
  - destruct (scalar_eqb k' k); simpl; rewrite !in_app_iff.
    + simpl. intuition auto.
    + rewrite IH. intuition auto.
Qed.

Lemma group_documents_into_text documents : forall g,
  Forall carries_text_sabon documents ->
  Forall text_group g ->
  exists groups,
    group_documents_into documents g = Ok groups
    /\ Forall text_group groups
    /\ (forall doc, In doc (grouped_documents groups)
                    <-> In doc documents \/ In doc (grouped_documents g)).
Proof.
  induction documents as [|doc documents IH]; simpl; intros g H Hg.
  - exists g. repeat split; auto; tauto.
  - inversion H as [|? ? [t D] Hrest]; subst.
    unfold meta_item. rewrite D. simpl.
    destruct (IH (group_add (SStr t) doc g) Hrest (group_add_text _ _ _ D Hg))
      as (groups & E & T & M).
    exists groups. repeat split; auto.
    + intros I. apply M in I. unfold grouped_documents in I.
      rewrite group_add_documents in I. intuition auto.
    + intros I. apply M. unfold grouped_documents.
      rewrite group_add_documents. intuition auto.
Qed.

(** *** The isolation check *)






(** *** What a mismatch does *)




Lemma upload_groups_cons batch_size s doc docs rest st :
  upload_groups batch_size ((s, doc :: docs) :: rest) st
  = match batches_of batch_size (doc :: docs) with
    | Err x => Aborted x st
    | Ok batches =>
        match upload_batches s ("employee_" ^^ scalar_str s) batches st with
        | Uploaded st' => upload_groups batch_size rest st'
        | Aborted x st' => Aborted x st'
        end
    end.
Proof. reflexivity. Qed.

Lemma upload_batches_cons s namespace batch rest st :
  upload_batches s namespace (batch :: rest) st
  = match generate_embeddings_batch (world st) (map text batch) with
    | (w, Err _) => upload_batches s namespace rest (with_world w st)
    | (w, Ok embeddings) =>
        match build_vectors s (combine batch embeddings) with
        | Err x => Aborted x (with_world w st)
        | Ok vectors =>
            match index_upsert w vectors namespace with
            | (w', true) =>
                upload_batches s namespace rest
                  (record_upsert w' namespace vectors st)
            | (w', false) => upload_batches s namespace rest (with_world w' st)
            end
        end
    end.
Proof. reflexivity. Qed.


End UploadFacts.





(* ------------------------------------------------------------------ *)
(** ** Documents *)

Lemma length_append s t : String.length (s ^^ t) = String.length s + String.length t.
Proof. induction s as [|c s IH]; simpl; [reflexivity|now rewrite IH]. Qed.

Lemma append_inj_l s s' t : s ^^ t = s' ^^ t -> s = s'.
Proof.
  revert s'. induction s as [|c s IH]; intros [|c' s'] H; simpl in H.
  - reflexivity.
  - apply (f_equal String.length) in H. simpl in H. rewrite length_append in H. lia.
  - apply (f_equal String.length) in H. simpl in H. rewrite length_append in H. lia.
  - injection H as -> H. f_equal. now apply IH.
Qed.

Section DocumentFacts.

Context {F : Type} {PF : PyFloat F}.
Implicit Types (e : EmployeeDataStructure F) (st : Employees F) (row : Row F).

Lemma Forall_dmodify (I : EmployeeDataStructure F -> Prop) s f st :
  (forall e, I e -> I (f e)) ->
  Forall (fun kv => I (snd kv)) st ->
  Forall (fun kv => I (snd kv)) (dmodify s f st).
Proof.
  intros Hf. induction st as [|[k e] st IH]; simpl; intros H; [constructor|].
  inversion H; subst. destruct (s =? k); constructor; simpl in *; auto.
Qed.

Lemma Forall_ensure (I : EmployeeDataStructure F -> Prop) s st :
  I (with_sabon s new_employee) ->
  Forall (fun kv => I (snd kv)) st ->
  Forall (fun kv => I (snd kv)) (ensure s st).
Proof.
  intros Hn H. destruct (dmem s st) eqn:M.
  - now rewrite ensure_present.
  - rewrite ensure_absent by exact M. apply Forall_app. split; [exact H|].
    repeat constructor. exact Hn.
Qed.

Lemma well_formed_dmodify s f st :
  (forall e, employee_profile (f e) = employee_profile e) ->
  well_formed st -> well_formed (dmodify s f st).
Proof.
  intros Hf [N A]. split.
  - now rewrite keys_dmodify.
  - apply Forall_dmodify; [|exact A].
    intros e. unfold profile_scalars. now rewrite Hf.
Qed.

Lemma profile_of_scalars row e s :
  profile_scalars (with_profile (profile_of row) (with_sabon s e)).
Proof.
  unfold profile_scalars, profile_of, cellv, cell_strv, cell_str_notnav. simpl.
  repeat (apply Forall_cons;
          [simpl; first [ left; reflexivity
                        | right; reflexivity
                        | right; destruct (notna _); reflexivity ]|]).
  apply Forall_nil.
Qed.

Lemma well_formed_stable : Stable (well_formed (F := F)).
Proof.
  constructor.
  - intros s st [N A]. split; [now apply NoDup_keys_ensure|].
    apply Forall_ensure; [constructor|exact A].
  - intros s st [N A] M. rewrite (dset_absent _ _ _ (proj1 (dmem_false _ _) M)).
    split.
    + unfold keys. rewrite map_app. simpl.
      apply dmem_false, dget_None_not_In in M.
      apply NoDup_app; [exact N|repeat constructor; simpl; tauto|].
      intros x Hx [<-|[]]. contradiction.
    + apply Forall_app. split; [exact A|]. repeat constructor.
  - intros row s st [N A]. split; [now rewrite keys_dmodify|].
    apply Forall_dmodify; [|exact A]. intros e _. apply profile_of_scalars.
  - intros row fin s st _. now apply well_formed_dmodify.
  - intros row c s st _. now apply well_formed_dmodify.
  - intros row o s st _. now apply well_formed_dmodify.
  - intros row o r s st _. now apply well_formed_dmodify.
  - intros row p s st _. now apply well_formed_dmodify.
  - intros field row s st. now apply well_formed_dmodify.
  - intros category build row v s st _ _. now apply well_formed_dmodify.
  - intros row r s e e' st _ G A [N W]. split; [now rewrite keys_dmodify|].
    assert (P : employee_profile e' = employee_profile e).
    { unfold append_retention in A.
      destruct (dget "13회차유지" _) as [[c|d|l]|]; try discriminate.
      now injection A as <-. }
    clear A. revert G. induction W as [|[k e1] st W1 W IH]; simpl; [constructor|].
    destruct (s =? k).
    + intros [= ->]. constructor; [|exact W]. simpl in *.
      unfold profile_scalars in *. now rewrite P.
    + intros G. constructor; [exact W1|]. inversion N; subst. now apply IH.
  - intros build row c s st _ _. now apply well_formed_dmodify.
Qed.

Lemma calculate_well_formed st st' :
  calculate_aggregated_financials st = Done st' -> well_formed st -> well_formed st'.
Proof.
  intros H [N A]. apply calculate_items_spec in H. split.
  - replace (keys st') with (keys st); [exact N|].
    induction H as [|[s e] [s' e'] l l' [K D] _ IH]; simpl; [reflexivity|].
    simpl in K. subst s'. f_equal. inversion N; subst.
    inversion A; subst. auto.
  - clear N. induction H as [|[s e] [s' e'] l l' [K D] _ IH]; [constructor|].
    inversion A; subst. constructor; [|auto]. simpl in *.
    destruct (derive_sources _ _ D) as (_ & P & _).
    unfold profile_scalars in *. now rewrite P.
Qed.

Lemma process_all_well_formed xl st : process_all xl = Done st -> well_formed st.
Proof.
  unfold process_all, andthen. intros H.
  pose proof (keeps_process_sheets _ well_formed_stable xl []) as K.
  destruct (process_sheets xl []) as [st0|x st0]; [|discriminate].
  apply (calculate_well_formed st0 st H). apply K.
  split; constructor.
Qed.

Lemma profile_attribute_scalar e k :
  profile_scalars e -> k <> "조직" ->
  is_scalar (dget_or k (vstr "") (employee_profile e)) = true.
Proof.
  unfold profile_scalars, dget_or. intros H N.
  induction H as [|[k' v] p [K|S] _ IH]; simpl; auto.
  - simpl in K. subst k'. apply String.eqb_neq in N. now rewrite N.
  - destruct (k =? k'); auto.
Qed.

Lemma profile_document_spec s e doc :
  profile_scalars e -> profile_document s e = Ok doc -> profile_document_of s e doc.
Proof.
  intros W. unfold profile_document.
  destruct (to_text_for_embedding e) as [t|x] eqn:T; simpl; [|discriminate].
  intros [= <-]. unfold profile_document_of.
  cbn [id doc_type text metadata].
  repeat split; [exact T|].
  unfold values. cbn [map snd forallb].
  rewrite !(profile_attribute_scalar e _ W) by discriminate. reflexivity.
Qed.

Lemma generate_documents_spec st : forall docs,
  Forall (fun kv => profile_scalars (snd kv)) st ->
  generate_employee_centric_documents st = Ok docs ->
  Forall2 (fun kv doc => profile_document_of (fst kv) (snd kv) doc) st docs.
Proof.
  induction st as [|[s e] st IH]; simpl; intros docs W.
  - intros [= <-]. constructor.
  - inversion W; subst.
    destruct (profile_document s e) as [doc|x] eqn:D; simpl; [|discriminate].
    destruct (generate_employee_centric_documents st) as [rest|x]; simpl;
      [|discriminate].
    intros [= <-]. constructor; auto.
    now apply profile_document_spec.
Qed.

Lemma document_ids_distinct st (docs : list (Document F)) :
  NoDup (keys st) ->
  Forall2 (fun kv doc => profile_document_of (fst kv) (snd kv) doc) st docs ->
  NoDup (map id docs).
Proof.
  intros N H.
  assert (E : map id docs = map (fun k => k ^^ "_profile") (keys st)).
  { clear N. induction H as [|[s e] doc l l' D _ IH]; simpl; [reflexivity|].
    destruct D as (-> & _). f_equal. exact IH. }
  rewrite E. apply Injective_map_NoDup; [|exact N].
  intros a b. apply append_inj_l.
Qed.

End DocumentFacts.

(* ------------------------------------------------------------------ *)
(** ** The passes build what the later steps can read *)

Section TypedFacts.

Context {F : Type} {PF : PyFloat F}.
Implicit Types (e : EmployeeDataStructure F) (st : Employees F) (row : Row F).

Lemma literal_get_result {V} (fields : list (string * Result V)) (d : dict V) k r :
  literal fields = Ok d -> dget k fields = Some r ->
  exists v, r = Ok v /\ dget k d = Some v.
Proof.
  revert d. induction fields as [|[k' r'] fields IH]; simpl; [discriminate|].
  intros d. destruct r' as [a|x]; simpl; [|discriminate].
  destruct (literal fields) as [d'|x]; simpl; [|discriminate].
  intros [= <-]. simpl. destruct (k =? k').
  - intros [= <-]. eauto.
  - now apply IH.
Qed.

Lemma literal_Forall {V} (Q : V -> Prop) (fields : list (string * Result V)) :
  forall d,
    Forall (fun kr => forall v, snd kr = Ok v -> Q v) fields ->
    literal fields = Ok d -> Forall (fun kv => Q (snd kv)) d.
Proof.
  induction fields as [|[k r] fields IH]; simpl; intros d H.
  - intros [= <-]. constructor.
  - inversion H as [|? ? Hr Hrest]; subst.
    destruct r as [a|x]; simpl; [|discriminate].
    destruct (literal fields) as [d'|x]; simpl; [|discriminate].
    intros [= <-]. constructor; simpl; auto.
Qed.

Lemma cell_float_numeric row k v : cell_float row k = Ok v -> numeric v.
Proof.
  unfold cell_float. destruct (py_float _); simpl; [|discriminate].
  now intros [= <-].
Qed.

Lemma amount_numeric row k (c : Scalar F) :
  amount row k = Ok c -> numeric (VScalar c).
Proof.
  unfold amount. destruct (py_float _); simpl; [|discriminate].
  now intros [= <-].
Qed.

Lemma cell_scalar row k v : cell row k = Ok v -> is_scalar v = true.
Proof. unfold cell. now intros [= <-]. Qed.

(** An entry built by a literal is typed under an amount key written with
    [cell_float] and hashable under a key written with [cell] or a constant. *)
Lemma literal_amount_typed fields (x : Entry F) key row k :
  literal fields = Ok x -> dget key fields = Some (cell_float row k) ->
  amount_typed key x.
Proof.
  intros L G. destruct (literal_get_result _ _ _ _ L G) as (v & R & D).
  unfold amount_typed, field_or0, dget_or. rewrite D.
  now apply (cell_float_numeric row k).
Qed.

Lemma literal_key_hashable fields (x : Entry F) key r :
  literal fields = Ok x -> dget key fields = Some r ->
  (forall v, r = Ok v -> is_scalar v = true) ->
  key_hashable key x.
Proof.
  intros L G H. destruct (literal_get_result _ _ _ _ L G) as (v & R & D).
  unfold key_hashable, dget_or. rewrite D. now apply H.
Qed.

Lemma Forall_dset {V} (Q : V -> Prop) k v (d : dict V) :
  Q v -> Forall (fun kv => Q (snd kv)) d -> Forall (fun kv => Q (snd kv)) (dset k v d).
Proof.
  intros Hv. induction d as [|[k' v'] d IH]; simpl; intros H.
  - repeat constructor. exact Hv.
  - inversion H; subst. destruct (k =? k'); constructor; auto.
Qed.

Lemma Forall_dget_or {V} (Q : V -> Prop) k default (d : dict V) :
  Q default -> Forall (fun kv => Q (snd kv)) d -> Q (dget_or k default d).
Proof.
  intros Hd H. unfold dget_or.
  induction H as [|[k' v'] d Hv _ IH]; simpl; [exact Hd|].
  destruct (k =? k'); auto.
Qed.

Lemma typed_new s : typed (with_sabon s (new_employee (F := F))).
Proof. repeat split; constructor. Qed.

Lemma typed_append_list {A}
  (Q : A -> Prop) (l : list A) (x : A) : Forall Q l -> Q x -> Forall Q (l ++ [x]).
Proof. intros H Hx. apply Forall_app. split; [exact H|]. now repeat constructor. Qed.

Lemma all_typed_dmodify s f st :
  (forall e, typed e -> typed (f e)) -> all_typed st -> all_typed (dmodify s f st).
Proof. intros Hf. now apply Forall_dmodify. Qed.

Lemma fc_override_typed (o : Entry F) r row :
  amount_typed "오버라이드_금액" o /\ key_hashable "오버라이드_종류" o ->
  amount_typed "오버라이드_금액" (fc_override_of o r row)
  /\ key_hashable "오버라이드_종류" (fc_override_of o r row).
Proof.
  unfold amount_typed, key_hashable, field_or0, dget_or, fc_override_of.
  now rewrite !dget_dset_other by (intro; discriminate).
Qed.

Lemma clawback_literal_typed build row (c : Entry F) :
  In build clawback_literals -> build row = Ok c ->
  amount_typed "환수금액" c /\ key_hashable "환수유형" c.
Proof.
  unfold clawback_literals. simpl.
  intros [<-|[<-|[<-|[]]]] B; split;
    first [ eapply literal_amount_typed; [exact B|reflexivity]
          | eapply literal_key_hashable;
            [exact B|reflexivity|intros v [= <-]; reflexivity] ].
Qed.

Lemma all_typed_stable : Stable (all_typed (F := F)).
Proof.
  constructor.
  - intros s st H. apply Forall_ensure; [apply typed_new|exact H].
  - intros s st H M. rewrite (dset_absent _ _ _ (proj1 (dmem_false _ _) M)).
    apply Forall_app. split; [exact H|]. repeat constructor.
  - intros row s st. apply all_typed_dmodify. intros e T. exact T.
  - intros row fin s st L. apply all_typed_dmodify.
    intros e (T1 & T2 & T3 & T4 & T5 & _). repeat split; auto. simpl.
    unfold financials_of in L.
    eapply (literal_Forall (fun c => numeric (VScalar c))); [|exact L].
    repeat (apply Forall_cons; [simpl; apply amount_numeric|]). apply Forall_nil.
  - intros row c s st L. apply all_typed_dmodify.
    intros e (T1 & T2 & T3 & T4 & T5 & T6). repeat split; auto. simpl.
    apply typed_append_list; [exact T1|]. split.
    + eapply literal_amount_typed; [exact L|reflexivity].
    + eapply literal_key_hashable; [exact L|reflexivity|apply cell_scalar].
  - intros row o s st L. apply all_typed_dmodify.
    intros e (T1 & T2 & T3 & T4 & T5 & T6). repeat split; auto. simpl.
    apply typed_append_list; [exact T2|]. split.
    + eapply literal_amount_typed; [exact L|reflexivity].
    + eapply literal_key_hashable; [exact L|reflexivity|apply cell_scalar].
  - intros row o r s st L. apply all_typed_dmodify.
    intros e (T1 & T2 & T3 & T4 & T5 & T6). repeat split; auto. simpl.
    apply typed_append_list; [exact T2|]. apply fc_override_typed. split.
    + eapply literal_amount_typed; [exact L|reflexivity].
    + eapply literal_key_hashable; [exact L|reflexivity|apply cell_scalar].
  - intros row p s st L. apply all_typed_dmodify.
    intros e (T1 & T2 & T3 & T4 & T5 & T6). repeat split; auto. simpl.
    apply typed_append_list; [exact T3|].
    eapply literal_amount_typed; [exact L|reflexivity].
  - intros field row s st. apply all_typed_dmodify. intros e T. exact T.
  - intros category build row v s st Hin B. apply all_typed_dmodify.
    intros e (T1 & T2 & T3 & T4 & T5 & T6). repeat split; auto. simpl.
    apply (Forall_dset allowance_typed); [|exact T5].
    destruct (single_literal_amount _ _ _ _ Hin B) as (d & x & -> & A).
    unfold allowance_typed, dget_or. now rewrite A.
  - intros row r s e e' st _ G A H.
    assert (T : typed e).
    { apply dget_In in G. unfold all_typed in H. rewrite Forall_forall in H.
      apply (H _ G). }
    apply all_typed_dmodify; [|exact H]. intros _ _.
    destruct T as (T1 & T2 & T3 & T4 & T5 & T6).
    unfold append_retention in A.
    destruct (dmem "13회차유지" (additional_allowances e));
      destruct (dget "13회차유지" _) as [[c|d|l]|]; try discriminate;
      injection A as <-; repeat split; auto; simpl;
      repeat (apply (Forall_dset allowance_typed); [exact I|]); exact T5.
  - intros build row c s st Hin B. apply all_typed_dmodify.
    intros e (T1 & T2 & T3 & T4 & T5 & T6). repeat split; auto. simpl.
    apply typed_append_list; [exact T4|].
    now apply (clawback_literal_typed build row).
Qed.

End TypedFacts.

(* ------------------------------------------------------------------ *)
(** ** The derivation pass and the rendering return *)

Section Totality.

Context {F : Type} {PF : PyFloat F}.
Implicit Types (e : EmployeeDataStructure F) (st : Employees F) (x : Entry F).

Lemma fmt0_numeric (v : PyVal F) : numeric v -> exists t, fmt0 v = Ok t.
Proof.
  unfold numeric. destruct v as [[| | | | |]| |]; simpl; try discriminate; eauto.
Qed.

Lemma py_gt0_numeric (v : PyVal F) : numeric v -> exists b, py_gt0 v = Ok b.
Proof.
  unfold numeric. destruct v as [[| | | | |]| |]; simpl; try discriminate; eauto.
Qed.

Lemma Forall_filter {A} (Q : A -> Prop) f (l : list A) :
  Forall Q l -> Forall Q (filter f l).
Proof.
  intros H. induction H as [|a l Ha _ IH]; simpl; [constructor|].
  destruct (f a); [constructor|]; auto.
Qed.

Lemma sum_typed key (xs : list (Entry F)) :
  Forall (amount_typed key) xs ->
  exists total, py_sum (map (field_or0 key) xs) = Ok total
                /\ numeric (VScalar total).
Proof.
  intros H. apply py_sum_numeric. apply Forall_map.
  exact H.
Qed.

Ltac use_sum H key xs :=
  let total := fresh "total" in
  let E := fresh "E" in
  let N := fresh "N" in
  destruct (sum_typed key xs H) as (total & E & N).

Lemma derive_total e : typed e -> exists e', derive e = Ok e' /\ typed e'.
Proof.
  intros (T1 & T2 & T3 & T4 & T5 & T6).
  assert (S1 : Forall (amount_typed "지급수수료_합계") (commission_contracts e))
    by (eapply Forall_impl; [|exact T1]; intros a [A _]; exact A).
  assert (S2 : Forall (amount_typed "오버라이드_금액")
                 (filter is_receiver (override_records e)))
    by (apply Forall_filter; eapply Forall_impl; [|exact T2];
        intros a [A _]; exact A).
  assert (S4 : Forall (amount_typed "환수금액") (clawback_records e))
    by (eapply Forall_impl; [|exact T4]; intros a [A _]; exact A).
  destruct (sum_typed _ _ S1) as (tc & E1 & N1).
  destruct (sum_typed _ _ S2) as (tov & E2 & N2).
  destruct (sum_typed _ _ T3) as (tp & E3 & N3).
  destruct (sum_typed _ _ S4) as (tcl & E4 & N4).
  unfold derive, total_commission, total_override, total_policy, total_clawback.
  rewrite E1, E2, E3, E4. simpl. eexists. split; [reflexivity|].
  repeat split; auto. simpl.
  repeat (apply (Forall_dset (fun c => numeric (VScalar c)));
          [first [assumption|reflexivity]|]).
  exact T6.
Qed.

Lemma calculate_total st :
  all_typed st ->
  exists st', calculate_aggregated_financials st = Done st' /\ all_typed st'.
Proof.
  unfold calculate_aggregated_financials, all_typed.
  induction st as [|[s e] st IH]; simpl; intros H.
  - exists []. split; [reflexivity|constructor].
  - inversion H as [|? ? He Hrest]; subst. simpl in He.
    destruct (derive_total e He) as (e' & -> & T').
    destruct (IH Hrest) as (st' & -> & A').
    exists ((s, e') :: st'). split; [reflexivity|]. constructor; auto.
Qed.

(** *** Grouping *)

Lemma group_add_Forall {A} (Q : A -> Prop) (k : Scalar F) (a : A) g :
  Q a -> Forall (fun kv => Forall Q (snd kv)) g ->
  Forall (fun kv => Forall Q (snd kv)) (group_add k a g).
Proof.
  intros Ha. induction g as [|[k' xs] g IH]; simpl; intros H.
  - repeat constructor. exact Ha.
  - inversion H; subst. destruct (scalar_eqb k' k); constructor; simpl in *; auto.
    apply Forall_app. split; [assumption|]. now repeat constructor.
Qed.

Lemma group_into_total key amount_key (entries : list (Entry F)) : forall g,
  Forall (fun x => amount_typed amount_key x /\ key_hashable key x) entries ->
  Forall (fun kv => Forall (amount_typed amount_key) (snd kv)) g ->
  exists g', group_into key entries g = Ok g'
             /\ Forall (fun kv => Forall (amount_typed amount_key) (snd kv)) g'.
Proof.
  induction entries as [|x entries IH]; simpl; intros g H Hg.
  - eauto.
  - inversion H as [|? ? [A K] Hrest]; subst.
    unfold key_hashable in K.
    destruct (dget_or key (vstr "") x) as [c| |]; try discriminate. simpl.
    apply IH; [exact Hrest|]. now apply group_add_Forall.
Qed.

Lemma group_lines_total amount_key (g : list (Scalar F * list (Entry F))) :
  Forall (fun kv => Forall (amount_typed amount_key) (snd kv)) g ->
  exists ls, group_lines amount_key g = Ok ls.
Proof.
  intros H. induction H as [|[k xs] g Hx _ IH]; [exists []; reflexivity|].
  cbn [group_lines].
  simpl in Hx. destruct (sum_typed _ _ Hx) as (total & -> & N). cbn [bind].
  destruct (fmt0_numeric _ N) as (t & ->). cbn [bind].
  destruct IH as (ls & ->). cbn [bind]. eauto.
Qed.

Lemma total_add_total (k : Scalar F) (v : PyVal F) g :
  numeric v ->
  Forall (fun kv => numeric (VScalar (snd kv))) g ->
  exists g', total_add k v g = Ok g'
             /\ Forall (fun kv => numeric (VScalar (snd kv))) g'.
Proof.
  intros Hv H. induction H as [|[k' t] g Ht Hg IH]; cbn [total_add].
  - destruct (py_add_val_numeric (SInt 0) v eq_refl Hv) as (a & -> & Na). cbn [bind].
    eexists. split; [reflexivity|]. repeat constructor. exact Na.
  - destruct (scalar_eqb k' k).
    + destruct (py_add_val_numeric t v Ht Hv) as (a & -> & Na). cbn [bind].
      eexists. split; [reflexivity|]. constructor; auto.
    + destruct IH as (g' & -> & Hg'). cbn [bind].
      eexists. split; [reflexivity|]. constructor; auto.
Qed.

Lemma totals_into_total (entries : list (Entry F)) : forall g,
  Forall (fun x => amount_typed "환수금액" x /\ key_hashable "환수유형" x) entries ->
  Forall (fun kv => numeric (VScalar (snd kv))) g ->
  exists g', totals_into entries g = Ok g'
             /\ Forall (fun kv => numeric (VScalar (snd kv))) g'.
Proof.
  induction entries as [|x entries IH]; cbn [totals_into]; intros g H Hg.
  - eauto.
  - inversion H as [|? ? [A K] Hrest]; subst.
    unfold key_hashable in K.
    destruct (dget_or "환수유형" (vstr "") x) as [c| |]; try discriminate.
    cbn [bind hashable].
    destruct (total_add_total c (field_or0 "환수금액" x) g A Hg) as (g1 & -> & H1).
    cbn [bind]. now apply IH.
Qed.

Lemma total_lines_total (g : list (Scalar F * Scalar F)) :
  Forall (fun kv => numeric (VScalar (snd kv))) g ->
  exists ls, total_lines g = Ok ls.
Proof.
  intros H. induction H as [|[k t] g Ht _ IH]; [exists []; reflexivity|].
  cbn [total_lines]. simpl in Ht.
  destruct (fmt0_numeric _ Ht) as (shown & ->). cbn [bind].
  destruct IH as (ls & ->). cbn [bind]. eauto.
Qed.

(** *** The sections *)

Lemma summary_line_total label key (f : dict (Scalar F)) :
  Forall (fun kv => numeric (VScalar (snd kv))) f ->
  exists l, summary_line label key f = Ok l.
Proof.
  intros H. unfold summary_line.
  destruct (fmt0_numeric (VScalar (dget_or key (SInt 0) f))) as (t & ->).
  - apply (Forall_dget_or (fun c => numeric (VScalar c))); [reflexivity|exact H].
  - cbn [bind]. eauto.
Qed.

Lemma summary_lines_total e : typed e -> exists ls, summary_lines e = Ok ls.
Proof.
  intros (_ & _ & _ & _ & _ & T6). unfold summary_lines.
  destruct (summary_financials e) as [|kv f] eqn:E; [eauto|].
  destruct (summary_line_total "최종지급액" "최종지급액" _ T6) as (l1 & ->).
  destruct (summary_line_total "총 커미션" "총_커미션" _ T6) as (l2 & ->).
  destruct (summary_line_total "총 오버라이드" "총_오버라이드" _ T6) as (l3 & ->).
  destruct (summary_line_total "총 시책금액" "총_시책금액" _ T6) as (l4 & ->).
  destruct (summary_line_total "총 환수금액" "총_환수금액" _ T6) as (l5 & ->).
  cbn [bind]. eauto.
Qed.

Lemma grouped_section_total key amount_key (xs : list (Entry F)) :
  Forall (fun x => amount_typed amount_key x /\ key_hashable key x) xs ->
  exists total shown g ls,
    py_sum (map (field_or0 amount_key) xs) = Ok total
    /\ fmt0 (VScalar total) = Ok shown
    /\ group_by key xs = Ok g
    /\ group_lines amount_key g = Ok ls.
Proof.
  intros H.
  assert (S : Forall (amount_typed amount_key) xs)
    by (eapply Forall_impl; [|exact H]; intros a [A _]; exact A).
  destruct (sum_typed _ _ S) as (total & E & N).
  destruct (fmt0_numeric _ N) as (shown & Sh).
  destruct (group_into_total key amount_key xs [] H (Forall_nil _)) as (g & G & Hg).
  destruct (group_lines_total _ _ Hg) as (ls & L).
  exists total, shown, g, ls. auto.
Qed.

Lemma commission_lines_total e : typed e -> exists ls, commission_lines e = Ok ls.
Proof.
  intros (T1 & _). unfold commission_lines.
  destruct (commission_contracts e) as [|c cs]; [eauto|].
  destruct (grouped_section_total "보험사" "지급수수료_합계" _ T1)
    as (total & shown & g & ls & -> & S & G & L).
  cbn [bind]. rewrite S. cbn [bind]. rewrite G. cbn [bind]. rewrite L. cbn [bind]. eauto.
Qed.

Lemma override_lines_total e : typed e -> exists ls, override_lines e = Ok ls.
Proof.
  intros (_ & T2 & _). unfold override_lines.
  destruct (override_records e) as [|c cs]; [eauto|].
  destruct (grouped_section_total "오버라이드_종류" "오버라이드_금액" _ T2)
    as (total & shown & g & ls & -> & S & G & L).
  cbn [bind]. rewrite S. cbn [bind]. rewrite G. cbn [bind]. rewrite L. cbn [bind]. eauto.
Qed.

Lemma policy_lines_total e : typed e -> exists ls, policy_lines e = Ok ls.
Proof.
  intros (_ & _ & T3 & _). unfold policy_lines.
  destruct (policy_contracts e) as [|c cs]; [eauto|].
  destruct (sum_typed _ _ T3) as (total & -> & N). cbn [bind].
  destruct (fmt0_numeric _ N) as (shown & ->). cbn [bind]. eauto.
Qed.

Lemma allowance_line_total key (v : PyVal F) :
  allowance_typed v -> exists ls, allowance_line key v = Ok ls.
Proof.
  intros H. unfold allowance_line.
  destruct (is_number v) eqn:N.
  - destruct (py_gt0_numeric v N) as ([|] & ->); cbn [bind]; [|eauto].
    destruct (fmt0_numeric v N) as (shown & ->). cbn [bind]. eauto.
  - destruct v as [c|d|l]; [eauto| |eauto]. simpl in H.
    destruct (py_gt0_numeric _ H) as ([|] & ->); cbn [bind]; [|eauto].
    destruct (fmt0_numeric _ H) as (shown & ->). cbn [bind]. eauto.
Qed.

Lemma allowance_items_total (a : dict (PyVal F)) :
  Forall (fun kv => allowance_typed (snd kv)) a ->
  exists ls, allowance_items a = Ok ls.
Proof.
  intros H. induction H as [|[k v] a Hv _ IH]; [exists []; reflexivity|].
  cbn [allowance_items].
  destruct (allowance_line_total k v Hv) as (l & ->). cbn [bind].
  destruct IH as (ls & ->). cbn [bind]. eauto.
Qed.

Lemma allowance_lines_total e : typed e -> exists ls, allowance_lines e = Ok ls.
Proof.
  intros (_ & _ & _ & _ & T5 & _). unfold allowance_lines.
  destruct (additional_allowances e) as [|kv a]; [eauto|].
  destruct (allowance_items_total _ T5) as (ls & ->). cbn [bind]. eauto.
Qed.

Lemma clawback_lines_total e : typed e -> exists ls, clawback_lines e = Ok ls.
Proof.
  intros (_ & _ & _ & T4 & _). unfold clawback_lines.
  destruct (clawback_records e) as [|c cs]; [eauto|].
  assert (S : Forall (amount_typed "환수금액") (c :: cs))
    by (eapply Forall_impl; [|exact T4]; intros a [A _]; exact A).
  destruct (sum_typed _ _ S) as (total & -> & N). cbn [bind].
  destruct (fmt0_numeric _ N) as (shown & ->). cbn [bind].
  destruct (totals_into_total _ [] T4 (Forall_nil _)) as (g & -> & Hg). cbn [bind].
  destruct (total_lines_total _ Hg) as (ls & ->). cbn [bind]. eauto.
Qed.

Lemma to_text_total e : typed e -> exists t, to_text_for_embedding e = Ok t.
Proof.
  intros T. unfold to_text_for_embedding, text_parts.
  destruct (summary_lines_total e T) as (l1 & ->).
  destruct (commission_lines_total e T) as (l2 & ->).
  destruct (override_lines_total e T) as (l3 & ->).
  destruct (policy_lines_total e T) as (l4 & ->).
  destruct (allowance_lines_total e T) as (l5 & ->).
  destruct (clawback_lines_total e T) as (l6 & ->).
  cbn [bind]. eauto.
Qed.

Lemma generate_total st :
  all_typed st -> exists docs, generate_employee_centric_documents st = Ok docs.
Proof.
  unfold all_typed.
  induction st as [|[s e] st IH]; cbn [generate_employee_centric_documents];
    intros H; [eauto|].
  inversion H as [|? ? He Hrest]; subst. simpl in He.
  unfold profile_document. destruct (to_text_total e He) as (t & ->). cbn [bind].
  destruct (IH Hrest) as (docs & ->). cbn [bind]. eauto.
Qed.

(** Once the sheets are read without an exception, the derivation pass
    returns, and so does the rendering of every record. *)
Lemma process_all_returns xl st0 :
  process_sheets xl [] = Done st0 ->
  exists st, process_all xl = Done st /\ all_typed st.
Proof.
  intros H. unfold process_all, andthen. rewrite H.
  apply calculate_total.
  pose proof (keeps_process_sheets _ all_typed_stable xl [] (Forall_nil _)) as K.
  now rewrite H in K.
Qed.

Lemma process_all_typed xl st : process_all xl = Done st -> all_typed st.
Proof.
  intros H. unfold process_all, andthen in H.
  destruct (process_sheets xl []) as [st0|x st0] eqn:E; [|discriminate].
  destruct (process_all_returns xl st0 E) as (st' & H' & T).
  unfold process_all, andthen in H'. rewrite E in H'. congruence.
Qed.

End Totality.

(* ------------------------------------------------------------------ *)
(** ** The sections of the text *)

Section TextFacts.

Context {F : Type} {PF : PyFloat F}.
Implicit Types (e : EmployeeDataStructure F) (x : Entry F).








(** *** The lines of each section *)














End TextFacts.

(* ------------------------------------------------------------------ *)
(** ** The insurer breakdown on two insurers *)




(* ------------------------------------------------------------------ *)
(** ** Grouping by a text key *)

Section GroupingFacts.

Context {F : Type} {PF : PyFloat F}.
Variable key : string.
Implicit Types (x : Entry F) (g : list (string * list (Entry F))).

Lemma mem_true k l : mem k l = true <-> In k l.
Proof.
  unfold mem. rewrite existsb_exists. split.
  - intros (y & I & E). apply String.eqb_eq in E. now subst.
  - intros I. exists k. split; [exact I|apply String.eqb_refl].
Qed.

Lemma mem_false k l : mem k l = false <-> ~ In k l.
Proof.
  rewrite <- mem_true. destruct (mem k l).
  - split; [discriminate|]. intros H. exfalso. now apply H.
  - split; [intros _; discriminate|reflexivity].
Qed.

Lemma group_add_text_keys k x g :
  group_add (SStr k) x (as_scalar_keys g) = as_scalar_keys (text_group_add k x g).
Proof.
  induction g as [|[k' ys] g IH]; simpl; [reflexivity|].
  destruct (k' =? k); simpl; [reflexivity|]. now rewrite IH.
Qed.

Lemma text_group_add_absent k x g :
  ~ In k (map fst g) -> text_group_add k x g = g ++ [(k, [x])].
Proof.
  induction g as [|[k' ys] g IH]; simpl; intros N; [reflexivity|].
  destruct (String.eqb_spec k' k) as [->|D]; [tauto|].
  rewrite IH; tauto.
Qed.

Lemma text_group_add_keys k x g :
  In k (map fst g) -> map fst (text_group_add k x g) = map fst g.
Proof.
  induction g as [|[k' ys] g IH]; simpl; intros I; [tauto|].
  destruct (String.eqb_spec k' k) as [->|D]; simpl; [reflexivity|].
  f_equal. apply IH. destruct I; [contradiction|assumption].
Qed.

Lemma with_key_cons_same x xs :
  with_key key (text_key key x) (x :: xs) = x :: with_key key (text_key key x) xs.
Proof. unfold with_key. simpl. now rewrite String.eqb_refl. Qed.

Lemma with_key_cons_other k x xs :
  k <> text_key key x -> with_key key k (x :: xs) = with_key key k xs.
Proof.
  intros N. unfold with_key. simpl.
  destruct (String.eqb_spec (text_key key x) k) as [E|_]; [congruence|reflexivity].
Qed.

(** Entries already grouped: the group of [x] takes [x], the others are
    as they were. *)
Lemma extended_groups_present x xs g :
  NoDup (map fst g) -> In (text_key key x) (map fst g) ->
  map (fun kv => (fst kv, snd kv ++ with_key key (fst kv) xs))
    (text_group_add (text_key key x) x g)
  = map (fun kv => (fst kv, snd kv ++ with_key key (fst kv) (x :: xs))) g.
Proof.
  induction g as [|[k' ys] g IH]; intros N I; [simpl in I; tauto|].
  cbn [map fst] in N, I. inversion N as [|? ? NI N']; subst.
  cbn [text_group_add].
  destruct (String.eqb_spec k' (text_key key x)) as [->|D]; cbn [map fst snd].
  - rewrite with_key_cons_same, <- app_assoc. cbn [app]. f_equal.
    apply map_ext_in. intros [k2 zs] I2. cbn [fst snd].
    rewrite with_key_cons_other; [reflexivity|].
    intros ->. apply NI. change (In (fst (text_key key x, zs)) (map fst g)).
    now apply in_map.
  - rewrite with_key_cons_other by exact D. f_equal.
    apply IH; [exact N'|]. destruct I; [contradiction|assumption].
Qed.

Lemma extended_groups_absent x xs g :
  ~ In (text_key key x) (map fst g) ->
  map (fun kv => (fst kv, snd kv ++ with_key key (fst kv) xs)) g
  = map (fun kv => (fst kv, snd kv ++ with_key key (fst kv) (x :: xs))) g.
Proof.
  intros N. apply map_ext_in. intros [k2 zs] I2. cbn [fst snd].
  rewrite with_key_cons_other; [reflexivity|].
  intros ->. apply N. change (In (fst (text_key key x, zs)) (map fst g)).
  now apply in_map.
Qed.

Lemma filter_twice {A} (p q : A -> bool) (l : list A) :
  filter p (filter q l) = filter (fun a => q a && p a) l.
Proof.
  induction l as [|a l IH]; simpl; [reflexivity|].
  destruct (q a); simpl; [|exact IH]. destruct (p a); now rewrite IH.
Qed.

Lemma new_groups_same x xs (p : string -> bool) l :
  (forall k, p k = true -> k <> text_key key x) ->
  map (fun k => (k, with_key key k (x :: xs))) (filter p l)
  = map (fun k => (k, with_key key k xs)) (filter p l).
Proof.
  intros H. apply map_ext_in. intros k I. apply filter_In in I.
  destruct I as [_ I]. now rewrite with_key_cons_other by now apply H.
Qed.

Lemma extended_step x xs g :
  NoDup (map fst g) ->
  extended key (text_group_add (text_key key x) x g) xs = extended key g (x :: xs).
Proof.
  intros N. unfold extended. cbn [map first_seen].
  set (l := first_seen (map (text_key key) xs)).
  destruct (mem (text_key key x) (map fst g)) eqn:M.
  - pose proof (proj1 (mem_true _ _) M) as I.
    rewrite (extended_groups_present x xs g N I). f_equal.
    rewrite (text_group_add_keys _ x g I). cbn [filter].
    rewrite M. cbn [negb].
    rewrite filter_twice.
    rewrite new_groups_same.
    + f_equal. apply filter_ext. intros a.
      destruct (String.eqb_spec a (text_key key x)) as [->|D]; cbn [negb andb];
        [now rewrite M|reflexivity].
    + intros a Ha. apply andb_true_iff in Ha. destruct Ha as [Ha _].
      apply negb_true_iff, String.eqb_neq in Ha. exact Ha.
  - pose proof (proj1 (mem_false _ _) M) as NI.
    rewrite (text_group_add_absent _ x g NI).
    rewrite map_app, <- app_assoc. f_equal; [now apply extended_groups_absent|].
    cbn [map fst snd app filter]. rewrite M. cbn [negb map].
    rewrite with_key_cons_same. f_equal.
    rewrite filter_twice, new_groups_same.
    + f_equal. apply filter_ext. intros a. rewrite map_app. cbn [map fst].
      unfold mem. rewrite existsb_app. cbn [existsb].
      rewrite orb_false_r, negb_orb. apply andb_comm.
    + intros a Ha. apply andb_true_iff in Ha. destruct Ha as [Ha _].
      apply negb_true_iff, String.eqb_neq in Ha. exact Ha.
Qed.

Lemma text_group_add_NoDup k x g :
  NoDup (map fst g) -> NoDup (map fst (text_group_add k x g)).
Proof.
  intros N. destruct (mem k (map fst g)) eqn:M.
  - apply mem_true in M. now rewrite text_group_add_keys.
  - apply mem_false in M. rewrite text_group_add_absent by exact M.
    rewrite map_app. simpl. apply NoDup_app; [exact N|repeat constructor; simpl; tauto|].
    intros a Ha [<-|[]]. contradiction.
Qed.

Lemma extended_nil g : extended key g [] = g.
Proof.
  unfold extended. simpl. rewrite app_nil_r.
  rewrite <- (map_id g) at 2. apply map_ext. intros [k ys]. simpl.
  unfold with_key. simpl. now rewrite app_nil_r.
Qed.

Lemma group_into_extended (xs : list (Entry F)) : forall g,
  NoDup (map fst g) -> Forall (has_text_key key) xs ->
  group_into key xs (as_scalar_keys g) = Ok (as_scalar_keys (extended key g xs)).
Proof.
  induction xs as [|x xs IH]; intros g N H.
  - simpl. now rewrite extended_nil.
  - inversion H as [|? ? Hx Hxs]; subst. cbn [group_into].
    unfold has_text_key in Hx. rewrite Hx. cbn [hashable vstr bind].
    rewrite group_add_text_keys.
    rewrite (IH _ (text_group_add_NoDup _ _ _ N) Hxs).
    now rewrite extended_step.
Qed.

(** The grouping law: one group per distinct key in first-seen order, each
    group the entries with its key. *)
Lemma group_by_text_key (xs : list (Entry F)) :
  Forall (has_text_key key) xs -> group_by key xs = Ok (groups_of key xs).
Proof.
  intros H. unfold group_by.
  change (@nil (Scalar F * list (Entry F))) with (as_scalar_keys (F := F) []).
  rewrite (group_into_extended xs [] (NoDup_nil _) H). f_equal.
  assert (All : forall l : list string,
            filter (fun k => negb (mem k (map fst (@nil (string * list (Entry F))))))
              l = l)
    by (induction l as [|a l IH]; simpl; [reflexivity|now f_equal]).
  unfold extended, as_scalar_keys, groups_of. cbn [map app].
  now rewrite All, map_map.
Qed.

Lemma first_seen_NoDup (l : list string) : NoDup (first_seen l).
Proof.
  induction l as [|k l IH]; simpl; [constructor|]. constructor.
  - intros I. apply filter_In in I. destruct I as [_ I].
    now rewrite String.eqb_refl in I.
  - now apply NoDup_filter.
Qed.

Lemma first_seen_In (l : list string) k : In k (first_seen l) <-> In k l.
Proof.
  induction l as [|k' l IH]; simpl; [tauto|].
  rewrite filter_In, IH. split.
  - intros [E|[I _]]; auto.
  - intros [E|I]; [now left|].
    destruct (String.eqb_spec k k') as [->|D]; [now left|right].
    split; [exact I|reflexivity].
Qed.


End GroupingFacts.

Section CommissionSection.

Context {F : Type} {PF : PyFloat F}.



End CommissionSection.

(* ------------------------------------------------------------------ *)
(** ** The derived summary *)

Section DerivedSummary.

Context {F : Type} {PF : PyFloat F}.
Implicit Types (e : EmployeeDataStructure F) (st : Employees F).

(** The derivation pass returns on every mapping the sheet passes build. *)
Lemma derivation_returns_on_processed_sheets (xl : Workbook F) st0 :
  process_sheets xl [] = Done st0 ->
  exists st, calculate_aggregated_financials st0 = Done st.
Proof.
  intros H.
  pose proof (keeps_process_sheets _ all_typed_stable xl [] (Forall_nil _)) as K.
  rewrite H in K. destruct (calculate_total st0 K) as (st & E & _). eauto.
Qed.

(** C4: the derivation pass leaves the lists of every record untouched
    and writes, under the eight derived keys, the sums and counts of the
    record's own lists (the override sum and count over the receiver
    entries); the values written depend on the four lists only, the other
    summary keys keep their value, and running the pass again on its own
    result returns that result unchanged. *)
Theorem derivation_is_pure_and_idempotent st st' :
  calculate_aggregated_financials st = Done st' ->
  Forall2
    (fun kv kv' =>
       fst kv' = fst kv
       /\ same_sources (snd kv) (snd kv')
       /\ summary_matches_lists (snd kv')
       /\ (forall k, ~ In k derived_keys ->
             dget k (summary_financials (snd kv'))
             = dget k (summary_financials (snd kv))))
    st st'
  /\ (forall e1 e1' e2 e2',
        derive e1 = Ok e1' -> derive e2 = Ok e2' ->
        commission_contracts e1 = commission_contracts e2 ->
        override_records e1 = override_records e2 ->
        policy_contracts e1 = policy_contracts e2 ->
        clawback_records e1 = clawback_records e2 ->
        forall k, In k derived_keys ->
          dget k (summary_financials e1') = dget k (summary_financials e2'))
  /\ calculate_aggregated_financials st' = Done st'.
Proof.
  intros H. split; [|split].
  - now apply calculate_items_derived.
  - intros e1 e1' e2 e2' D1 D2 Hc Ho Hp Hw k Hk.
    now apply (derive_depends_on_lists_only e1 e1' e2 e2').
  - exact (calculate_items_idempotent st st' H).
Qed.


End DerivedSummary.

Lemma derivation_is_pure_and_idempotent_witness :
  calculate_aggregated_financials sample_sources = Done sample_employees
  /\ calculate_aggregated_financials sample_employees = Done sample_employees.
Proof.
  split; [vm_compute; reflexivity|].
  apply (derivation_is_pure_and_idempotent sample_sources sample_employees).
  vm_compute; reflexivity.
Defined.


(* ------------------------------------------------------------------ *)
(** ** The text and the documents of a record *)

Section TextAndDocuments.

Context {F : Type} {PF : PyFloat F}.


(** C8: on the mapping [process_all] returns, document generation returns
    exactly one document per record, in the order of the mapping.  The
    document of the record filed under [s] has the id [s ++ "_profile"], the
    type 'employee_profile', the rendering of the record as text, [s]
    under 사번, the nine metadata keys, and a scalar under each of them.
    The keys of the mapping are distinct, and so are the ids. *)
Theorem one_profile_document_per_employee (xl : Workbook F) st :
  process_all xl = Done st ->
  NoDup (keys st)
  /\ exists docs,
       generate_employee_centric_documents st = Ok docs
       /\ Forall2 (fun kv doc => profile_document_of (fst kv) (snd kv) doc) st docs
       /\ NoDup (map id docs).
Proof.
  intros H.
  destruct (process_all_well_formed xl st H) as [N W].
  destruct (generate_total st (process_all_typed xl st H)) as (docs & G).
  split; [exact N|]. exists docs.
  pose proof (generate_documents_spec st docs W G) as S.
  repeat split; auto. now apply (document_ids_distinct st).
Qed.

End TextAndDocuments.

Lemma one_profile_document_per_employee_witness :
  NoDup (keys sample_employees)
  /\ exists docs,
       generate_employee_centric_documents sample_employees = Ok docs
       /\ Forall2 (fun kv doc => profile_document_of (fst kv) (snd kv) doc)
            sample_employees docs
       /\ NoDup (map id docs).
Proof.
  apply (@one_profile_document_per_employee Z integral_floats sample_book).
  vm_compute; reflexivity.
Defined.



(* ------------------------------------------------------------------ *)
(** ** Failing optional sheets *)

Section OptionalSheets.

Context {F : Type} {PF : PyFloat F}.

Lemma process_sheets_after_required (xl : Workbook F) st4 :
  required_passes xl [] = Done st4 ->
  exists st0, process_sheets xl [] = Done st0.
Proof.
  unfold required_passes, process_sheets, andthen.
  destruct (process_individual_statements xl []) as [s1|? ?]; [|discriminate].
  destruct (process_commission_contracts xl s1) as [s2|? ?]; [|discriminate].
  destruct (process_override_records xl s2) as [s3|? ?]; [|discriminate].
  destruct (process_policy_contracts xl s3) as [s4|? ?]; [|discriminate].
  intros _. unfold process_performance_records, try_except.
  destruct (optional_passes_return xl
              (state_of (for_rows performance_record_row
                           (iterrows (safe_read_sheet xl "업적" 2)) s4)))
    as (st1 & st2 & -> & _ & E & _).
  exists st2. exact E.
Qed.

Lemma aggregation_completes (xl : Workbook F) st4 :
  required_passes xl [] = Done st4 -> exists st, process_all xl = Done st.
Proof.
  intros H. destruct (process_sheets_after_required xl st4 H) as (st0 & E).
  destruct (process_all_returns xl st0 E) as (st & R & _). eauto.
Qed.

(** C3, as the code has it: the allowance and clawback passes always
    return, and every record that existed before is still there with its
    profile, its lists and its summary as they were; once the four required
    sheets are processed, [process_all] returns whatever the optional sheets
    hold.  A sheet that cannot be read changes nothing.  When a row of a
    sheet raises, the exception ends that sheet's loop only: what the rows
    before it wrote stays, the failing row leaves at most the empty record
    it created, and the rows after it are not processed. *)
Theorem optional_sheet_failure_is_contained :
  (forall xl st,
     exists st1 st2,
       process_additional_allowances xl st = Done st1
       /\ kept same_but_allowances st st1
       /\ process_clawback_records xl st1 = Done st2
       /\ kept same_but_clawbacks st1 st2)
  /\ (forall xl st4,
        required_passes xl [] = Done st4 -> exists st, process_all xl = Done st)
  /\ (forall o, In o (allowance_sheets ++ clawback_sheets) ->
        (forall xl st,
           xl (os_name o) (os_header o) = None -> run_optional xl o st = Done st)
        /\ (forall xl pre row post st st1 x st2,
              iterrows (safe_read_sheet xl (os_name o) (os_header o))
              = pre ++ row :: post ->
              sheet_loop (safe_read_sheet xl (os_name o) (os_header o))
                (os_key o) (os_body o) pre st = Done st1 ->
              keyed (safe_read_sheet xl (os_name o) (os_header o))
                (os_key o) row (os_body o row) st1 = Raise x st2 ->
              run_optional xl o st = Done st2
              /\ (st2 = st1
                  \/ st2 = ensure (scalar_str (row_get row (os_key o))) st1))).
Proof.
  split; [|split].
  - apply optional_passes_return.
  - intros xl st4. apply aggregation_completes.
  - intros o Hin. split.
    + intros xl st Hmiss. unfold run_optional, optional_sheet, try_except,
        safe_read_sheet. now rewrite Hmiss.
    + intros xl pre row post st st1 x st2 Hrows Hpre Hrow.
      split; [|now apply (keyed_raise o _ _ _ _ _ Hin Hrow)].
      unfold run_optional, optional_sheet, try_except. simpl. rewrite Hrows.
      rewrite for_rows_app. unfold andthen at 1.
      unfold sheet_loop in Hpre. rewrite Hpre. simpl. unfold andthen.
      now rewrite Hrow.
Qed.

End OptionalSheets.

Lemma optional_sheet_failure_is_contained_witness :
  (exists st, process_all malformed_book = Done st)
  /\ run_optional malformed_book branch_policy_source malformed_before
     = Done (ensure "888"
               (state_of (sheet_loop malformed_allowance_sheet "FC 사번"
                            (allowance_row "시책2_지사시책" branch_policy_of)
                            [nth 0 malformed_rows []] malformed_before))).
Proof.
  split.
  { refine (proj1 (proj2 (@optional_sheet_failure_is_contained Z integral_floats))
              malformed_book malformed_before _).
    vm_compute; reflexivity. }
  pose proof (proj2 (proj2 (@optional_sheet_failure_is_contained Z integral_floats))
                branch_policy_source (or_introl eq_refl)) as [_ Partial].
  refine (proj1 (Partial malformed_book [nth 0 malformed_rows []]
                   (nth 1 malformed_rows []) [nth 2 malformed_rows []]
                   malformed_before
                   (state_of (sheet_loop malformed_allowance_sheet "FC 사번"
                                (allowance_row "시책2_지사시책" branch_policy_of)
                                [nth 0 malformed_rows []] malformed_before))
                   (ValueError "could not convert string to float")
                   _ _ _ _)).
  - vm_compute; reflexivity.
  - vm_compute; reflexivity.
  - vm_compute; reflexivity.
Defined.

(** C3 as stated fails: the second row of the allowance sheet raises, and
    the category is nevertheless present on the employee of the first row;
    the valid third row is lost, and the failing row has left an empty record. *)
Lemma failed_allowance_sheet_is_partly_applied :
  (exists st',
     sheet_loop malformed_allowance_sheet "FC 사번"
       (allowance_row "시책2_지사시책" branch_policy_of)
       malformed_rows malformed_before
     = Raise (ValueError "could not convert string to float") st')
  /\ exists st,
       process_all malformed_book = Done st
       /\ allowance_of "시책2_지사시책" "12345" st
          = Some (VDict [("금액", VScalar (SFloat 500%Z)); ("비고", vnone)])
       /\ allowance_of "시책2_지사시책" "777" st = None
       /\ dmem "888" st = true.
Proof.
  split.
  - eexists. vm_compute. reflexivity.
  - eexists. split; [vm_compute; reflexivity|].
    repeat split; vm_compute; reflexivity.
Qed.

(* ================================================================== *)
(** * Further properties of the script *)

(** ** Which pass writes which field *)

Section PassFrames.

Context {F : Type} {PF : PyFloat F}.
Variable P : Employees F -> Prop.

(** Each pass keeps what its own writes keep. *)
Lemma frame_individual_statements xl :
  (forall s st, P st -> dmem s st = false -> P (dset s new_employee st)) ->
  (forall row s st,
     P st ->
     P (dmodify s (fun e => with_profile (profile_of row) (with_sabon s e)) st)) ->
  (forall row fin s st,
     financials_of row = Ok fin -> P st -> P (dmodify s (with_summary fin) st)) ->
  keeps P (process_individual_statements xl).
Proof.
  intros Hc Hp Hs. apply keeps_for_rows. intros row st H.
  unfold individual_statement_row.
  destruct (row_item row "사번") as [c|x]; [|exact H].
  apply keeps_update_with.
  - intros fin st1 E H1. now apply (Hs row).
  - apply Hp. destruct (dmem (scalar_str c) st) eqn:M; [exact H|]. now apply Hc.
Qed.

Lemma frame_commission_contracts xl :
  (forall s st, P st -> P (ensure s st)) ->
  (forall row c s st,
     contract_of row = Ok c -> P st -> P (dmodify s (append_commission c) st)) ->
  keeps P (process_commission_contracts xl).
Proof.
  intros He Hc. apply keeps_for_rows. intros row st H.
  unfold commission_contract_row.
  destruct (row_item row "지급사원번호") as [c|x]; [|exact H].
  apply keeps_update_with.
  - intros a st1 E H1. now apply (Hc row).
  - now apply He.
Qed.

Lemma frame_override_records xl :
  (forall s st, P st -> P (ensure s st)) ->
  (forall row o s st,
     override_of row = Ok o -> P st -> P (dmodify s (append_override o) st)) ->
  (forall row o r s st,
     override_of row = Ok o -> P st ->
     P (dmodify s (append_override (fc_override_of o r row)) st)) ->
  keeps P (process_override_records xl).
Proof.
  intros He Ho Hf. apply keeps_for_rows. intros row st H.
  unfold override_record_row.
  destruct (row_item row "[오버라이드] 대상자사번") as [rc|x]; [|exact H].
  pose proof (He (scalar_str rc) st H) as H1.
  destruct (override_of row) as [o|x] eqn:O; [|exact H1].
  pose proof (Ho row o (scalar_str rc) _ O H1) as H2.
  destruct (row_item row "[FC] 대상자사번") as [fc|x]; [|exact H2].
  simpl. apply (Hf row); auto.
Qed.

Lemma frame_policy_contracts xl :
  (forall s st, P st -> P (ensure s st)) ->
  (forall row p s st,
     policy_of row = Ok p -> P st -> P (dmodify s (append_policy p) st)) ->
  keeps P (process_policy_contracts xl).
Proof.
  intros He Hp. apply keeps_for_rows. intros row st H.
  unfold policy_contract_row.
  destruct (row_item row "사번") as [c|x]; [|exact H].
  apply keeps_update_with.
  - intros a st1 E H1. now apply (Hp row).
  - now apply He.
Qed.

Lemma frame_performance_records xl :
  (forall s st, P st -> P (ensure s st)) ->
  (forall field row s st,
     P st -> P (dmodify s (append_performance (performance_of field row)) st)) ->
  keeps P (process_performance_records xl).
Proof.
  intros He Hp. apply keeps_try_except, keeps_for_rows. intros row.
  apply keeps_for_fields. intros field st H. unfold performance_field.
  destruct (dmem field row && notna (row_get row field)); [|exact H].
  destruct (row_item row field) as [c|x]; [|exact H].
  simpl. apply Hp. now apply He.
Qed.

End PassFrames.

Section FieldFrames.

Context {F : Type} {PF : PyFloat F}.
Implicit Types (e : EmployeeDataStructure F) (st : Employees F) (s : string).

Lemma andthen_done (p q : Proc F) st st' :
  andthen p q st = Done st' -> exists st1, p st = Done st1 /\ q st1 = Done st'.
Proof.
  unfold andthen. destruct (p st) as [st1|x st1]; [|discriminate]. eauto.
Qed.

Lemma keeps_done (Q : Employees F -> Prop) (p : Proc F) st st' :
  keeps Q p -> Q st -> p st = Done st' -> Q st'.
Proof. intros K H E. specialize (K st H). now rewrite E in K. Qed.

Section OneField.

Context {A : Type} (proj : EmployeeDataStructure F -> A).

Lemma field_of_other s s' (f : EmployeeDataStructure F -> EmployeeDataStructure F) st :
  s <> s' -> field_of proj s (dmodify s' f st) = field_of proj s st.
Proof. intros N. unfold field_of. now rewrite dget_dmodify_other. Qed.

Lemma field_of_written s (f : EmployeeDataStructure F -> EmployeeDataStructure F)
  (g : A -> A) st :
  (forall e, proj (f e) = g (proj e)) -> dmem s st = true ->
  field_of proj s (dmodify s f st) = g (field_of proj s st).
Proof.
  intros Hf M. apply dmem_true in M. destruct M as [e G]. unfold field_of.
  now rewrite (dget_dmodify_same _ _ _ _ G), G.
Qed.

Lemma field_of_untouched s s' (f : EmployeeDataStructure F -> EmployeeDataStructure F) st :
  (forall e, proj (f e) = proj e) ->
  field_of proj s (dmodify s' f st) = field_of proj s st.
Proof.
  intros Hf. destruct (String.eqb_spec s s') as [->|N];
    [|now apply field_of_other].
  unfold field_of. destruct (dget s' st) as [e|] eqn:G.
  - now rewrite (dget_dmodify_same _ _ _ _ G).
  - now rewrite (dmodify_absent _ _ _ G), G.
Qed.

Lemma field_of_create s s' st :
  dmem s' st = false ->
  field_of proj s (dset s' new_employee st) = field_of proj s st.
Proof.
  intros M. apply dmem_false in M. unfold field_of.
  destruct (String.eqb_spec s s') as [->|N].
  - now rewrite dget_dset_same, M.
  - now rewrite dget_dset_other.
Qed.

Hypothesis ignores_sabon : forall s e, proj (with_sabon s e) = proj e.

Lemma field_of_ensure s s' st : field_of proj s (ensure s' st) = field_of proj s st.
Proof.
  unfold field_of. destruct (String.eqb_spec s s') as [->|N].
  - destruct (dget s' st) as [e|] eqn:G.
    + now rewrite (dget_ensure_present _ _ _ _ G).
    + rewrite (dget_ensure_new _ _ G). apply ignores_sabon.
  - now rewrite dget_ensure_other.
Qed.

Variables (s : string) (a : A).

#[local] Abbreviation holds := (fun st : Employees F => field_of proj s st = a).

(** The field survives a pass none of whose writes touches it. *)
Lemma spared_by_individual_statements xl :
  (forall row s' e, proj (with_profile (profile_of row) (with_sabon s' e)) = proj e) ->
  (forall fin e, proj (with_summary fin e) = proj e) ->
  keeps holds (process_individual_statements xl).
Proof.
  intros Hp Hs. apply frame_individual_statements.
  - intros s' st H M. now rewrite field_of_create.
  - intros row s' st H. rewrite field_of_untouched; auto.
  - intros row fin s' st _ H. rewrite field_of_untouched; auto.
Qed.

Lemma spared_by_commission_contracts xl :
  (forall c e, proj (append_commission c e) = proj e) ->
  keeps holds (process_commission_contracts xl).
Proof.
  intros Hc. apply frame_commission_contracts.
  - intros s' st H. now rewrite field_of_ensure.
  - intros row c s' st _ H. rewrite field_of_untouched; auto.
Qed.

Lemma spared_by_override_records xl :
  (forall o e, proj (append_override o e) = proj e) ->
  keeps holds (process_override_records xl).
Proof.
  intros Ho. apply frame_override_records.
  - intros s' st H. now rewrite field_of_ensure.
  - intros row o s' st _ H. rewrite field_of_untouched; auto.
  - intros row o r s' st _ H. rewrite field_of_untouched; auto.
Qed.

Lemma spared_by_policy_contracts xl :
  (forall p e, proj (append_policy p e) = proj e) ->
  keeps holds (process_policy_contracts xl).
Proof.
  intros Hp. apply frame_policy_contracts.
  - intros s' st H. now rewrite field_of_ensure.
  - intros row p s' st _ H. rewrite field_of_untouched; auto.
Qed.

Lemma spared_by_performance_records xl :
  (forall p e, proj (append_performance p e) = proj e) ->
  keeps holds (process_performance_records xl).
Proof.
  intros Hp. apply frame_performance_records.
  - intros s' st H. now rewrite field_of_ensure.
  - intros field row s' st H. rewrite field_of_untouched; auto.
Qed.

Lemma spared_by_additional_allowances xl :
  (forall al e, proj (with_allowances al e) = proj e) ->
  keeps holds (process_additional_allowances xl).
Proof.
  intros Ha. apply keeps_additional_allowances.
  - intros s' st H. now rewrite field_of_ensure.
  - intros category build row v s' st _ _ H.
    rewrite field_of_untouched; auto. intros e. apply Ha.
  - intros row r s' e e' st _ G R H.
    destruct (String.eqb_spec s s') as [->|N]; [|now rewrite field_of_other].
    unfold field_of in *. rewrite (dget_dmodify_same _ _ _ _ G). rewrite G in H.
    rewrite <- H. unfold append_retention in R.
    destruct (dget "13회차유지" _) as [[c|d|l]|]; try discriminate.
    injection R as <-. apply Ha.
Qed.

Lemma spared_by_clawback_records xl :
  (forall c e, proj (append_clawback c e) = proj e) ->
  keeps holds (process_clawback_records xl).
Proof.
  intros Hc. apply keeps_clawback_records.
  - intros s' st H. now rewrite field_of_ensure.
  - intros build row c s' st _ _ H. rewrite field_of_untouched; auto.
Qed.

Lemma spared_by_derivation st st' :
  (forall fin e, proj (with_summary fin e) = proj e) ->
  calculate_aggregated_financials st = Done st' ->
  field_of proj s st' = field_of proj s st.
Proof.
  intros Hs H. apply calculate_items_spec in H. unfold field_of.
  induction H as [|[s0 e0] [s1 e1] l l' [K D] _ IH]; [reflexivity|].
  simpl in K, D. subst s1. simpl. destruct (s =? s0); [|exact IH].
  unfold derive in D.
  destruct (total_commission e0); [|discriminate].
  destruct (total_override e0); [|discriminate].
  destruct (total_policy e0); [|discriminate].
  destruct (total_clawback e0); [|discriminate].
  simpl in D. injection D as <-. apply Hs.
Qed.

End OneField.

End FieldFrames.

(* ------------------------------------------------------------------ *)
(** ** Counting the entries of the whole mapping *)

Section CountFacts.

Context {F : Type} {PF : PyFloat F}.
Implicit Types (e : EmployeeDataStructure F) (st : Employees F) (s : string).

Variable list_of : EmployeeDataStructure F -> list (Entry F).

Lemma count_app st st' :
  count_records list_of (st ++ st')
  = count_records list_of st + count_records list_of st'.
Proof. unfold count_records, values. now rewrite !map_app, list_sum_app. Qed.

Lemma count_untouched s (f : EmployeeDataStructure F -> EmployeeDataStructure F) st :
  (forall e, list_of (f e) = list_of e) ->
  count_records list_of (dmodify s f st) = count_records list_of st.
Proof.
  intros Hf. unfold count_records, values.
  induction st as [|[k e] st IH]; simpl; [reflexivity|].
  destruct (s =? k); simpl.
  - now rewrite Hf.
  - unfold count_records, values in IH. now rewrite IH.
Qed.

Lemma count_appended s (f : EmployeeDataStructure F -> EmployeeDataStructure F)
  (c : Entry F) st :
  (forall e, list_of (f e) = list_of e ++ [c]) -> dmem s st = true ->
  count_records list_of (dmodify s f st) = S (count_records list_of st).
Proof.
  intros Hf. unfold dmem, count_records, values.
  induction st as [|[k e] st IH]; simpl; [discriminate|].
  destruct (s =? k); simpl.
  - intros _. rewrite Hf, length_app. simpl. lia.
  - intros M. unfold count_records, values in IH. rewrite (IH M). lia.
Qed.

Lemma count_replaced s e0 e1 st :
  dget s st = Some e0 -> list_of e1 = list_of e0 ->
  count_records list_of (dmodify s (fun _ => e1) st) = count_records list_of st.
Proof.
  intros G E. unfold count_records, values. revert G.
  induction st as [|[k e] st IH]; simpl; [discriminate|].
  destruct (s =? k); simpl.
  - intros [= ->]. now rewrite E.
  - intros G. unfold count_records, values in IH. now rewrite (IH G).
Qed.

Lemma count_create s st :
  dmem s st = false ->
  count_records list_of (dset s new_employee st)
  = count_records list_of st + length (list_of new_employee).
Proof.
  intros M. apply dmem_false in M. rewrite (dset_absent _ _ _ M), count_app.
  unfold count_records at 2. simpl. lia.
Qed.

Hypothesis list_of_sabon : forall s e, list_of (with_sabon s e) = list_of e.
Hypothesis list_of_new : list_of new_employee = [].

Lemma count_ensure s st : count_records list_of (ensure s st) = count_records list_of st.
Proof.
  destruct (dmem s st) eqn:M.
  - now rewrite ensure_present.
  - rewrite ensure_absent by exact M. rewrite count_app.
    unfold count_records at 2. simpl. rewrite list_of_sabon, list_of_new. simpl. lia.
Qed.

Lemma count_derivation st st' :
  (forall fin e, list_of (with_summary fin e) = list_of e) ->
  calculate_aggregated_financials st = Done st' ->
  count_records list_of st' = count_records list_of st.
Proof.
  intros Hs H. apply calculate_items_spec in H. unfold count_records, values.
  induction H as [|[s0 e0] [s1 e1] l l' [K D] _ IH]; [reflexivity|].
  simpl in K, D. simpl. rewrite IH. f_equal.
  unfold derive in D.
  destruct (total_commission e0); [|discriminate].
  destruct (total_override e0); [|discriminate].
  destruct (total_policy e0); [|discriminate].
  destruct (total_clawback e0); [|discriminate].
  simpl in D. injection D as <-. now rewrite Hs.
Qed.

End CountFacts.

(* ------------------------------------------------------------------ *)
(** ** What the passes file, sheet by sheet *)

(** Carry a statement about one field of one record over a pass that does
    not write that field. *)
Ltac spare proj K H :=
  lazymatch type of H with
  | process_individual_statements _ _ = Done _ =>
      apply (keeps_done _ _ _ _
               (spared_by_individual_statements proj _ _ _
                  (fun _ _ _ => eq_refl) (fun _ _ => eq_refl)) K) in H
  | process_commission_contracts _ _ = Done _ =>
      apply (keeps_done _ _ _ _
               (spared_by_commission_contracts proj (fun _ _ => eq_refl) _ _ _
                  (fun _ _ => eq_refl)) K) in H
  | process_override_records _ _ = Done _ =>
      apply (keeps_done _ _ _ _
               (spared_by_override_records proj (fun _ _ => eq_refl) _ _ _
                  (fun _ _ => eq_refl)) K) in H
  | process_policy_contracts _ _ = Done _ =>
      apply (keeps_done _ _ _ _
               (spared_by_policy_contracts proj (fun _ _ => eq_refl) _ _ _
                  (fun _ _ => eq_refl)) K) in H
  | process_performance_records _ _ = Done _ =>
      apply (keeps_done _ _ _ _
               (spared_by_performance_records proj (fun _ _ => eq_refl) _ _ _
                  (fun _ _ => eq_refl)) K) in H
  | process_additional_allowances _ _ = Done _ =>
      apply (keeps_done _ _ _ _
               (spared_by_additional_allowances proj (fun _ _ => eq_refl) _ _ _
                  (fun _ _ => eq_refl)) K) in H
  | process_clawback_records _ _ = Done _ =>
      apply (keeps_done _ _ _ _
               (spared_by_clawback_records proj (fun _ _ => eq_refl) _ _ _
                  (fun _ _ => eq_refl)) K) in H
  | calculate_aggregated_financials _ = Done _ =>
      lazymatch type of K with
      | field_of _ ?s _ = _ =>
          apply (spared_by_derivation proj s _ _ (fun _ _ => eq_refl)) in H;
          rewrite K in H
      end
  end.

Section PassContents.

Context {F : Type} {PF : PyFloat F}.
Implicit Types (e : EmployeeDataStructure F) (st : Employees F) (row : Row F).

Lemma key_of_item row key c : row_item row key = Ok c -> key_of key row = scalar_str c.
Proof. intros H. unfold key_of. now rewrite (row_item_get _ _ _ H). Qed.

(** The stages of a run of [process_all] that returns. *)
Lemma process_all_stages (xl : Workbook F) st :
  process_all xl = Done st ->
  exists s1 s2 s3 s4 s5 s6 s7,
    process_individual_statements xl [] = Done s1
    /\ process_commission_contracts xl s1 = Done s2
    /\ process_override_records xl s2 = Done s3
    /\ process_policy_contracts xl s3 = Done s4
    /\ process_performance_records xl s4 = Done s5
    /\ process_additional_allowances xl s5 = Done s6
    /\ process_clawback_records xl s6 = Done s7
    /\ calculate_aggregated_financials s7 = Done st.
Proof.
  unfold process_all, process_sheets. intros H.
  apply andthen_done in H. destruct H as (s7 & H & Hc).
  apply andthen_done in H. destruct H as (s1 & H1 & H).
  apply andthen_done in H. destruct H as (s2 & H2 & H).
  apply andthen_done in H. destruct H as (s3 & H3 & H).
  apply andthen_done in H. destruct H as (s4 & H4 & H).
  apply andthen_done in H. destruct H as (s5 & H5 & H).
  apply andthen_done in H. destruct H as (s6 & H6 & H7).
  exists s1, s2, s3, s4, s5, s6, s7. repeat split; assumption.
Qed.

(** *** Lists that get one entry per row *)

Section AppendLoop.

Variables (key : string) (build : Row F -> Result (Entry F)).
Variable list_of : EmployeeDataStructure F -> list (Entry F).
Variable append : Entry F -> EmployeeDataStructure F -> EmployeeDataStructure F.
Hypothesis list_of_sabon : forall s e, list_of (with_sabon s e) = list_of e.
Hypothesis list_of_append : forall c e, list_of (append c e) = list_of e ++ [c].

#[local] Abbreviation body := (append_row key build append).

Lemma append_row_files row st st' s :
  body row st = Done st' ->
  field_of list_of s st' = field_of list_of s st ++ entries_for key build s [row]
  /\ (exists c, row_item row key = Ok c) /\ exists x, build row = Ok x.
Proof.
  unfold append_row, update_with, entries_for. simpl.
  destruct (row_item row key) as [c|x] eqn:I; [|discriminate].
  rewrite (key_of_item _ _ _ I).
  destruct (build row) as [b|x]; [|discriminate]. intros [= <-].
  split; [|eauto]. rewrite app_nil_r.
  destruct (String.eqb_spec (scalar_str c) s) as [->|N].
  - rewrite (field_of_written list_of _ _ (fun l => l ++ [b]));
      [|apply list_of_append|apply dmem_ensure].
    now rewrite field_of_ensure.
  - rewrite field_of_other by congruence.
    rewrite field_of_ensure by exact list_of_sabon. now rewrite app_nil_r.
Qed.

Lemma append_rows_file rows : forall st st' s,
  for_rows body rows st = Done st' ->
  field_of list_of s st' = field_of list_of s st ++ entries_for key build s rows
  /\ all_rows_file key build rows.
Proof.
  induction rows as [|row rows IH]; simpl; intros st st' s.
  - intros [= <-]. split; [now rewrite app_nil_r|constructor].
  - intros H. apply andthen_done in H. destruct H as (st1 & H1 & H2).
    destruct (append_row_files _ _ _ s H1) as (E1 & R1).
    destruct (IH _ _ s H2) as (E2 & R2).
    split; [|constructor; assumption].
    rewrite E2, E1. unfold entries_for. simpl. rewrite app_nil_r.
    now rewrite <- app_assoc.
Qed.

End AppendLoop.

Lemma commission_rows_file rows st st' s :
  for_rows commission_contract_row rows st = Done st' ->
  commissions_of s st'
  = commissions_of s st ++ entries_for "지급사원번호" contract_of s rows
  /\ all_rows_file "지급사원번호" contract_of rows.
Proof.
  apply (append_rows_file "지급사원번호" contract_of commission_contracts
           append_commission); reflexivity.
Qed.

Lemma policy_rows_file rows st st' s :
  for_rows policy_contract_row rows st = Done st' ->
  policies_of s st' = policies_of s st ++ entries_for "사번" policy_of s rows
  /\ all_rows_file "사번" policy_of rows.
Proof.
  apply (append_rows_file "사번" policy_of policy_contracts append_policy);
    reflexivity.
Qed.

(** X1: when [process_all] returns, every row of the commission sheet has
    named an employee and evaluated to an entry, and the commission list of
    every employee holds exactly the entries of the rows that name this
    employee, in the order of the sheet; an employee no row names has none. *)
Theorem commission_entries_follow_the_sheet (xl : Workbook F) st :
  process_all xl = Done st ->
  all_rows_file "지급사원번호" contract_of (commission_rows xl)
  /\ forall s,
       commissions_of s st
       = entries_for "지급사원번호" contract_of s (commission_rows xl).
Proof.
  intros H.
  destruct (process_all_stages xl st H)
    as (s1 & s2 & s3 & s4 & s5 & s6 & s7 & H1 & H2 & H3 & H4 & H5 & H6 & H7 & H8).
  split; [apply (commission_rows_file _ _ _ "" H2)|]. intros s.
  assert (K : field_of commission_contracts s ([] : Employees F) = []) by reflexivity.
  spare (@commission_contracts F) K H1.
  destruct (commission_rows_file _ _ _ s H2) as (E & _).
  change (field_of commission_contracts s s2
          = field_of commission_contracts s s1
              ++ entries_for "지급사원번호" contract_of s (commission_rows xl)) in E.
  rewrite H1 in E. simpl in E.
  spare (@commission_contracts F) E H3.
  spare (@commission_contracts F) H3 H4.
  spare (@commission_contracts F) H4 H5.
  spare (@commission_contracts F) H5 H6.
  spare (@commission_contracts F) H6 H7.
  spare (@commission_contracts F) H7 H8.
  exact H8.
Qed.

(** X2: when [process_all] returns, the policy list of every employee holds
    exactly the entries of the rows of the policy sheet that name this
    employee, in the order of the sheet, one entry per row. *)
Theorem policy_entries_follow_the_sheet (xl : Workbook F) st :
  process_all xl = Done st ->
  all_rows_file "사번" policy_of (policy_rows xl)
  /\ forall s, policies_of s st = entries_for "사번" policy_of s (policy_rows xl).
Proof.
  intros H.
  destruct (process_all_stages xl st H)
    as (s1 & s2 & s3 & s4 & s5 & s6 & s7 & H1 & H2 & H3 & H4 & H5 & H6 & H7 & H8).
  split; [apply (policy_rows_file _ _ _ "" H4)|]. intros s.
  assert (K : field_of policy_contracts s ([] : Employees F) = []) by reflexivity.
  spare (@policy_contracts F) K H1.
  spare (@policy_contracts F) H1 H2.
  spare (@policy_contracts F) H2 H3.
  destruct (policy_rows_file _ _ _ s H4) as (E & _).
  unfold policies_of in E. rewrite H3 in E. simpl in E.
  spare (@policy_contracts F) E H5.
  spare (@policy_contracts F) H5 H6.
  spare (@policy_contracts F) H6 H7.
  spare (@policy_contracts F) H7 H8.
  exact H8.
Qed.

End PassContents.

(* ------------------------------------------------------------------ *)
(** ** The roster and the profile *)

Section RosterFacts.

Context {F : Type} {PF : PyFloat F}.
Implicit Types (e : EmployeeDataStructure F) (st : Employees F) (row : Row F).

Lemma roster_row_files row st st' :
  individual_statement_row row st = Done st' ->
  exists fin,
    financials_of row = Ok fin
    /\ forall s,
         dget s st'
         = if key_of "사번" row =? s
           then Some (refreshed row fin s (record_of s st))
           else dget s st.
Proof.
  unfold individual_statement_row, update_with.
  destruct (row_item row "사번") as [c|x] eqn:I; [|discriminate].
  rewrite (key_of_item _ _ _ I).
  destruct (financials_of row) as [fin|x]; [|discriminate].
  intros [= <-]. exists fin. split; [reflexivity|]. intros s.
  set (k := scalar_str c).
  destruct (String.eqb_spec k s) as [<-|N].
  - assert (G : dget k (if dmem k st then st else dset k new_employee st)
                = Some (record_of k st)).
    { unfold record_of, field_of, dmem. destruct (dget k st) as [e0|] eqn:E.
      - exact E.
      - apply dget_dset_same. }
    now rewrite (dget_dmodify_same _ _ _ _ (dget_dmodify_same _ _ _ _ G)).
  - rewrite !dget_dmodify_other by congruence.
    destruct (dmem k st); [reflexivity|]. apply dget_dset_other. congruence.
Qed.

Lemma roster_rows_file rows : forall st st' s,
  for_rows individual_statement_row rows st = Done st' ->
  match last_keyed "사번" s rows with
  | Some row =>
      exists fin,
        financials_of row = Ok fin
        /\ dget s st' = Some (refreshed row fin s (record_of s st))
  | None => dget s st' = dget s st
  end.
Proof.
  induction rows as [|row rows IH]; simpl; intros st st' s.
  - now intros [= <-].
  - intros H. apply andthen_done in H. destruct H as (st1 & H1 & H2).
    destruct (roster_row_files _ _ _ H1) as (fin1 & F1 & G1).
    specialize (IH _ _ s H2). specialize (G1 s).
    destruct (last_keyed "사번" s rows) as [later|].
    + destruct IH as (fin & Ff & G). exists fin. split; [exact Ff|].
      rewrite G. f_equal. unfold record_of, field_of. rewrite G1.
      destruct (key_of "사번" row =? s); reflexivity.
    + rewrite IH, G1. destruct (key_of "사번" row =? s); eauto.
Qed.

(** X3: the roster pass files every employee under the last row of the
    sheet that names this employee: that row's profile and summary replace
    what the record held, the identifier is set, and the lists of the
    record stay as they were.  Records no row names are not touched. *)
Theorem roster_last_row_wins (xl : Workbook F) st st' :
  process_individual_statements xl st = Done st' ->
  forall s,
    match last_keyed "사번" s (roster_rows xl) with
    | Some row =>
        exists fin,
          financials_of row = Ok fin
          /\ dget s st' = Some (refreshed row fin s (record_of s st))
    | None => dget s st' = dget s st
    end.
Proof. intros H s. now apply roster_rows_file. Qed.

(** *** Every record carries its key *)

Lemma own_key_ensure s st : filed_under_own_key st -> filed_under_own_key (ensure s st).
Proof.
  intros H k e G. destruct (String.eqb_spec k s) as [->|N].
  - destruct (dget s st) as [e0|] eqn:E.
    + rewrite (dget_ensure_present _ _ _ _ E) in G. injection G as <-. now apply H.
    + rewrite (dget_ensure_new _ _ E) in G. now injection G as <-.
  - rewrite dget_ensure_other in G by exact N. now apply H.
Qed.

Lemma own_key_dmodify s (f : EmployeeDataStructure F -> EmployeeDataStructure F) st :
  (forall e, dget s st = Some e -> sabon (f e) = sabon e) ->
  filed_under_own_key st -> filed_under_own_key (dmodify s f st).
Proof.
  intros Hf H k e G. destruct (String.eqb_spec k s) as [->|N].
  - destruct (dget s st) as [e0|] eqn:E.
    + rewrite (dget_dmodify_same _ _ _ _ E) in G. injection G as <-.
      rewrite (Hf e0 eq_refl). now apply H.
    + rewrite (dmodify_absent _ _ _ E) in G. congruence.
  - rewrite dget_dmodify_other in G by exact N. now apply H.
Qed.

Lemma own_key_after_roster (xl : Workbook F) st :
  process_individual_statements xl [] = Done st -> filed_under_own_key st.
Proof.
  intros H s e G. pose proof (roster_rows_file _ _ _ s H) as R.
  destruct (last_keyed "사번" s _) as [row|].
  - destruct R as (fin & _ & R). rewrite R in G. now injection G as <-.
  - rewrite R in G. discriminate.
Qed.

Lemma own_key_after_run (xl : Workbook F) st :
  process_all xl = Done st -> filed_under_own_key st.
Proof.
  intros H.
  destruct (process_all_stages xl st H)
    as (s1 & s2 & s3 & s4 & s5 & s6 & s7 & H1 & H2 & H3 & H4 & H5 & H6 & H7 & H8).
  apply own_key_after_roster in H1.
  assert (Hm : forall s (f : EmployeeDataStructure F -> EmployeeDataStructure F) st0,
             (forall e, sabon (f e) = sabon e) ->
             filed_under_own_key st0 -> filed_under_own_key (dmodify s f st0)).
  { intros s f st0 Hf. apply own_key_dmodify. intros e _. apply Hf. }
  assert (H2' : filed_under_own_key s2).
  { refine (keeps_done _ _ _ _ (frame_commission_contracts _ xl own_key_ensure _)
              H1 H2).
    intros row c s st0 _. now apply Hm. }
  assert (H3' : filed_under_own_key s3).
  { refine (keeps_done _ _ _ _ (frame_override_records _ xl own_key_ensure _ _)
              H2' H3).
    - intros row o s st0 _. now apply Hm.
    - intros row o r s st0 _. now apply Hm. }
  assert (H4' : filed_under_own_key s4).
  { refine (keeps_done _ _ _ _ (frame_policy_contracts _ xl own_key_ensure _)
              H3' H4).
    intros row p s st0 _. now apply Hm. }
  assert (H5' : filed_under_own_key s5).
  { refine (keeps_done _ _ _ _ (frame_performance_records _ xl own_key_ensure _)
              H4' H5).
    intros field row s st0. now apply Hm. }
  assert (H6' : filed_under_own_key s6).
  { refine (keeps_done _ _ _ _ (keeps_additional_allowances _ xl own_key_ensure _ _)
              H5' H6).
    - intros category build row v s st0 _ _. now apply Hm.
    - intros row r s e e' st0 _ G R. apply own_key_dmodify.
      intros e0 G0. rewrite G in G0. injection G0 as <-.
      unfold append_retention in R.
      destruct (dget "13회차유지" _) as [[c|d|l]|]; try discriminate.
      now injection R as <-. }
  assert (H7' : filed_under_own_key s7).
  { refine (keeps_done _ _ _ _ (keeps_clawback_records _ xl own_key_ensure _) H6' H7).
    intros build row c s st0 _ _. now apply Hm. }
  intros s e G.
  destruct (calculate_items_lookup _ _ _ _ H8 G) as (e0 & G0 & D).
  destruct (derive_sources _ _ D) as (S & _). rewrite S. now apply H7'.
Qed.

Lemma summary_after_derivation st st' s e :
  calculate_aggregated_financials st = Done st' -> dget s st' = Some e ->
  summary_financials e <> [].
Proof.
  intros H G. destruct (calculate_items_lookup _ _ _ _ H G) as (e0 & _ & D).
  destruct (derive_summary _ _ D) as (tc & _ & _ & _ & _ & _ & _ & _ & C & _).
  intros E. rewrite E in C. discriminate.
Qed.

(** X4: when [process_all] returns, every record carries the key it is
    filed under, and its profile is the one of the last roster row that
    names the employee.  An employee no roster row names has an empty
    profile: the text of the record then opens with the summary section,
    without the lines that identify the employee, and the metadata of the
    profile document carries the empty string as 사원명. *)
Theorem profile_comes_from_the_roster (xl : Workbook F) st s e :
  process_all xl = Done st -> dget s st = Some e ->
  sabon e = s
  /\ match last_keyed "사번" s (roster_rows xl) with
     | Some row => employee_profile e = profile_of row
     | None =>
         employee_profile e = []
         /\ (forall parts,
               text_parts e = Ok parts -> exists rest, parts = summary_header :: rest)
         /\ (forall doc,
               profile_document s e = Ok doc ->
               dget "사원명" (metadata doc) = Some (vstr ""))
     end.
Proof.
  intros H G. split; [now apply (own_key_after_run xl st H)|].
  destruct (process_all_stages xl st H)
    as (s1 & s2 & s3 & s4 & s5 & s6 & s7 & H1 & H2 & H3 & H4 & H5 & H6 & H7 & H8).
  pose proof (summary_after_derivation _ _ _ _ H8 G) as NE.
  pose proof (roster_rows_file _ _ _ s H1) as R.
  assert (K : field_of employee_profile s s1
              = match last_keyed "사번" s (roster_rows xl) with
                | Some row => profile_of row
                | None => []
                end).
  { unfold field_of, roster_rows.
    destruct (last_keyed "사번" s _) as [row|].
    - destruct R as (fin & _ & ->). reflexivity.
    - rewrite R. reflexivity. }
  clear R.
  spare (@employee_profile F) K H2.
  spare (@employee_profile F) H2 H3.
  spare (@employee_profile F) H3 H4.
  spare (@employee_profile F) H4 H5.
  spare (@employee_profile F) H5 H6.
  spare (@employee_profile F) H6 H7.
  spare (@employee_profile F) H7 H8.
  unfold field_of in H8. rewrite G in H8.
  destruct (last_keyed "사번" s (roster_rows xl)) as [row|]; [exact H8|].
  split; [exact H8|]. split.
  - intros parts T. unfold text_parts in T.
    unfold profile_lines in T. rewrite H8 in T.
    unfold summary_lines in T.
    destruct (summary_financials e) as [|kv fin] eqn:S; [congruence|].
    destruct (summary_line "최종지급액" _ _); cbn [bind] in T; [|discriminate].
    destruct (summary_line "총 커미션" _ _); cbn [bind] in T; [|discriminate].
    destruct (summary_line "총 오버라이드" _ _); cbn [bind] in T; [|discriminate].
    destruct (summary_line "총 시책금액" _ _); cbn [bind] in T; [|discriminate].
    destruct (summary_line "총 환수금액" _ _); cbn [bind] in T; [|discriminate].
    destruct (commission_lines e); cbn [bind] in T; [|discriminate].
    destruct (override_lines e); cbn [bind] in T; [|discriminate].
    destruct (policy_lines e); cbn [bind] in T; [|discriminate].
    destruct (allowance_lines e); cbn [bind] in T; [|discriminate].
    destruct (clawback_lines e); cbn [bind] in T; [|discriminate].
    injection T as <-. eexists. reflexivity.
  - intros doc D. unfold profile_document in D.
    destruct (to_text_for_embedding e); cbn [bind] in D; [|discriminate].
    injection D as <-. cbn [metadata]. rewrite H8. reflexivity.
Qed.

End RosterFacts.

(* ------------------------------------------------------------------ *)
(** ** Sheets that are missing, empty or without their identifier column *)

Section SheetEdges.

Context {F : Type} {PF : PyFloat F}.
Implicit Types (e : EmployeeDataStructure F) (st : Employees F) (row : Row F).

Lemma combine_missing_column k cols : forall cells : list (Scalar F),
  existsb (String.eqb k) cols = false -> dget k (combine cols cells) = None.
Proof.
  induction cols as [|c cols IH]; intros cells; simpl; [reflexivity|].
  destruct cells as [|x cells]; [reflexivity|]. simpl.
  destruct (k =? c); simpl; [discriminate|]. apply IH.
Qed.

Lemma rows_missing_column (xl : Workbook F) name header df k :
  xl name header = Some df -> in_columns k df = false ->
  Forall (fun row => dget k row = None) (iterrows (safe_read_sheet xl name header)).
Proof.
  intros E C. unfold safe_read_sheet. rewrite E. unfold iterrows, replace_nan.
  simpl. apply Forall_forall. intros row I. apply in_map_iff in I.
  destruct I as (cells & <- & _). now apply combine_missing_column.
Qed.

Lemma rows_of_unreadable (xl : Workbook F) name header :
  xl name header = None -> iterrows (safe_read_sheet xl name header) = [].
Proof. intros E. unfold safe_read_sheet. now rewrite E. Qed.

Lemma rows_of_empty (xl : Workbook F) name header df :
  xl name header = Some df -> data df = [] ->
  iterrows (safe_read_sheet xl name header) = [].
Proof.
  intros E D. unfold safe_read_sheet. rewrite E. unfold iterrows, replace_nan.
  simpl. now rewrite D.
Qed.

Lemma rows_of_nonempty (xl : Workbook F) name header df :
  xl name header = Some df -> data df <> [] ->
  iterrows (safe_read_sheet xl name header) <> [].
Proof.
  intros E D. unfold safe_read_sheet. rewrite E. unfold iterrows, replace_nan.
  simpl. destruct (data df); [congruence|discriminate].
Qed.

(** A loop whose body starts with [row[key]] stops at its first row when
    the rows have no such column. *)
Lemma unkeyed_loop_raises (body : Row F -> Proc F) key rows st :
  (forall row st0, dget key row = None -> body row st0 = Raise (KeyError key) st0) ->
  Forall (fun row => dget key row = None) rows -> rows <> [] ->
  for_rows body rows st = Raise (KeyError key) st.
Proof.
  intros Hb Hr N. destruct rows as [|row rows]; [congruence|].
  inversion Hr as [|? ? H0 _]; subst. simpl. unfold andthen.
  now rewrite (Hb row st H0).
Qed.

(** X5: a required sheet that cannot be read, or that holds no data row,
    is no error: its pass returns and leaves the mapping as it was.  A
    sheet with data rows but without its identifier column makes the pass
    raise the [KeyError] of that column at the first row, before anything
    is written.  A workbook none of whose sheets can be read makes
    [process_all] return the empty mapping. *)
Theorem required_sheet_missing_or_unkeyed :
  (forall name key pass, In (name, key, pass) (@required_sheets F PF) ->
     forall xl st,
       (xl name 0 = None -> pass xl st = Done st)
       /\ (forall df, xl name 0 = Some df -> data df = [] -> pass xl st = Done st)
       /\ (forall df,
             xl name 0 = Some df -> in_columns key df = false -> data df <> [] ->
             pass xl st = Raise (KeyError key) st))
  /\ (forall xl : Workbook F,
        (forall name header, xl name header = None) -> process_all xl = Done []).
Proof.
  split.
  - intros name key pass Hin xl st. simpl in Hin.
    destruct Hin as [E|[E|[E|[E|[]]]]]; injection E as <- <- <-.
    all: split; [|split].
    all: try (intros U;
              unfold process_individual_statements, process_commission_contracts,
                process_override_records, process_policy_contracts;
              now rewrite (rows_of_unreadable _ _ _ U)).
    all: try (intros df U D;
              unfold process_individual_statements, process_commission_contracts,
                process_override_records, process_policy_contracts;
              now rewrite (rows_of_empty _ _ _ _ U D)).
    all: intros df U C D; apply unkeyed_loop_raises;
      [ | now apply (rows_missing_column _ _ _ df) | now apply (rows_of_nonempty _ _ _ df) ].
    all: intros row st0 G;
      unfold individual_statement_row, commission_contract_row,
        override_record_row, policy_contract_row, row_item;
      now rewrite G.
  - intros xl U. unfold process_all, process_sheets, andthen,
      process_individual_statements, process_commission_contracts,
      process_override_records, process_policy_contracts,
      process_performance_records, process_additional_allowances,
      process_clawback_records, process_branch_policy, process_nonlife_ext,
      process_newcomer_ip, process_mgr, process_retention,
      process_clawback_policy, process_clawback_referral,
      process_clawback_training, optional_sheet, try_except, andthen.
    rewrite !(rows_of_unreadable _ _ _ (U _ _)). reflexivity.
Qed.

(** *** Rows with a blank identifier *)

Lemma dmem_ensure_present s s' st : dmem s st = true -> dmem s (ensure s' st) = true.
Proof.
  intros H. apply dmem_true in H. destruct H as [e H]. apply dmem_true.
  exists e. now apply dget_ensure_present.
Qed.

Lemma one_row_loop (body : Row F -> Proc F) row st st' :
  body row st = Done st' -> for_rows body [row] st = Done st'.
Proof. intros H. simpl. unfold andthen. now rewrite H. Qed.

(** The override lists after one row of the override sheet. *)
Lemma override_row_lists row st st' c :
  row_item row "[오버라이드] 대상자사번" = Ok c ->
  override_record_row row st = Done st' ->
  exists o fc,
    override_of row = Ok o
    /\ row_item row "[FC] 대상자사번" = Ok fc
    /\ forall s,
         overrides_of s st'
         = overrides_of s st
             ++ (if scalar_str c =? s then [o] else [])
             ++ (if scalar_str fc =? s
                 then [fc_override_of o (scalar_str c) row] else []).
Proof.
  intros I. unfold override_record_row. rewrite I. cbv zeta.
  destruct (override_of row) as [o|x]; [|discriminate].
  destruct (row_item row "[FC] 대상자사번") as [fc|x]; [|discriminate].
  intros [= <-]. exists o, fc. split; [reflexivity|]. split; [reflexivity|].
  intros s. change (overrides_of s) with (field_of (F := F) override_records s).
  set (r := scalar_str c). set (k := scalar_str fc).
  assert (E2 : field_of override_records s
                 (dmodify r (append_override o) (ensure r st))
               = field_of override_records s st
                   ++ (if r =? s then [o] else [])).
  { destruct (String.eqb_spec r s) as [<-|N].
    - rewrite (field_of_written override_records _ _ (fun l => l ++ [o]));
        [|reflexivity|apply dmem_ensure].
      now rewrite field_of_ensure.
    - rewrite field_of_other by congruence.
      rewrite field_of_ensure by reflexivity. now rewrite app_nil_r. }
  destruct (String.eqb_spec k s) as [<-|N].
  - rewrite (field_of_written override_records _ _
               (fun l => l ++ [fc_override_of o r row]));
      [|reflexivity|apply dmem_ensure].
    rewrite field_of_ensure by reflexivity. rewrite E2. now rewrite app_assoc.
  - rewrite field_of_other by congruence.
    rewrite field_of_ensure by reflexivity. rewrite E2. now rewrite !app_nil_r.
Qed.

(** X6: the required sheets do not skip a row whose identifier cell is
    blank: the cell reads [None], its [str] is the text "None", and the row
    is filed under the key "None" as under any other key.  A roster row
    replaces the profile and the summary of the record "None"; a commission
    or policy row appends its entry to that record and to no other; an
    override row appends its entry to that record and the copy, which
    names "None" as the receiver, to the record of the FC.  The optional
    sheets and the performance sheet skip such a row. *)
Theorem blank_identifier_is_filed_under_None :
  (forall row st st',
     row_item row "사번" = Ok SNone ->
     individual_statement_row row st = Done st' ->
     exists fin,
       financials_of row = Ok fin
       /\ dget "None" st' = Some (refreshed row fin "None" (record_of "None" st))
       /\ forall s, s <> "None" -> dget s st' = dget s st)
  /\ (forall row st st',
        row_item row "지급사원번호" = Ok SNone ->
        commission_contract_row row st = Done st' ->
        exists c,
          contract_of row = Ok c
          /\ commissions_of "None" st' = commissions_of "None" st ++ [c]
          /\ forall s, s <> "None" -> commissions_of s st' = commissions_of s st)
  /\ (forall row st st',
        row_item row "[오버라이드] 대상자사번" = Ok SNone ->
        override_record_row row st = Done st' ->
        exists o fc,
          override_of row = Ok o
          /\ row_item row "[FC] 대상자사번" = Ok fc
          /\ dget "수령자_사번" (fc_override_of o "None" row) = Some (vstr "None")
          /\ forall s,
               overrides_of s st'
               = overrides_of s st
                   ++ (if "None" =? s then [o] else [])
                   ++ (if scalar_str fc =? s
                       then [fc_override_of o "None" row] else []))
  /\ (forall row st st',
        row_item row "사번" = Ok SNone ->
        policy_contract_row row st = Done st' ->
        exists p,
          policy_of row = Ok p
          /\ policies_of "None" st' = policies_of "None" st ++ [p]
          /\ forall s, s <> "None" -> policies_of s st' = policies_of s st)
  /\ (forall key body, In (key, body) (@required_rows F PF) ->
        forall row st st',
          row_item row key = Ok SNone -> body row st = Done st' ->
          dmem "None" st' = true)
  /\ (forall o, In o (@allowance_sheets F PF ++ clawback_sheets) ->
        forall df row st,
          row_get row (os_key o) = SNone ->
          keyed df (os_key o) row (os_body o row) st = Done st)
  /\ (forall row field st,
        row_get row field = SNone -> performance_field row field st = Done st).
Proof.
  assert (Neq : forall s : string, s <> "None" -> ("None" =? s) = false).
  { intros s N. apply String.eqb_neq. congruence. }
  split; [|split; [|split; [|split; [|split; [|split]]]]].
  - intros row st st' I H. destruct (roster_row_files _ _ _ H) as (fin & Fin & G).
    rewrite (key_of_item _ _ _ I) in G. cbn [scalar_str] in G.
    exists fin. split; [exact Fin|]. split.
    + now rewrite (G "None"), String.eqb_refl.
    + intros s N. now rewrite (G s), (Neq s N).
  - intros row st st' I H.
    pose proof (fun s => commission_rows_file [row] st st' s (one_row_loop _ _ _ _ H))
      as R.
    destruct (R "None") as [_ A]. inversion A as [|? ? [_ [c C]] _]; subst.
    exists c. split; [exact C|].
    assert (E : forall s,
              commissions_of s st'
              = commissions_of s st ++ (if "None" =? s then [c] else [])).
    { intros s. destruct (R s) as [E _]. rewrite E. unfold entries_for.
      cbn [flat_map]. rewrite (key_of_item _ _ _ I), C. cbn [scalar_str].
      now rewrite app_nil_r. }
    split.
    + now rewrite (E "None"), String.eqb_refl.
    + intros s N. now rewrite (E s), (Neq s N), app_nil_r.
  - intros row st st' I H.
    destruct (override_row_lists _ _ _ _ I H) as (o & fc & O & Fc & E).
    exists o, fc. split; [exact O|]. split; [exact Fc|]. split; [|exact E].
    unfold fc_override_of. rewrite dget_dset_other by discriminate.
    apply dget_dset_same.
  - intros row st st' I H.
    pose proof (fun s => policy_rows_file [row] st st' s (one_row_loop _ _ _ _ H))
      as R.
    destruct (R "None") as [_ A]. inversion A as [|? ? [_ [p P]] _]; subst.
    exists p. split; [exact P|].
    assert (E : forall s,
              policies_of s st'
              = policies_of s st ++ (if "None" =? s then [p] else [])).
    { intros s. destruct (R s) as [E _]. rewrite E. unfold entries_for.
      cbn [flat_map]. rewrite (key_of_item _ _ _ I), P. cbn [scalar_str].
      now rewrite app_nil_r. }
    split.
    + now rewrite (E "None"), String.eqb_refl.
    + intros s N. now rewrite (E s), (Neq s N), app_nil_r.
  - intros key body Hin row st st' I. simpl in Hin.
    destruct Hin as [E|[E|[E|[E|[]]]]]; injection E as <- <-.
    + intros H. destruct (roster_row_files _ _ _ H) as (fin & _ & G).
      specialize (G "None"). rewrite (key_of_item _ _ _ I) in G. simpl in G.
      apply dmem_true. eauto.
    + unfold commission_contract_row, update_with. rewrite I. simpl.
      destruct (contract_of row); [|discriminate]. intros [= <-].
      rewrite dmem_dmodify. apply dmem_ensure.
    + unfold override_record_row. rewrite I. simpl.
      destruct (override_of row); [|discriminate].
      destruct (row_item row "[FC] 대상자사번"); [|discriminate]. intros [= <-].
      rewrite dmem_dmodify. apply dmem_ensure_present.
      rewrite dmem_dmodify. apply dmem_ensure.
    + unfold policy_contract_row, update_with. rewrite I. simpl.
      destruct (policy_of row); [|discriminate]. intros [= <-].
      rewrite dmem_dmodify. apply dmem_ensure.
  - intros o _ df row st B. unfold keyed. rewrite B. simpl.
    now rewrite andb_false_r.
  - intros row field st B. unfold performance_field. rewrite B. simpl.
    now rewrite andb_false_r.
Qed.

End SheetEdges.

(* ------------------------------------------------------------------ *)
(** ** The performance sheet *)

Section PerformanceFacts.

Context {F : Type} {PF : PyFloat F}.
Implicit Types (e : EmployeeDataStructure F) (st : Employees F) (row : Row F).

Lemma row_item_present row field :
  dmem field row = true -> row_item row field = Ok (row_get row field).
Proof.
  intros M. apply dmem_true in M. destruct M as [c G].
  unfold row_item, row_get, dget_or. now rewrite G.
Qed.

(** The guard [field in row] makes [row[field]] safe. *)
Lemma performance_field_done row field st :
  performance_field row field st
  = Done (if dmem field row && notna (row_get row field)
          then dmodify (key_of field row)
                 (append_performance (performance_of field row))
                 (ensure (key_of field row) st)
          else st).
Proof.
  unfold performance_field.
  destruct (dmem field row) eqn:M; simpl; [|reflexivity].
  destruct (notna (row_get row field)); [|reflexivity].
  now rewrite (row_item_present _ _ M).
Qed.

Lemma performance_fields_file row s fields : forall st,
  exists st',
    for_fields (performance_field row) fields st = Done st'
    /\ field_of performance_records s st'
       = field_of performance_records s st
           ++ map (fun field => performance_of field row)
                (filter (fun field => key_of field row =? s)
                   (filter (fun field => dmem field row && notna (row_get row field))
                      fields))
    /\ count_records performance_records st'
       = count_records performance_records st
         + length (filter (fun field => dmem field row && notna (row_get row field))
                     fields).
Proof.
  induction fields as [|field fields IH]; intros st.
  - exists st. simpl. rewrite app_nil_r. split; [reflexivity|]. split; [reflexivity|lia].
  - cbn [for_fields]. unfold andthen. rewrite performance_field_done.
    destruct (IH (if dmem field row && notna (row_get row field)
                  then dmodify (key_of field row)
                         (append_performance (performance_of field row))
                         (ensure (key_of field row) st)
                  else st)) as (st' & E & L & C).
    exists st'. split; [exact E|]. rewrite L, C. cbn [filter].
    destruct (dmem field row && notna (row_get row field)).
    + split.
      * cbn [filter]. destruct (String.eqb_spec (key_of field row) s) as [->|N].
        -- rewrite (field_of_written performance_records _ _
                      (fun l => l ++ [performance_of field row]));
             [|reflexivity|apply dmem_ensure].
           rewrite field_of_ensure by reflexivity. cbn [map].
           now rewrite <- app_assoc.
        -- rewrite field_of_other by congruence.
           now rewrite field_of_ensure by reflexivity.
      * rewrite (count_appended performance_records _ _ (performance_of field row));
          [|reflexivity|apply dmem_ensure].
        rewrite count_ensure by reflexivity. simpl. lia.
    + split; [reflexivity|lia].
Qed.

Lemma performance_rows_file s rows : forall st,
  exists st',
    for_rows performance_record_row rows st = Done st'
    /\ field_of performance_records s st'
       = field_of performance_records s st ++ performance_for s rows
    /\ count_records performance_records st'
       = count_records performance_records st + length (flat_map named_roles rows).
Proof.
  induction rows as [|row rows IH]; intros st.
  - exists st. simpl. rewrite app_nil_r. split; [reflexivity|]. split; [reflexivity|lia].
  - cbn [for_rows]. unfold andthen, performance_record_row at 1.
    destruct (performance_fields_file row s sabon_fields st) as (st1 & -> & L1 & C1).
    destruct (IH st1) as (st' & E & L & C). exists st'. split; [exact E|].
    rewrite L, L1, C, C1. unfold performance_for, named_roles. cbn [flat_map].
    rewrite length_app. split; [now rewrite <- app_assoc|lia].
Qed.

(** X7: the loop over the performance sheet cannot raise, so the [try]
    around it never catches anything.  Every role cell of a row that names
    an employee gives this employee one entry, tagged with the role of the
    column (수금LP, 모집LP or 원모집FC); an employee named in several role cells
    of a row gets one entry per cell, in the order of the columns. *)
Theorem performance_entries_follow_the_roles (xl : Workbook F) st :
  exists st',
    for_rows performance_record_row (performance_rows xl) st = Done st'
    /\ process_performance_records xl st = Done st'
    /\ (forall s,
          field_of performance_records s st'
          = field_of performance_records s st
              ++ performance_for s (performance_rows xl))
    /\ (forall field row,
          dget "역할" (performance_of field row)
          = Some (vstr (remove_all "사번" field)))
    /\ map (remove_all "사번") sabon_fields = ["수금LP"; "모집LP"; "원모집FC"].
Proof.
  destruct (performance_rows_file "" (performance_rows xl) st) as (st' & E & _).
  exists st'. split; [exact E|]. split.
  - unfold process_performance_records, try_except.
    change (iterrows (safe_read_sheet xl "업적" 2)) with (performance_rows xl).
    now rewrite E.
  - split; [|split; [reflexivity|reflexivity]].
    intros s. destruct (performance_rows_file s (performance_rows xl) st)
      as (st2 & E2 & L & _).
    rewrite E in E2. injection E2 as <-. exact L.
Qed.

End PerformanceFacts.

(* ------------------------------------------------------------------ *)
(** ** Records are never removed, lists only grow *)

Section AppendOnly.

Context {F : Type} {PF : PyFloat F}.
Implicit Types (e : EmployeeDataStructure F) (st : Employees F) (s : string).

Lemma extends_refl {A} (l : list A) : extends l l.
Proof. exists []. now rewrite app_nil_r. Qed.

Lemma extends_app {A} (l0 l more : list A) : extends l0 l -> extends l0 (l ++ more).
Proof. intros [m ->]. exists (m ++ more). now rewrite app_assoc. Qed.

Lemma extends_trans {A} (l0 l1 l2 : list A) :
  extends l0 l1 -> extends l1 l2 -> extends l0 l2.
Proof. intros [m ->] [m' ->]. exists (m ++ m'). now rewrite app_assoc. Qed.

Lemma grown_refl e : grown e e.
Proof. repeat split; apply extends_refl. Qed.

Lemma grown_trans e0 e1 e2 : grown e0 e1 -> grown e1 e2 -> grown e0 e2.
Proof.
  intros (A1 & A2 & A3 & A4 & A5) (B1 & B2 & B3 & B4 & B5).
  repeat split; eapply extends_trans; eauto.
Qed.

(** The mapping [st] holds every record of [st0], with longer lists at
    most, and its keys start with those of [st0]. *)
#[local] Abbreviation since st0 :=
  (fun st => kept grown st0 st /\ extends (keys st0) (keys st)).

Lemma since_ensure st0 s st : since st0 st -> since st0 (ensure s st).
Proof.
  intros [K E]. split; [now apply kept_ensure|].
  rewrite keys_ensure. destruct (dmem s st); [exact E|]. now apply extends_app.
Qed.

Lemma since_create st0 s st :
  since st0 st -> dmem s st = false -> since st0 (dset s new_employee st).
Proof.
  intros [K E] M. apply dmem_false in M. split.
  - intros k e0 G. destruct (K k e0 G) as (e & Ge & R). exists e. split; [|exact R].
    rewrite dget_dset_other; [exact Ge|]. intros ->. congruence.
  - rewrite (dset_absent _ _ _ M). unfold keys. rewrite map_app.
    now apply extends_app.
Qed.

Lemma since_dmodify st0 s (f : EmployeeDataStructure F -> EmployeeDataStructure F) st :
  (forall e, dget s st = Some e -> grown e (f e)) ->
  since st0 st -> since st0 (dmodify s f st).
Proof.
  intros Hf [K E]. split; [|now rewrite keys_dmodify].
  apply kept_dmodify; [|exact K].
  intros e0 e G R. apply (grown_trans _ e); auto.
Qed.

Ltac grows :=
  intros; apply since_dmodify; [|assumption]; intros;
  repeat split; first [apply extends_refl | apply extends_app, extends_refl].
Ltac created := intros; apply since_create; assumption.
Ltac ensured := intros; apply since_ensure; assumption.

Lemma since_retention st0 row (r : Entry F) s e e' st :
  retention_of row = Ok r -> dget s st = Some e -> append_retention r e = Ok e' ->
  since st0 st -> since st0 (dmodify s (fun _ => e') st).
Proof.
  intros _ G R. apply since_dmodify. intros e1 G1. rewrite G in G1.
  injection G1 as <-. unfold append_retention in R.
  destruct (dget "13회차유지" _) as [[c|d|l]|]; try discriminate.
  injection R as <-. repeat split; apply extends_refl.
Qed.

Lemma since_passes st0 (xl : Workbook F) :
  Forall (fun pass => keeps (since st0) (pass xl)) sheet_passes.
Proof.
  unfold sheet_passes. repeat apply Forall_cons; [ | | | | | | |apply Forall_nil].
  - apply frame_individual_statements; [created|grows|grows].
  - apply frame_commission_contracts; [ensured|grows].
  - apply frame_override_records; [ensured|grows|grows].
  - apply frame_policy_contracts; [ensured|grows].
  - apply frame_performance_records; [ensured|grows].
  - apply keeps_additional_allowances;
      [ensured|grows|intros; eapply since_retention; eauto].
  - apply keeps_clawback_records; [ensured|grows].
Qed.

Lemma since_process_sheets st0 (xl : Workbook F) :
  keeps (since st0) (process_sheets xl).
Proof.
  pose proof (since_passes st0 xl) as H. unfold sheet_passes in H.
  repeat match goal with
         | H : Forall _ (_ :: _) |- _ => inversion H; subst; clear H
         end.
  unfold process_sheets. do 6 (apply keeps_andthen; [assumption|]). assumption.
Qed.

Lemma since_start st : since st st.
Proof. split; [apply kept_refl, grown_refl|apply extends_refl]. Qed.

(** X8: no pass over the sheets removes a record, reorders the mapping or
    shortens a list, however the pass ends: after it, the keys of the
    mapping start with the keys it had before, and every record that was
    there holds, in each of its five lists, the entries it held before,
    possibly followed by new ones.  The same holds for the seven passes
    run in sequence, and for the derivation pass when it returns. *)
Theorem lists_only_grow (xl : Workbook F) st :
  Forall
    (fun pass =>
       kept grown st (state_of (pass xl st))
       /\ extends (keys st) (keys (state_of (pass xl st))))
    sheet_passes
  /\ kept grown st (state_of (process_sheets xl st))
  /\ extends (keys st) (keys (state_of (process_sheets xl st)))
  /\ (forall st',
        calculate_aggregated_financials st = Done st' ->
        kept grown st st' /\ keys st' = keys st).
Proof.
  split; [|split; [|split]].
  - pose proof (since_passes st xl) as H.
    eapply Forall_impl; [|exact H]. intros pass K. apply K, since_start.
  - apply (since_process_sheets st xl), since_start.
  - apply (since_process_sheets st xl), since_start.
  - intros st' H. pose proof (calculate_items_derived _ _ H) as D. split.
    + intros s e0 G. clear H. revert G.
      induction D as [|[k e] [k' e'] l l' (Hk & Hs & _) _ IH]; simpl;
        [discriminate|].
      simpl in Hk, Hs. subst k'. destruct (s =? k); [|exact IH].
      intros [= ->]. exists e'. split; [reflexivity|].
      destruct Hs as (_ & _ & C1 & C2 & C3 & C4 & _ & C5).
      unfold grown. rewrite C1, C2, C3, C4, C5.
      repeat split; apply extends_refl.
    + clear H. induction D as [|[k e] [k' e'] l l' (Hk & _) _ IH]; simpl;
        [reflexivity|].
      simpl in Hk. now rewrite Hk, IH.
Qed.

End AppendOnly.

(* ------------------------------------------------------------------ *)
(** ** The report of [print_summary] *)

Section CountFrames.

Context {F : Type} {PF : PyFloat F}.
Implicit Types (e : EmployeeDataStructure F) (st : Employees F) (s : string).

Variable list_of : EmployeeDataStructure F -> list (Entry F).
Hypothesis list_of_sabon : forall s e, list_of (with_sabon s e) = list_of e.
Hypothesis list_of_new : list_of new_employee = [].
Variable n : nat.

#[local] Abbreviation counted := (fun st : Employees F => count_records list_of st = n).

Lemma count_spared_by_individual_statements xl :
  (forall row s e, list_of (with_profile (profile_of row) (with_sabon s e)) = list_of e) ->
  (forall fin e, list_of (with_summary fin e) = list_of e) ->
  keeps counted (process_individual_statements xl).
Proof.
  intros Hp Hs. apply frame_individual_statements.
  - intros s st H M. rewrite count_create by exact M. rewrite list_of_new. simpl. lia.
  - intros row s st H. rewrite count_untouched; auto.
  - intros row fin s st _ H. rewrite count_untouched; auto.
Qed.

Lemma count_spared_by_commission_contracts xl :
  (forall c e, list_of (append_commission c e) = list_of e) ->
  keeps counted (process_commission_contracts xl).
Proof.
  intros Hc. apply frame_commission_contracts.
  - intros s st H. now rewrite count_ensure.
  - intros row c s st _ H. rewrite count_untouched; auto.
Qed.

Lemma count_spared_by_override_records xl :
  (forall o e, list_of (append_override o e) = list_of e) ->
  keeps counted (process_override_records xl).
Proof.
  intros Ho. apply frame_override_records.
  - intros s st H. now rewrite count_ensure.
  - intros row o s st _ H. rewrite count_untouched; auto.
  - intros row o r s st _ H. rewrite count_untouched; auto.
Qed.

Lemma count_spared_by_policy_contracts xl :
  (forall p e, list_of (append_policy p e) = list_of e) ->
  keeps counted (process_policy_contracts xl).
Proof.
  intros Hp. apply frame_policy_contracts.
  - intros s st H. now rewrite count_ensure.
  - intros row p s st _ H. rewrite count_untouched; auto.
Qed.

Lemma count_spared_by_performance_records xl :
  (forall p e, list_of (append_performance p e) = list_of e) ->
  keeps counted (process_performance_records xl).
Proof.
  intros Hp. apply frame_performance_records.
  - intros s st H. now rewrite count_ensure.
  - intros field row s st H. rewrite count_untouched; auto.
Qed.

Lemma count_spared_by_additional_allowances xl :
  (forall al e, list_of (with_allowances al e) = list_of e) ->
  keeps counted (process_additional_allowances xl).
Proof.
  intros Ha. apply keeps_additional_allowances.
  - intros s st H. now rewrite count_ensure.
  - intros category build row v s st _ _ H.
    rewrite count_untouched; auto. intros e. apply Ha.
  - intros row r s e e' st _ G R H.
    rewrite (count_replaced list_of s e e'); auto.
    unfold append_retention in R.
    destruct (dget "13회차유지" _) as [[c|d|l]|]; try discriminate.
    injection R as <-. apply Ha.
Qed.

Lemma count_spared_by_clawback_records xl :
  (forall c e, list_of (append_clawback c e) = list_of e) ->
  keeps counted (process_clawback_records xl).
Proof.
  intros Hc. apply keeps_clawback_records.
  - intros s st H. now rewrite count_ensure.
  - intros build row c s st _ _ H. rewrite count_untouched; auto.
Qed.

(** A sheet that gives one entry per row adds as many entries as it has
    rows. *)
Lemma append_rows_count key build append rows :
  (forall c e, list_of (append c e) = list_of e ++ [c]) ->
  forall st st',
    for_rows (append_row key build append) rows st = Done st' ->
    count_records list_of st' = count_records list_of st + length rows.
Proof.
  intros Ha. induction rows as [|row rows IH]; simpl; intros st st'.
  - intros [= <-]. lia.
  - intros H. apply andthen_done in H. destruct H as (st1 & H1 & H2).
    rewrite (IH _ _ H2). unfold append_row, update_with in H1.
    destruct (row_item row key) as [c|x]; [|discriminate].
    destruct (build row) as [b|x]; [|discriminate]. injection H1 as <-.
    rewrite (count_appended list_of _ _ b); [|apply Ha|apply dmem_ensure].
    rewrite count_ensure by assumption. lia.
Qed.

End CountFrames.

(** Carry the number of entries of one kind over a pass that adds none. *)
Ltac spare_count list_of K H :=
  lazymatch type of H with
  | process_individual_statements _ _ = Done _ =>
      apply (keeps_done _ _ _ _
               (count_spared_by_individual_statements list_of eq_refl _ _
                  (fun _ _ _ => eq_refl) (fun _ _ => eq_refl)) K) in H
  | process_commission_contracts _ _ = Done _ =>
      apply (keeps_done _ _ _ _
               (count_spared_by_commission_contracts list_of (fun _ _ => eq_refl)
                  eq_refl _ _ (fun _ _ => eq_refl)) K) in H
  | process_override_records _ _ = Done _ =>
      apply (keeps_done _ _ _ _
               (count_spared_by_override_records list_of (fun _ _ => eq_refl)
                  eq_refl _ _ (fun _ _ => eq_refl)) K) in H
  | process_policy_contracts _ _ = Done _ =>
      apply (keeps_done _ _ _ _
               (count_spared_by_policy_contracts list_of (fun _ _ => eq_refl)
                  eq_refl _ _ (fun _ _ => eq_refl)) K) in H
  | process_performance_records _ _ = Done _ =>
      apply (keeps_done _ _ _ _
               (count_spared_by_performance_records list_of (fun _ _ => eq_refl)
                  eq_refl _ _ (fun _ _ => eq_refl)) K) in H
  | process_additional_allowances _ _ = Done _ =>
      apply (keeps_done _ _ _ _
               (count_spared_by_additional_allowances list_of (fun _ _ => eq_refl)
                  eq_refl _ _ (fun _ _ => eq_refl)) K) in H
  | process_clawback_records _ _ = Done _ =>
      apply (keeps_done _ _ _ _
               (count_spared_by_clawback_records list_of (fun _ _ => eq_refl)
                  eq_refl _ _ (fun _ _ => eq_refl)) K) in H
  | calculate_aggregated_financials _ = Done _ =>
      apply (count_derivation list_of _ _ (fun _ _ => eq_refl)) in H;
      rewrite K in H
  end.

Section ReportFacts.

Context {F : Type} {PF : PyFloat F}.
Implicit Types (e : EmployeeDataStructure F) (st : Employees F) (s : string).

Lemma count_override_entries st :
  count_records override_records st = override_entries st.
Proof. unfold count_records, override_entries, values. now rewrite map_map. Qed.

Lemma sum_summary_total key st :
  all_typed st ->
  exists total, sum_summary key st = Ok total /\ numeric (VScalar total).
Proof.
  intros T. apply py_sum_numeric. unfold values. rewrite map_map.
  apply Forall_map. eapply Forall_impl; [|exact T].
  intros [s e] (_ & _ & _ & _ & _ & S). simpl in *.
  apply (Forall_dget_or (fun c => numeric (VScalar c))); [reflexivity|exact S].
Qed.

Lemma money_line_total label (total : Scalar F) :
  numeric (VScalar total) -> exists line, money_line label total = Ok line.
Proof.
  intros N. unfold money_line. destruct (fmt0_numeric _ N) as (t & ->).
  cbn [bind]. eauto.
Qed.

(** X9: when [process_all] returns, [print_summary] raises nothing, and the
    counts it reports reconcile with the sheets: one commission entry per
    row of the commission sheet, two override entries per row of the
    override sheet, one policy entry per row of the policy sheet, and one
    performance entry per role cell that names an employee. *)
Theorem report_reconciles_with_the_sheets (xl : Workbook F) st :
  process_all xl = Done st ->
  count_records commission_contracts st = length (commission_rows xl)
  /\ count_records override_records st = 2 * length (override_rows xl)
  /\ count_records policy_contracts st = length (policy_rows xl)
  /\ count_records performance_records st
     = length (flat_map named_roles (performance_rows xl))
  /\ exists payments commissions overrides,
       print_summary st
       = (summary_counts st
            ++ [nl ^^ "Financial Summary:"; payments; commissions; overrides],
          None).
Proof.
  intros H.
  pose proof (process_all_typed xl st H) as T.
  destruct (process_all_stages xl st H)
    as (s1 & s2 & s3 & s4 & s5 & s6 & s7 & H1 & H2 & H3 & H4 & H5 & H6 & H7 & H8).
  split; [|split; [|split; [|split]]].
  - assert (K : count_records commission_contracts ([] : Employees F) = 0)
      by reflexivity.
    spare_count (@commission_contracts F) K H1.
    apply (append_rows_count commission_contracts (fun _ _ => eq_refl) eq_refl
             "지급사원번호" contract_of append_commission _ (fun _ _ => eq_refl))
      in H2.
    rewrite H1 in H2. simpl in H2.
    spare_count (@commission_contracts F) H2 H3.
    spare_count (@commission_contracts F) H3 H4.
    spare_count (@commission_contracts F) H4 H5.
    spare_count (@commission_contracts F) H5 H6.
    spare_count (@commission_contracts F) H6 H7.
    spare_count (@commission_contracts F) H7 H8.
    exact H8.
  - assert (K : count_records override_records ([] : Employees F) = 0)
      by reflexivity.
    spare_count (@override_records F) K H1.
    spare_count (@override_records F) H1 H2.
    apply override_rows_count in H3. rewrite <- !count_override_entries in H3.
    rewrite H2 in H3. simpl in H3.
    change (iterrows (safe_read_sheet xl "건별OR" 0)) with (override_rows xl) in H3.
    spare_count (@override_records F) H3 H4.
    spare_count (@override_records F) H4 H5.
    spare_count (@override_records F) H5 H6.
    spare_count (@override_records F) H6 H7.
    spare_count (@override_records F) H7 H8.
    rewrite H8. lia.
  - assert (K : count_records policy_contracts ([] : Employees F) = 0)
      by reflexivity.
    spare_count (@policy_contracts F) K H1.
    spare_count (@policy_contracts F) H1 H2.
    spare_count (@policy_contracts F) H2 H3.
    apply (append_rows_count policy_contracts (fun _ _ => eq_refl) eq_refl
             "사번" policy_of append_policy _ (fun _ _ => eq_refl))
      in H4.
    rewrite H3 in H4. simpl in H4.
    spare_count (@policy_contracts F) H4 H5.
    spare_count (@policy_contracts F) H5 H6.
    spare_count (@policy_contracts F) H6 H7.
    spare_count (@policy_contracts F) H7 H8.
    exact H8.
  - assert (K : count_records performance_records ([] : Employees F) = 0)
      by reflexivity.
    spare_count (@performance_records F) K H1.
    spare_count (@performance_records F) H1 H2.
    spare_count (@performance_records F) H2 H3.
    spare_count (@performance_records F) H3 H4.
    destruct (performance_rows_file "" (performance_rows xl) s4) as (s5' & E & _ & C).
    unfold process_performance_records, try_except in H5.
    change (iterrows (safe_read_sheet xl "업적" 2)) with (performance_rows xl) in H5.
    rewrite E in H5. simpl in H5. injection H5 as <-.
    rewrite H4 in C. simpl in C.
    spare_count (@performance_records F) C H6.
    spare_count (@performance_records F) H6 H7.
    spare_count (@performance_records F) H7 H8.
    exact H8.
  - unfold print_summary.
    destruct (sum_summary_total "최종지급액" st T) as (t1 & -> & N1).
    destruct (sum_summary_total "총_커미션" st T) as (t2 & -> & N2).
    destruct (sum_summary_total "총_오버라이드" st T) as (t3 & -> & N3).
    cbn [bind print_each].
    destruct (money_line_total "Total Final Payments" t1 N1) as (l1 & ->).
    destruct (money_line_total "Total Commissions" t2 N2) as (l2 & ->).
    destruct (money_line_total "Total Overrides" t3 N3) as (l3 & ->).
    exists l1, l2, l3. reflexivity.
Qed.

End ReportFacts.

(* ------------------------------------------------------------------ *)
(** ** What an upload stores, and where *)

Section UploadInvariants.

Context {F : Type} {PF : PyFloat F}.
Variable World : Type.
Variable embeddings_create : World -> list string -> World * Result (list (list F)).
Variable index_upsert : World -> list (Vector F) -> string -> World * bool.

#[local] Abbreviation upload_batches := (upload_batches World embeddings_create index_upsert).
#[local] Abbreviation upload_groups := (upload_groups World embeddings_create index_upsert).
#[local] Abbreviation upload_documents := (upload_documents World embeddings_create index_upsert).
#[local] Abbreviation generate_embeddings_batch :=
  (generate_embeddings_batch World embeddings_create).

Implicit Types (doc : Document F) (s : Scalar F) (st : UploadState F World).

(** An invariant of the upload state survives the loops when it survives
    a change of the world and an accepted call of vectors that passed the
    check. *)
Section Invariant.

Variable Q : UploadState F World -> Prop.
Variable s : Scalar F.
Hypothesis Q_world : forall w st, Q st -> Q (with_world w st).

Lemma upload_batches_keeps namespace
  (ok : list (Document F) -> list (Vector F) -> Prop) batches :
  (forall batch embeddings vectors,
     In batch batches -> build_vectors s (combine batch embeddings) = Ok vectors ->
     ok batch vectors) ->
  (forall w batch vectors st,
     ok batch vectors -> Q st -> Q (record_upsert w namespace vectors st)) ->
  forall st, Q st -> Q (final_state (upload_batches s namespace batches st)).
Proof.
  intros Hok Hrec. induction batches as [|batch batches IH]; intros st H;
    [exact H|].
  rewrite upload_batches_cons.
  assert (IH' : forall st, Q st -> Q (final_state (upload_batches s namespace batches st))).
  { apply IH. intros b e v I. apply Hok. now right. }
  destruct (generate_embeddings_batch (world st) (map text batch)) as [w [embs|y]];
    [|now apply IH', Q_world].
  destruct (build_vectors s (combine batch embs)) as [vs|y] eqn:B;
    [|now apply Q_world].
  destruct (index_upsert w vs namespace) as [w' [|]].
  - apply IH'. apply (Hrec w' batch vs st); [|exact H].
    apply (Hok batch embs vs); [now left|exact B].
  - now apply IH', Q_world.
Qed.

End Invariant.

(** *** Isolation *)

Lemma vector_of_owner doc (embedding : list F) v :
  vector_of doc embedding = Ok v ->
  dget "사번" (vector_metadata v) = dget "사번" (metadata doc)
  /\ vector_id v = id doc.
Proof.
  unfold vector_of, meta_item.
  destruct (dget "사번" (metadata doc)) as [d|]; simpl; [|discriminate].
  destruct (dget "사원명" (metadata doc)) as [n|]; simpl; [|discriminate].
  intros [= <-]. split; reflexivity.
Qed.

Lemma build_vectors_owned s (pairs : list (Document F * list F)) vectors :
  build_vectors s pairs = Ok vectors ->
  Forall (owned_by s) vectors /\ length vectors = length pairs.
Proof.
  revert vectors. induction pairs as [|[doc emb] pairs IH]; simpl; intros vectors.
  - intros [= <-]. split; [constructor|reflexivity].
  - unfold meta_item at 1.
    destruct (dget "사번" (metadata doc)) as [d|] eqn:D; simpl; [|discriminate].
    destruct (differs d s) eqn:Df; [discriminate|].
    destruct (vector_of doc emb) as [v|y] eqn:V; simpl; [|discriminate].
    destruct (build_vectors s pairs) as [vs|y]; simpl; [|discriminate].
    intros [= <-]. destruct (IH vs eq_refl) as [O L]. split; [|simpl; now rewrite L].
    constructor; [|exact O].
    exists d. split; [|exact Df]. now rewrite (proj1 (vector_of_owner _ _ _ V)).
Qed.

Lemma upload_groups_keeps (Q : UploadState F World -> Prop) batch_size groups :
  (forall w st, Q st -> Q (with_world w st)) ->
  (forall s docs batches batch embeddings vectors w st,
     In (s, docs) groups -> batches_of batch_size docs = Ok batches ->
     In batch batches -> build_vectors s (combine batch embeddings) = Ok vectors ->
     Q st -> Q (record_upsert w ("employee_" ^^ scalar_str s) vectors st)) ->
  forall st, Q st -> Q (final_state (upload_groups batch_size groups st)).
Proof.
  intros Hw Hrec. induction groups as [|[s docs] groups IH]; intros st H;
    [exact H|].
  assert (IH' : forall st, Q st -> Q (final_state (upload_groups batch_size groups st))).
  { apply IH. intros s0 d0 bs b e v w0 st0 I. apply Hrec. now right. }
  destruct docs as [|doc docs]; [exact H|].
  rewrite upload_groups_cons.
  destruct (batches_of batch_size (doc :: docs)) as [batches|y] eqn:B; [|exact H].
  pose proof (upload_batches_keeps Q s Hw ("employee_" ^^ scalar_str s)
                (fun batch vectors =>
                   In batch batches
                   /\ exists embeddings,
                        build_vectors s (combine batch embeddings) = Ok vectors)
                batches) as K.
  specialize (K (fun b e v I Bv => conj I (ex_intro _ e Bv))).
  assert (Kr : forall w batch vectors st0,
             (In batch batches
              /\ exists embeddings,
                   build_vectors s (combine batch embeddings) = Ok vectors) ->
             Q st0 -> Q (record_upsert w ("employee_" ^^ scalar_str s) vectors st0)).
  { intros w b v st0 (I & e & Bv). apply (Hrec s (doc :: docs) batches b e v);
      auto. now left. }
  specialize (K Kr st H).
  destruct (upload_batches s _ batches st) as [st1|y st1]; [|exact K].
  now apply IH'.
Qed.

Lemma upload_documents_keeps (Q : UploadState F World -> Prop) documents batch_size w :
  (forall w st, Q st -> Q (with_world w st)) ->
  (forall groups s docs batches batch embeddings vectors w st,
     group_documents documents = Ok groups ->
     In (s, docs) groups -> batches_of batch_size docs = Ok batches ->
     In batch batches -> build_vectors s (combine batch embeddings) = Ok vectors ->
     Q st -> Q (record_upsert w ("employee_" ^^ scalar_str s) vectors st)) ->
  Q (start w) ->
  Q (final_state (upload_documents documents batch_size w)).
Proof.
  intros Hw Hrec H0. unfold upload_documents.
  destruct (group_documents documents) as [[|g groups]|y] eqn:G; try exact H0.
  apply upload_groups_keeps; auto.
  intros s docs batches batch embeddings vectors w0 st. now apply Hrec.
Qed.


(** X10: whatever the documents hold, whatever the two services answer
    and however the upload ends, every call the index has accepted is
    isolated: it went to the namespace of one employee key, and the 사번
    of each of its vectors does not differ from that key.  A vector whose
    사번 is the text [t] is therefore stored under "employee_t" only. *)
Theorem stored_vectors_are_isolated documents batch_size w :
  Forall isolated
    (upserted (final_state (upload_documents documents batch_size w)))
  /\ (forall namespace vectors v t,
        In (namespace, vectors)
          (upserted (final_state (upload_documents documents batch_size w))) ->
        In v vectors ->
        dget "사번" (vector_metadata v) = Some (vstr t) ->
        namespace = "employee_" ^^ t).
Proof.
  assert (A : Forall isolated
                (upserted (final_state (upload_documents documents batch_size w)))).
  { apply (upload_documents_keeps (fun st => Forall isolated (upserted st))).
    - intros w0 st H. exact H.
    - intros groups s docs batches batch embeddings vectors w0 st _ _ _ _ B H.
      simpl. apply Forall_app. split; [exact H|]. repeat constructor.
      exists s. split; [reflexivity|]. apply (build_vectors_owned _ _ _ B).
    - constructor. }
  split; [exact A|].
  intros namespace vectors v t I Iv D.
  rewrite Forall_forall in A. destruct (A _ I) as (s & N & O). simpl in N, O.
  rewrite Forall_forall in O. destruct (O v Iv) as (d & D' & Df).
  rewrite D in D'. injection D' as <-. subst namespace. f_equal.
  unfold differs, vstr in Df. apply negb_false_iff in Df.
  destruct s; simpl in Df; try discriminate.
  apply String.eqb_eq in Df. now subst.
Qed.

(** *** The counter and the size of a call *)

Lemma chunks_length {A} n fuel : forall (l : list A),
  Forall (fun batch => length batch <= n) (chunks fuel n l).
Proof.
  induction fuel as [|fuel IH]; intros l; simpl; [constructor|].
  destruct l as [|x l]; [constructor|].
  constructor; [|apply IH]. rewrite length_firstn. lia.
Qed.

Lemma batches_of_length {A} batch_size (l : list A) batches :
  batches_of batch_size l = Ok batches ->
  Forall (fun batch => (Z.of_nat (length batch) <= batch_size)%Z) batches
  /\ length (concat batches) <= length l.
Proof.
  unfold batches_of. destruct (batch_size =? 0)%Z eqn:Z0; [discriminate|].
  destruct (batch_size <? 0)%Z eqn:N; intros [= <-].
  - split; [constructor|simpl; lia].
  - apply Z.eqb_neq in Z0. apply Z.ltb_ge in N. split.
    + eapply Forall_impl; [|apply chunks_length]. simpl. intros batch H. lia.
    + rewrite chunks_concat; lia.
Qed.

Lemma upload_batches_bound s namespace batches : forall st,
  total_uploaded (final_state (upload_batches s namespace batches st))
  <= total_uploaded st + length (concat batches).
Proof.
  induction batches as [|batch batches IH]; intros st; [simpl; lia|].
  rewrite upload_batches_cons. cbn [concat]. rewrite length_app.
  destruct (generate_embeddings_batch (world st) (map text batch)) as [w [embs|y]].
  - destruct (build_vectors s (combine batch embs)) as [vs|y] eqn:B; [|simpl; lia].
    destruct (build_vectors_owned _ _ _ B) as [_ L].
    pose proof (length_combine batch embs) as Lc.
    destruct (index_upsert w vs namespace) as [w' [|]].
    + specialize (IH (record_upsert w' namespace vs st)). simpl in IH. lia.
    + specialize (IH (with_world w' st)). simpl in IH. lia.
  - specialize (IH (with_world w st)). simpl in IH. lia.
Qed.

Lemma upload_groups_bound batch_size groups : forall st,
  total_uploaded (final_state (upload_groups batch_size groups st))
  <= total_uploaded st + length (grouped_documents groups).
Proof.
  induction groups as [|[s docs] groups IH]; intros st; [simpl; lia|].
  unfold grouped_documents in *. cbn [flat_map snd]. rewrite length_app.
  destruct docs as [|doc docs]; [simpl; lia|].
  rewrite upload_groups_cons.
  destruct (batches_of batch_size (doc :: docs)) as [batches|y] eqn:B; [|simpl; lia].
  destruct (batches_of_length _ _ _ B) as [_ L].
  pose proof (upload_batches_bound s ("employee_" ^^ scalar_str s) batches st) as U.
  destruct (upload_batches s _ batches st) as [st1|y st1];
    cbv beta iota; cbn [final_state] in *; simpl length in *.
  - specialize (IH st1). lia.
  - lia.
Qed.

Lemma group_add_length {A} (k : Scalar F) (x : A) g :
  length (flat_map snd (group_add k x g)) = S (length (flat_map snd g)).
Proof.
  induction g as [|[k' xs] g IH]; simpl; [reflexivity|].
  destruct (scalar_eqb k' k); simpl; rewrite !length_app.
  - simpl. lia.
  - rewrite IH. lia.
Qed.

Lemma group_add_nonempty {A} (k : Scalar F) (x : A) g :
  Forall (fun kv => snd kv <> []) g ->
  Forall (fun kv => snd kv <> []) (group_add k x g).
Proof.
  induction g as [|[k' xs] g IH]; simpl; intros H.
  - repeat constructor. discriminate.
  - inversion H; subst. destruct (scalar_eqb k' k); constructor; auto.
    simpl. destruct xs; discriminate.
Qed.

Lemma group_documents_into_shape documents : forall g groups,
  group_documents_into documents g = Ok groups ->
  length (grouped_documents groups) = length documents + length (grouped_documents g)
  /\ (Forall (fun kv => snd kv <> []) g -> Forall (fun kv => snd kv <> []) groups)
  /\ (documents <> [] -> groups <> []).
Proof.
  induction documents as [|doc documents IH]; simpl; intros g groups.
  - intros [= <-]. repeat split; auto; congruence.
  - destruct (meta_item doc "사번") as [v|y]; simpl; [|discriminate].
    destruct (hashable v) as [k|y]; simpl; [|discriminate].
    intros H. destruct (IH _ _ H) as (L & N & _).
    unfold grouped_documents in *. rewrite group_add_length in L.
    split; [lia|]. split.
    + intros Hg. now apply N, group_add_nonempty.
    + intros _ ->. simpl in L. lia.
Qed.

(** X11: the counter [total_uploaded] is the number of vectors the index
    has accepted; it never exceeds the number of documents, and no accepted
    call holds more vectors than [batch_size]. *)
Theorem upload_counts_what_it_stores documents batch_size w :
  total_uploaded (final_state (upload_documents documents batch_size w))
  = length (stored_vectors (final_state (upload_documents documents batch_size w)))
  /\ total_uploaded (final_state (upload_documents documents batch_size w))
     <= length documents
  /\ Forall (fun call => (Z.of_nat (length (snd call)) <= batch_size)%Z)
       (upserted (final_state (upload_documents documents batch_size w))).
Proof.
  split; [|split].
  - apply (upload_documents_keeps
             (fun st => total_uploaded st = length (stored_vectors st))).
    + intros w0 st H. exact H.
    + intros groups s docs batches batch embeddings vectors w0 st _ _ _ _ _ H.
      unfold stored_vectors in *. simpl. rewrite flat_map_app, length_app, H.
      simpl. rewrite app_nil_r. reflexivity.
    + reflexivity.
  - unfold upload_documents.
    destruct (group_documents documents) as [[|g groups]|y] eqn:G;
      try (simpl; lia).
    destruct (group_documents_into_shape _ _ _ G) as (L & _).
    assert (L' : length (grouped_documents (g :: groups)) = length documents)
      by (rewrite L; unfold grouped_documents; simpl; lia).
    rewrite <- L'. exact (upload_groups_bound batch_size (g :: groups) (start w)).
  - apply (upload_documents_keeps
             (fun st => Forall (fun call => (Z.of_nat (length (snd call)) <= batch_size)%Z)
                          (upserted st))).
    + intros w0 st H. exact H.
    + intros groups s docs batches batch embeddings vectors w0 st _ _ Bs I B H.
      simpl. apply Forall_app. split; [exact H|]. repeat constructor. simpl.
      destruct (build_vectors_owned _ _ _ B) as [_ L].
      destruct (batches_of_length _ _ _ Bs) as [Lb _].
      rewrite Forall_forall in Lb. specialize (Lb batch I).
      pose proof (length_combine batch embeddings). lia.
    + constructor.
Qed.

(** *** What can end an upload *)

Lemma security_error_recognised (v : PyVal F) s :
  is_security_error (security_error v s) = true.
Proof. reflexivity. Qed.

Lemma build_vectors_raises s (pairs : list (Document F * list F)) x :
  build_vectors s pairs = Err x -> raised_by_the_script x.
Proof.
  unfold raised_by_the_script.
  induction pairs as [|[doc emb] pairs IH]; simpl; [discriminate|].
  unfold meta_item at 1.
  destruct (dget "사번" (metadata doc)) as [d|] eqn:D; simpl;
    [|intros [= <-]; now left].
  destruct (differs d s); [intros [= <-]; do 5 right; apply security_error_recognised|].
  unfold vector_of, meta_item. rewrite D. simpl.
  destruct (dget "사원명" (metadata doc)); simpl; [|intros [= <-]; right; now left].
  destruct (build_vectors s pairs); simpl; [discriminate|].
  intros [= <-]. now apply IH.
Qed.

Lemma upload_batches_raises s namespace batches : forall st x st',
  upload_batches s namespace batches st = Aborted x st' -> raised_by_the_script x.
Proof.
  induction batches as [|batch batches IH]; intros st x st'; [discriminate|].
  rewrite upload_batches_cons.
  destruct (generate_embeddings_batch (world st) (map text batch)) as [w [embs|y]];
    [|apply IH].
  destruct (build_vectors s (combine batch embs)) as [vs|y] eqn:B.
  - destruct (index_upsert w vs namespace) as [w' [|]]; apply IH.
  - intros [= <- _]. now apply (build_vectors_raises _ _ _ B).
Qed.

Lemma upload_groups_raises batch_size groups : forall st x st',
  Forall (fun kv => snd kv <> []) groups ->
  upload_groups batch_size groups st = Aborted x st' -> raised_by_the_script x.
Proof.
  induction groups as [|[s docs] groups IH]; intros st x st' N; [discriminate|].
  inversion N as [|? ? N1 N2]; subst. simpl in N1.
  destruct docs as [|doc docs]; [congruence|].
  rewrite upload_groups_cons.
  destruct (batches_of batch_size (doc :: docs)) as [batches|y] eqn:B.
  - destruct (upload_batches s _ batches st) as [st1|y st1] eqn:U.
    + now apply IH.
    + intros [= <- _]. now apply (upload_batches_raises _ _ _ _ _ _ U).
  - intros [= <- _]. unfold batches_of in B.
    destruct (batch_size =? 0)%Z; [|destruct (batch_size <? 0)%Z; discriminate].
    injection B as <-. do 4 right. now left.
Qed.

(** X12: an exception that leaves [upload_documents] is raised by the
    script itself: the [KeyError] of a document without 사번 or 사원명, the
    [TypeError] of an unhashable 사번, the [ZeroDivisionError] of an empty
    document list, the [ValueError] of a zero batch size, or the isolation
    error.  A failure of the embedding service or of the index is never
    among them: it costs the batch it occurs in and the run goes on. *)
Theorem only_the_script_ends_an_upload documents batch_size w x st :
  upload_documents documents batch_size w = Aborted x st ->
  raised_by_the_script x.
Proof.
  unfold upload_documents.
  destruct (group_documents documents) as [[|g groups]|y] eqn:G.
  - intros [= <- _]. do 3 right. now left.
  - apply upload_groups_raises.
    apply (group_documents_into_shape _ _ _ G). constructor.
  - intros [= <- _]. unfold group_documents in G. revert G.
    generalize (@nil (Scalar F * list (Document F))).
    induction documents as [|doc documents IH]; simpl; intros g; [discriminate|].
    unfold meta_item.
    destruct (dget "사번" (metadata doc)) as [v|]; simpl;
      [|intros [= <-]; now left].
    destruct v as [c|d|l]; simpl; try (intros [= <-]; do 2 right; now left).
    apply IH.
Qed.


(** *** An upload that meets no failure *)

Hypothesis embeds : embeds_every_batch embeddings_create.
Hypothesis accepts : accepts_every_call index_upsert.

Lemma build_vectors_success t (batch : list (Document F)) : forall embeddings,
  Forall (fun doc => dget "사번" (metadata doc) = Some (VScalar (SStr t))) batch ->
  Forall uploadable batch ->
  length embeddings = length batch ->
  exists vectors,
    build_vectors (SStr t) (combine batch embeddings) = Ok vectors
    /\ map vector_id vectors = map id batch.
Proof.
  induction batch as [|doc batch IH]; intros embeddings Hs Hu L.
  - exists []. split; reflexivity.
  - destruct embeddings as [|emb embeddings]; [discriminate|].
    inversion Hs as [|? ? D Hs']; subst. inversion Hu as [|? ? [_ M] Hu']; subst.
    apply dmem_true in M. destruct M as [name M].
    destruct (IH embeddings Hs' Hu') as (vs & B & I); [simpl in L; lia|].
    cbn [combine build_vectors]. unfold meta_item at 1. rewrite D. cbn [bind].
    unfold differs. cbn [scalar_eqb]. rewrite String.eqb_refl. cbn [negb].
    unfold vector_of, meta_item. rewrite D, M. cbn [bind]. rewrite B. cbn [bind].
    eexists. split; [reflexivity|]. simpl. now rewrite I.
Qed.

Lemma upload_batches_success t namespace batches : forall st,
  Forall (Forall (fun doc => dget "사번" (metadata doc) = Some (VScalar (SStr t))))
    batches ->
  Forall (Forall uploadable) batches ->
  Forall (fun batch => length batch <= 2048) batches ->
  exists st',
    upload_batches (SStr t) namespace batches st = Uploaded st'
    /\ map fst (upserted st') = map fst (upserted st) ++ repeat namespace (length batches)
    /\ map vector_id (stored_vectors st')
       = map vector_id (stored_vectors st) ++ map id (concat batches)
    /\ total_uploaded st' = total_uploaded st + length (concat batches).
Proof.
  induction batches as [|batch batches IH]; intros st Hs Hu Hl.
  - exists st. simpl. rewrite !app_nil_r. repeat split; auto.
  - inversion Hs as [|? ? Hs1 Hs2]; subst. inversion Hu as [|? ? Hu1 Hu2]; subst.
    inversion Hl as [|? ? Hl1 Hl2]; subst.
    rewrite upload_batches_cons. unfold generate_embeddings_batch.
    rewrite length_map.
    destruct (Nat.ltb_spec 2048 (length batch)) as [Hgt|_]; [lia|].
    destruct (embeds (world st) (map text batch)) as (w & embs & -> & Le);
      [now rewrite length_map|].
    rewrite length_map in Le.
    destruct (build_vectors_success t batch embs Hs1 Hu1 Le) as (vs & -> & I).
    destruct (accepts w vs namespace) as (w' & ->).
    destruct (IH (record_upsert w' namespace vs st) Hs2 Hu2 Hl2)
      as (st' & -> & N & V & T).
    exists st'. split; [reflexivity|].
    assert (Lv : length vs = length batch)
      by (rewrite <- (length_map vector_id vs), I; apply length_map).
    split; [|split].
    + rewrite N. simpl. rewrite map_app. simpl. now rewrite <- app_assoc.
    + rewrite V. unfold stored_vectors. simpl.
      rewrite flat_map_app, !map_app. simpl. rewrite app_nil_r, I.
      now rewrite <- app_assoc.
    + rewrite T. simpl. rewrite length_app. lia.
Qed.

Lemma chunks_bounded {A} n fuel : forall (l : list A),
  Forall (fun batch => length batch <= length l) (chunks fuel n l).
Proof.
  induction fuel as [|fuel IH]; intros l; simpl; [constructor|].
  destruct l as [|x l]; [constructor|]. constructor.
  - rewrite length_firstn. lia.
  - eapply Forall_impl; [|apply IH]. simpl. intros b H.
    rewrite length_skipn in H. simpl length in *. lia.
Qed.

Lemma batches_of_positive {A} batch_size (l : list A) :
  (0 < batch_size)%Z ->
  exists batches,
    batches_of batch_size l = Ok batches
    /\ concat batches = l
    /\ Forall (fun batch => length batch <= length l
                          /\ (Z.of_nat (length batch) <= batch_size)%Z) batches.
Proof.
  intros H. unfold batches_of.
  destruct (Z.eqb_spec batch_size 0) as [E|_]; [lia|].
  destruct (Z.ltb_spec batch_size 0) as [E|_]; [lia|].
  eexists. split; [reflexivity|]. split.
  - apply chunks_concat; lia.
  - apply Forall_forall. intros b I. split.
    + exact (proj1 (Forall_forall _ _) (chunks_bounded _ _ l) b I).
    + pose proof (proj1 (Forall_forall _ _) (chunks_length (Z.to_nat batch_size) _ l) b I).
      simpl in *. lia.
Qed.

Lemma upload_groups_success batch_size groups :
  (0 < batch_size)%Z ->
  forall st,
  Forall text_group groups ->
  Forall (fun g => snd g <> [] /\ Forall uploadable (snd g)
                   /\ ((batch_size <= 2048)%Z \/ length (snd g) <= 2048)) groups ->
  exists st',
    upload_groups batch_size groups st = Uploaded st'
    /\ map fst (upserted st') = map fst (upserted st) ++ namespaces_of batch_size groups
    /\ map vector_id (stored_vectors st')
       = map vector_id (stored_vectors st) ++ map id (grouped_documents groups)
    /\ total_uploaded st' = total_uploaded st + length (grouped_documents groups).
Proof.
  intros Hb. induction groups as [|[s docs] groups IH]; intros st Ht Hg.
  - exists st. simpl. rewrite !app_nil_r. repeat split; auto.
  - inversion Ht as [|? ? [[t Hk] Hw] Ht']; subst. simpl in Hk. subst s.
    inversion Hg as [|? ? (Ne & Hu & Hs) Hg']; subst. simpl in Ne, Hu, Hs.
    unfold well_grouped in Hw. simpl in Hw.
    destruct docs as [|doc docs]; [congruence|].
    rewrite upload_groups_cons.
    destruct (batches_of_positive batch_size (doc :: docs) Hb) as (batches & B & C & L).
    rewrite B.
    assert (Hs1 : Forall (Forall (fun d => dget "사번" (metadata d)
                                           = Some (VScalar (SStr t)))) batches)
      by (apply (batches_of_Forall _ _ _ _ Hw B)).
    assert (Hu1 : Forall (Forall uploadable) batches)
      by (apply (batches_of_Forall _ _ _ _ Hu B)).
    assert (Hl1 : Forall (fun batch => length batch <= 2048) batches).
    { eapply Forall_impl; [|exact L]. simpl. intros b [L1 L2].
      simpl length in *. destruct Hs as [Hs|Hs]; lia. }
    destruct (upload_batches_success t ("employee_" ^^ t) batches st Hs1 Hu1 Hl1)
      as (st1 & U & N1 & V1 & T1).
    change (scalar_str (SStr t)) with t. rewrite U.
    destruct (IH st1 Ht' Hg') as (st' & -> & N & V & T).
    exists st'. split; [reflexivity|].
    unfold namespaces_of, grouped_documents in *. cbn [flat_map fst snd].
    unfold calls_for. rewrite B. change (scalar_str (SStr t)) with t.
    rewrite N, N1, V, V1, T, T1, C, map_app, length_app, <- !app_assoc.
    repeat split; lia.
Qed.

(** X14: when the two services answer every call, the batch size is
    positive and within the limit of the embedding service, and every
    document declares its owner as text and has a name, the upload returns
    and has stored exactly one vector per document: the ids of the stored
    vectors are the ids of the documents, employee by employee in the order
    the employees first occur, and the counter is the number of documents. *)
Theorem every_document_is_stored documents batch_size w :
  (0 < batch_size <= 2048)%Z ->
  documents <> [] ->
  Forall uploadable documents ->
  exists groups st,
    group_documents documents = Ok groups
    /\ upload_documents documents batch_size w = Uploaded st
    /\ map fst (upserted st) = namespaces_of batch_size groups
    /\ map vector_id (stored_vectors st) = map id (grouped_documents groups)
    /\ total_uploaded st = length documents.
Proof.
  intros [Hb Hm] Ne Hu.
  assert (Ht : Forall carries_text_sabon documents)
    by (eapply Forall_impl; [|exact Hu]; now intros d [C _]).
  destruct (group_documents_into_text documents [] Ht (Forall_nil _))
    as (groups & G & T & M).
  destruct (group_documents_into_shape _ _ _ G) as (L & Nn & Ng).
  specialize (Nn (Forall_nil _)). specialize (Ng Ne).
  assert (Hg : Forall (fun g => snd g <> [] /\ Forall uploadable (snd g)
                               /\ ((batch_size <= 2048)%Z \/ length (snd g) <= 2048))
                 groups).
  { apply Forall_forall. intros g I. split; [|split; [|now left]].
    - exact (proj1 (Forall_forall _ _) Nn g I).
    - apply Forall_forall. intros d Id.
      apply (proj1 (Forall_forall _ _) Hu).
      destruct (proj1 (M d)) as [Y|[]]; [|exact Y].
      unfold grouped_documents. apply in_flat_map. eauto. }
  destruct (upload_groups_success batch_size groups Hb (start w) T Hg)
    as (st & U & N & V & C).
  exists groups, st. split; [exact G|]. unfold upload_documents.
  fold (group_documents documents) in G. rewrite G.
  destruct groups as [|g groups]; [congruence|].
  split; [exact U|]. split; [exact N|]. split; [exact V|].
  rewrite C, L. simpl. lia.
Qed.

End UploadInvariants.

(* ------------------------------------------------------------------ *)
(** ** From the workbook to the index *)

Section Pipeline.

Context {F : Type} {PF : PyFloat F}.
Variable World : Type.
Variable embeddings_create : World -> list string -> World * Result (list (list F)).
Variable index_upsert : World -> list (Vector F) -> string -> World * bool.

#[local] Abbreviation upload_documents := (upload_documents World embeddings_create index_upsert).

Implicit Types (doc : Document F) (st : Employees F).




Hypothesis embeds : embeds_every_batch embeddings_create.
Hypothesis accepts : accepts_every_call index_upsert.


End Pipeline.

(* ------------------------------------------------------------------ *)
(** ** More of the text *)

Section RecordInvariants.

Context {F : Type} {PF : PyFloat F}.
Variable I : EmployeeDataStructure F -> Prop.

(** A property of single records that every write of the sheet passes
    keeps holds on all records of the mapping, whatever the sheets hold. *)
Lemma stable_records :
  I new_employee ->
  (forall s, I (with_sabon s new_employee)) ->
  (forall row s e, I e -> I (with_profile (profile_of row) (with_sabon s e))) ->
  (forall fin e, I e -> I (with_summary fin e)) ->
  (forall row c e, contract_of row = Ok c -> I e -> I (append_commission c e)) ->
  (forall row o e, override_of row = Ok o -> I e -> I (append_override o e)) ->
  (forall row o r e,
     override_of row = Ok o -> I e -> I (append_override (fc_override_of o r row) e)) ->
  (forall row p e, policy_of row = Ok p -> I e -> I (append_policy p e)) ->
  (forall field row e, I e -> I (append_performance (performance_of field row) e)) ->
  (forall al e, I e -> I (with_allowances al e)) ->
  (forall build row c e,
     In build clawback_literals -> build row = Ok c -> I e -> I (append_clawback c e)) ->
  Stable (fun st : Employees F => Forall (fun kv => I (snd kv)) st).
Proof.
  intros Hn Hs Hp Hf Hc Ho Hfc Hpo Hpe Ha Hcl. constructor.
  - intros s st H. now apply Forall_ensure.
  - intros s st H M. rewrite (dset_absent _ _ _ (proj1 (dmem_false _ _) M)).
    apply Forall_app. split; [exact H|]. repeat constructor. exact Hn.
  - intros row s st. apply Forall_dmodify. apply Hp.
  - intros row fin s st _. apply Forall_dmodify. apply Hf.
  - intros row c s st L. apply Forall_dmodify. intros e. now apply (Hc row).
  - intros row o s st L. apply Forall_dmodify. intros e. now apply (Ho row).
  - intros row o r s st L. apply Forall_dmodify. intros e. now apply (Hfc row).
  - intros row p s st L. apply Forall_dmodify. intros e. now apply (Hpo row).
  - intros field row s st. apply Forall_dmodify. apply Hpe.
  - intros category build row v s st _ _. apply Forall_dmodify. intros e. apply Ha.
  - intros row r s e e' st _ G A H.
    assert (Ie : I e).
    { apply dget_In in G. rewrite Forall_forall in H. apply (H _ G). }
    apply Forall_dmodify; [|exact H]. intros _ _.
    unfold append_retention in A.
    destruct (dget "13회차유지" _) as [[c|d|l]|]; try discriminate.
    injection A as <-. now apply Ha.
  - intros build row c s st Hin B. apply Forall_dmodify. intros e. now apply (Hcl build row).
Qed.

Lemma records_after_run (xl : Workbook F) st :
  Stable (fun st : Employees F => Forall (fun kv => I (snd kv)) st) ->
  (forall fin e, I e -> I (with_summary fin e)) ->
  process_all xl = Done st -> Forall (fun kv => I (snd kv)) st.
Proof.
  intros S Hf H. unfold process_all in H.
  apply andthen_done in H. destruct H as (st0 & H0 & H).
  pose proof (keeps_done _ _ _ _ (keeps_process_sheets _ S xl) (Forall_nil _) H0) as K.
  apply calculate_items_spec in H. clear H0.
  induction H as [|[s e] [s' e'] l l' [_ D] _ IH]; [constructor|].
  inversion K; subst. constructor; [|auto]. simpl in *.
  unfold derive in D.
  destruct (total_commission e); [|discriminate].
  destruct (total_override e); [|discriminate].
  destruct (total_policy e); [|discriminate].
  destruct (total_clawback e); [|discriminate].
  simpl in D. injection D as <-. now apply Hf.
Qed.

End RecordInvariants.

Section TextSections.

Context {F : Type} {PF : PyFloat F}.
Implicit Types (e : EmployeeDataStructure F) (st : Employees F).

(** *** The override section *)



(** *** The clawback section *)

Lemma sum_from_snoc (l : list (PyVal F)) x : forall acc,
  sum_from acc (l ++ [x]) = (t <- sum_from acc l ;; py_add_val t x).
Proof.
  induction l as [|a l IH]; intros acc; simpl.
  - destruct (py_add_val acc x); reflexivity.
  - destruct (py_add_val acc a); simpl; [apply IH|reflexivity].
Qed.

Lemma total_add_tracks k (c : Entry F) totals groups totals' :
  totals_of_groups totals groups ->
  total_add k (field_or0 "환수금액" c) totals = Ok totals' ->
  totals_of_groups totals' (group_add k c groups).
Proof.
  intros R. revert totals'. unfold totals_of_groups in *.
  induction R as [|[k1 t] [k2 xs] totals groups [K S] R IH]; intros totals';
    cbn [total_add group_add].
  - destruct (py_add_val (SInt 0) _) as [v|?] eqn:A; cbn [bind]; [|discriminate].
    intros [= <-]. repeat constructor. simpl. unfold py_sum. simpl. now rewrite A.
  - simpl in K, S. subst k2. destruct (scalar_eqb k1 k).
    + destruct (py_add_val t _) as [v|?] eqn:A; cbn [bind]; [|discriminate].
      intros [= <-]. constructor; [|assumption]. split; [reflexivity|]. simpl.
      unfold py_sum in *. rewrite map_app. simpl. rewrite sum_from_snoc, S.
      exact A.
    + destruct (total_add k _ totals) as [rest|?]; cbn [bind]; [|discriminate].
      intros [= <-]. constructor; [now split|]. now apply IH.
Qed.

Lemma totals_into_tracks (cs : list (Entry F)) : forall totals groups totals',
  totals_of_groups totals groups ->
  totals_into cs totals = Ok totals' ->
  exists groups',
    group_into "환수유형" cs groups = Ok groups'
    /\ totals_of_groups totals' groups'.
Proof.
  induction cs as [|c cs IH]; intros totals groups totals' R; cbn [totals_into group_into].
  - intros [= <-]. eauto.
  - destruct (hashable _) as [k|?]; cbn [bind]; [|discriminate].
    destruct (total_add k _ totals) as [t1|?] eqn:A; cbn [bind]; [|discriminate].
    apply IH. now apply (total_add_tracks k c totals groups).
Qed.

Lemma total_lines_of_keys (cs : list (Entry F)) (l : list string) : forall totals ls,
  totals_of_groups totals (map (fun k => (SStr k, with_key "환수유형" k cs)) l) ->
  total_lines totals = Ok ls ->
  Forall2 (type_total_line cs) l ls.
Proof.
  induction l as [|k l IH]; intros totals ls R; inversion R as [|[k1 t] ? ? ? [K S] R']; subst.
  - intros [= <-]. constructor.
  - cbn [total_lines]. simpl in K, S. subst k1.
    destruct (fmt0 _) as [shown|?] eqn:Sh; cbn [bind]; [|discriminate].
    destruct (total_lines _) as [more|?] eqn:M; cbn [bind]; [|discriminate].
    intros [= <-]. constructor; [|now apply (IH _ _ R')].
    exists t, shown. repeat split; auto.
Qed.

Lemma clawback_lines_section e ls :
  Forall (has_text_key "환수유형") (clawback_records e) ->
  clawback_records e <> [] ->
  clawback_lines e = Ok ls ->
  clawback_section (clawback_records e) ls.
Proof.
  intros H N. unfold clawback_lines.
  destruct (clawback_records e) as [|c cs] eqn:E; [contradiction|].
  destruct (py_sum _) as [total|?] eqn:S; cbn [bind]; [|discriminate].
  destruct (fmt0 _) as [shown|?] eqn:Sh; cbn [bind]; [|discriminate].
  destruct (totals_into (c :: cs) []) as [totals|?] eqn:T; cbn [bind]; [|discriminate].
  destruct (total_lines totals) as [groups|?] eqn:G; cbn [bind]; [|discriminate].
  intros [= <-]. exists total, shown, groups. repeat split; auto.
  destruct (totals_into_tracks (c :: cs) [] [] totals (Forall2_nil _) T)
    as (groups' & Gi & R).
  pose proof (group_by_text_key "환수유형" (c :: cs) H) as Gk.
  unfold group_by in Gk. rewrite Gk in Gi. injection Gi as <-.
  apply (total_lines_of_keys (c :: cs) _ totals groups R G).
Qed.

Lemma clawback_tagged_text (c : Entry F) :
  clawback_tagged c -> has_text_key "환수유형" c.
Proof.
  intros (t & _ & D). unfold has_text_key, text_key, dget_or. now rewrite D.
Qed.

Lemma clawback_literal_tagged build row (c : Entry F) :
  In build clawback_literals -> build row = Ok c -> clawback_tagged c.
Proof.
  unfold clawback_literals, clawback_tagged, clawback_types. simpl.
  intros [<-|[<-|[<-|[]]]] B.
  - exists "시책2지급분". split; [tauto|]. apply (literal_get _ _ _ _ B). reflexivity.
  - exists "소개비". split; [tauto|]. apply (literal_get _ _ _ _ B). reflexivity.
  - exists "교육비". split; [tauto|]. apply (literal_get _ _ _ _ B). reflexivity.
Qed.

Lemma clawbacks_tagged_after_run (xl : Workbook F) st :
  process_all xl = Done st ->
  Forall (fun kv => Forall clawback_tagged (clawback_records (snd kv))) st.
Proof.
  apply (records_after_run (fun e => Forall clawback_tagged (clawback_records e)));
    [|intros fin e H; exact H].
  apply (stable_records (fun e => Forall clawback_tagged (clawback_records e)));
    try (intros; assumption); try (intros; constructor).
  intros build row c e Hin B H. simpl. apply Forall_app. split; [exact H|].
  repeat constructor. now apply (clawback_literal_tagged build row).
Qed.

Lemma first_seen_length (l : list string) (among : list string) :
  (forall k, In k l -> In k among) -> length (first_seen l) <= length among.
Proof.
  intros H. apply NoDup_incl_length; [apply first_seen_NoDup|].
  intros k Ik. apply H. now apply first_seen_In.
Qed.

(** X17: in the text of every record [process_all] returns, the clawback
    section shows the number of clawback entries, the sum of all their
    amounts, and one line per clawback type in the order the types first
    occur, with the sum of the amounts of that type.  Every entry carries
    the tag of the sheet it comes from, so there are at most three such
    lines. *)
Theorem clawback_section_totals_by_type (xl : Workbook F) st s e :
  process_all xl = Done st -> dget s st = Some e -> clawback_records e <> [] ->
  Forall clawback_tagged (clawback_records e)
  /\ exists ls,
       clawback_lines e = Ok ls
       /\ clawback_section (clawback_records e) ls
       /\ length ls <= 5.
Proof.
  intros H G N.
  pose proof (clawbacks_tagged_after_run xl st H) as Tg.
  rewrite Forall_forall in Tg. specialize (Tg _ (dget_In _ _ _ G)). simpl in Tg.
  split; [exact Tg|].
  pose proof (process_all_typed xl st H) as Ty.
  unfold all_typed in Ty. rewrite Forall_forall in Ty.
  specialize (Ty _ (dget_In _ _ _ G)). simpl in Ty.
  destruct (clawback_lines_total e Ty) as (ls & L). exists ls. split; [exact L|].
  assert (Hk : Forall (has_text_key "환수유형") (clawback_records e))
    by (eapply Forall_impl; [|exact Tg]; apply clawback_tagged_text).
  pose proof (clawback_lines_section e ls Hk N L) as Sec. split; [exact Sec|].
  destruct Sec as (total & shown & groups & _ & _ & -> & F2).
  apply Forall2_length in F2. rewrite length_app. simpl. rewrite <- F2.
  assert (B : length (first_seen (map (text_key "환수유형") (clawback_records e)))
              <= length clawback_types).
  { apply first_seen_length. intros k Ik. apply in_map_iff in Ik.
    destruct Ik as (c & <- & Ic). rewrite Forall_forall in Tg.
    destruct (Tg c Ic) as (t & It & D). unfold text_key, dget_or. now rewrite D. }
  simpl in B. lia.
Qed.

(** *** Allowances that are lists *)

Lemma allowance_items_list_set k (l l' : list (PyVal F)) (a : dict (PyVal F)) :
  dget k a = Some (VList l) ->
  allowance_items (dset k (VList l') a) = allowance_items a.
Proof.
  induction a as [|[k' v] a IH]; simpl; [discriminate|].
  destruct (k =? k') eqn:E.
  - intros [= ->]. reflexivity.
  - intros G. cbn [allowance_items]. now rewrite (IH G).
Qed.

Lemma allowance_items_list_new k (l : list (PyVal F)) (a : dict (PyVal F)) :
  allowance_items (a ++ [(k, VList l)]) = allowance_items a.
Proof.
  induction a as [|[k' v] a IH]; [reflexivity|].
  cbn [app allowance_items]. rewrite IH. destruct (allowance_line k' v); cbn [bind];
    [|reflexivity].
  destruct (allowance_items a); cbn [bind]; reflexivity.
Qed.

Lemma dset_nonempty {V} k (v : V) (d : dict V) : dset k v d <> [].
Proof. destruct d as [|[k' v'] d]; simpl; [|destruct (k =? k')]; discriminate. Qed.

Lemma allowance_lines_same e1 e2 :
  additional_allowances e1 <> [] -> additional_allowances e2 <> [] ->
  allowance_items (additional_allowances e1) = allowance_items (additional_allowances e2) ->
  allowance_lines e1 = allowance_lines e2.
Proof.
  unfold allowance_lines.
  destruct (additional_allowances e1); [contradiction|].
  destruct (additional_allowances e2); [contradiction|].
  now intros _ _ ->.
Qed.

(** X18: the retention bonuses never reach the text.  Appending a
    retention entry to a record that already has an allowance leaves the
    text of the record as it was; on a record without allowances it adds
    the bare header of the allowance section and nothing under it. *)
Theorem retention_entries_are_not_rendered (r : Entry F) e e' :
  append_retention r e = Ok e' ->
  (additional_allowances e <> [] ->
     to_text_for_embedding e' = to_text_for_embedding e)
  /\ (additional_allowances e = [] -> allowance_lines e' = Ok [allowance_header]).
Proof.
  unfold append_retention. intros A. split.
  - intros N.
    assert (L : allowance_lines e' = allowance_lines e
                /\ exists al, e' = with_allowances al e).
    { destruct (dmem "13회차유지" (additional_allowances e)) eqn:M.
      - destruct (dget "13회차유지" (additional_allowances e)) as [[c|d|l]|] eqn:G;
          try discriminate.
        injection A as <-. split; [|eauto].
        apply allowance_lines_same; [apply dset_nonempty|exact N|].
        apply (allowance_items_list_set _ _ _ _ G).
      - apply dmem_false in M. rewrite (dset_absent _ _ _ M) in A.
        rewrite dget_app_absent in A by exact M. simpl in A. injection A as <-.
        split; [|eauto].
        apply allowance_lines_same; [apply dset_nonempty|exact N|].
        cbn [additional_allowances with_allowances].
        assert (D : dget "13회차유지" (additional_allowances e ++ [("13회차유지", VList [])])
                    = Some (VList (@nil (PyVal F))))
          by (rewrite dget_app_absent by exact M; reflexivity).
        now rewrite (allowance_items_list_set _ _ _ _ D), allowance_items_list_new. }
    destruct L as (L & al & ->).
    unfold to_text_for_embedding, text_parts. rewrite L. reflexivity.
  - intros Ea. rewrite Ea in A. simpl in A. injection A as <-. reflexivity.
Qed.

End TextSections.

(* ------------------------------------------------------------------ *)
(** ** Vectors *)

Section VectorFacts.

Context {F : Type} {PF : PyFloat F}.
Implicit Types (doc : Document F).

Lemma carried_over_keys doc k :
  In k (keys (carried_over doc)) -> In k (keys (metadata doc)) /\ reserved k = false.
Proof.
  unfold carried_over, keys. intros H. apply in_map_iff in H.
  destruct H as ([k' v] & <- & I). apply filter_In in I. destruct I as [I C].
  apply andb_true_iff in C. destruct C as [C _]. apply negb_true_iff in C.
  split; [|exact C]. apply in_map_iff. now exists (k', v).
Qed.

Lemma NoDup_keys_filter {V} (p : string * V -> bool) (d : dict V) :
  NoDup (keys d) -> NoDup (keys (filter p d)).
Proof.
  unfold keys. induction d as [|[k v] d IH]; simpl; intros N; [constructor|].
  inversion N as [|? ? NI N']; subst. destruct (p (k, v)); simpl; [|auto].
  constructor; [|auto]. intros I. apply NI. apply in_map_iff in I.
  destruct I as (kv & E & I). apply filter_In in I. apply in_map_iff.
  exists kv. tauto.
Qed.

(** X19: the vector of a document carries the id and the embedding, and
    as metadata the three reserved keys 사번, 사원명 and doc_type followed by
    the other metadata of the document in its order, without the entries
    that are [None]: besides 사번 and 사원명 no [None] reaches the index, and
    keys that are distinct in the document are distinct in the vector.  A
    document without 사번 or without 사원명 has no vector: the [KeyError] of
    the missing key is raised. *)
Theorem vector_carries_the_metadata doc (embedding : list F) :
  (forall v,
     vector_of doc embedding = Ok v ->
     vector_id v = id doc
     /\ vector_values v = embedding
     /\ (exists s name,
           dget "사번" (metadata doc) = Some s
           /\ dget "사원명" (metadata doc) = Some name
           /\ vector_metadata v
              = [("사번", s); ("사원명", name); ("doc_type", vstr (doc_type doc))]
                  ++ carried_over doc)
     /\ (forall k x,
           In (k, x) (vector_metadata v) -> is_none x = true ->
           k = "사번" \/ k = "사원명")
     /\ (NoDup (keys (metadata doc)) -> NoDup (keys (vector_metadata v))))
  /\ (forall x,
        vector_of doc embedding = Err x ->
        (x = KeyError "사번" /\ dget "사번" (metadata doc) = None)
        \/ (x = KeyError "사원명" /\ dget "사원명" (metadata doc) = None)).
Proof.
  unfold vector_of, meta_item. split.
  - intros v.
    destruct (dget "사번" (metadata doc)) as [s|]; cbn [bind]; [|discriminate].
    destruct (dget "사원명" (metadata doc)) as [name|]; cbn [bind]; [|discriminate].
    intros [= <-]. cbn [vector_id vector_values vector_metadata].
    split; [reflexivity|]. split; [reflexivity|]. split; [eauto|]. split.
    + intros k x I N. cbn [app] in I.
      destruct I as [E|[E|[E|I]]]; try (injection E as <- <-; auto).
      * discriminate.
      * apply filter_In in I. destruct I as [_ C]. simpl in C.
        rewrite N in C. now rewrite andb_false_r in C.
    + intros N.
      change (NoDup ("사번" :: "사원명" :: "doc_type" :: keys (carried_over doc))).
      pose proof (NoDup_keys_filter
                    (fun kv => negb (reserved (fst kv)) && negb (is_none (snd kv)))
                    _ N) as Nf.
      assert (R : forall k, reserved k = true ->
                            ~ In k (keys (carried_over doc))).
      { intros k Rk I. apply carried_over_keys in I. destruct I as [_ I]. congruence. }
      repeat constructor; try exact Nf.
      * intros [E|[E|I]]; try discriminate. revert I. now apply R.
      * intros [E|I]; try discriminate. revert I. now apply R.
      * now apply R.
  - intros x.
    destruct (dget "사번" (metadata doc)) as [s|]; cbn [bind];
      [|intros [= <-]; left; now split].
    destruct (dget "사원명" (metadata doc)) as [name|]; cbn [bind]; [discriminate|].
    intros [= <-]. right. now split.
Qed.

End VectorFacts.

(* ------------------------------------------------------------------ *)
(** ** The connection *)

Lemma find_named name indexes idx :
  named_index name indexes = Some idx ->
  In idx indexes /\ index_model_name idx = name.
Proof.
  unfold named_index. intros H. apply find_some in H. destruct H as [I E].
  apply String.eqb_eq in E. tauto.
Qed.

(** A configuration [setup_index] returns keeps the name and has the
    dimension of the first index of that name. *)
Lemma setup_index_returns (u u' : UploaderConfig) indexes :
  setup_index (Ok indexes) u = Ok u' ->
  index_name u' = index_name u
  /\ exists idx,
       named_index (index_name u) indexes = Some idx
       /\ dimension u' = index_model_dimension idx.
Proof.
  unfold named_index, setup_index. cbn [bind].
  destruct (find _ indexes) as [idx|]; [|discriminate].
  destruct (index_model_dimension idx =? dimension u)%Z eqn:D; cbn [negb].
  - intros [= <-]. apply Z.eqb_eq in D. eauto.
  - intros [= <-]. cbn [index_name dimension]. eauto.
Qed.

(** X20: [setup_index] returns exactly when the service lists an index of
    the configured name; of several it takes the first.  The configuration
    it returns has the dimension of that index; the model is replaced by
    text-embedding-3-small only when the dimension had to be changed and is
    now 1536; and a second run on the returned configuration changes
    nothing.  Without such an index it raises [ValueError], and an
    exception of the service is raised again. *)
Theorem setup_index_follows_the_index (u : UploaderConfig) :
  (forall indexes,
     match named_index (index_name u) indexes with
     | Some idx =>
         exists u',
           setup_index (Ok indexes) u = Ok u'
           /\ index_name u' = index_name u
           /\ dimension u' = index_model_dimension idx
           /\ embedding_model u'
              = (if negb (index_model_dimension idx =? dimension u)%Z
                    && (index_model_dimension idx =? 1536)%Z
                 then "text-embedding-3-small"
                 else embedding_model u)
           /\ setup_index (Ok indexes) u' = Ok u'
     | None =>
         setup_index (Ok indexes) u
         = Err (ValueError ("Index '" ^^ index_name u ^^ "' does not exist"))
     end)
  /\ (forall x, setup_index (Err x) u = Err x).
Proof.
  split; [|reflexivity]. intros indexes. unfold named_index, setup_index.
  cbn [bind].
  destruct (find _ indexes) as [idx|] eqn:E; [|reflexivity].
  destruct (index_model_dimension idx =? dimension u)%Z eqn:D; cbn [negb andb].
  - exists u. rewrite E, D. apply Z.eqb_eq in D. repeat split; auto.
  - eexists. split; [reflexivity|]. cbn [index_name dimension embedding_model].
    rewrite E, Z.eqb_refl. cbn [negb]. repeat split; reflexivity.
Qed.

(** X21: the construction of the uploader goes on after
    [validate_environment] exactly when both keys are set to a value that
    is not empty; a key set to the empty string counts as missing.
    Otherwise it ends in [sys.exit(1)] before a client is built or the
    index service is asked, whatever they would have answered.  An
    uploader that is connected has both keys, the name it was given and
    the dimension of the first index of that name. *)
Theorem uploader_needs_both_keys (environ : Environ) :
  (validate_environment environ = None
   <-> is_set environ "PINECONE_API_KEY" /\ is_set environ "OPENAI_API_KEY")
  /\ (validate_environment environ <> None ->
        forall clients list_indexes open_index name model d,
          connect environ clients list_indexes open_index name model d = Exited 1)
  /\ (forall clients list_indexes open_index name model d u,
        connect environ clients list_indexes open_index name model d = Connected u ->
        (is_set environ "PINECONE_API_KEY" /\ is_set environ "OPENAI_API_KEY")
        /\ index_name u = name
        /\ exists indexes idx,
             list_indexes = Ok indexes
             /\ named_index name indexes = Some idx
             /\ dimension u = index_model_dimension idx).
Proof.
  assert (S : forall var,
            is_set environ var
            <-> match environ var with
                | Some value => value =? ""
                | None => true
                end = false).
  { intros var. unfold is_set. destruct (environ var) as [value|].
    - rewrite String.eqb_neq. split; [now intros (v & [= <-] & N)|eauto].
    - split; [now intros (v & E & _)|discriminate]. }
  assert (V : validate_environment environ = None
              <-> is_set environ "PINECONE_API_KEY" /\ is_set environ "OPENAI_API_KEY").
  { rewrite !S. unfold validate_environment, missing_variables. cbn [filter].
    destruct (match environ "PINECONE_API_KEY" with Some v => v =? "" | None => true end);
      destruct (match environ "OPENAI_API_KEY" with Some v => v =? "" | None => true end);
      split; try discriminate; try tauto; intros [A B]; discriminate. }
  split; [exact V|split].
  - intros N clients list_indexes open_index name model d. unfold connect.
    destruct (validate_environment environ) as [code|] eqn:E; [|congruence].
    unfold validate_environment in E.
    destruct (missing_variables environ); [discriminate|]. now injection E as <-.
  - intros clients list_indexes open_index name model d u. unfold connect.
    destruct (validate_environment environ) as [code|] eqn:E; [discriminate|].
    destruct clients as [[]|x]; cbn [bind]; [|discriminate].
    destruct list_indexes as [indexes|x]; [|discriminate].
    destruct (setup_index (Ok indexes) _) as [u'|x] eqn:Su; cbn [bind];
      [|discriminate].
    destruct open_index as [[]|x]; cbn [bind]; [|discriminate].
    intros [= <-]. apply setup_index_returns in Su.
    destruct Su as (Nu & idx & Nm & Du). cbn [index_name] in Nu, Nm.
    split; [now apply V|]. split; [exact Nu|]. exists indexes, idx. auto.
Qed.

(* ------------------------------------------------------------------ *)
(** ** Cells *)

Section CellFacts.

Context {F : Type} {PF : PyFloat F}.
Implicit Types (row : Row F) (st : Employees F).

Lemma dget_combine_In k cols : forall (cells : list (Scalar F)) c,
  dget k (combine cols cells) = Some c -> In c cells.
Proof.
  induction cols as [|col cols IH]; intros cells c; simpl; [discriminate|].
  destruct cells as [|x cells]; [discriminate|]. simpl.
  destruct (k =? col).
  - intros [= ->]. now left.
  - intros H. right. now apply IH.
Qed.

(** X22: a sheet read by [safe_read_sheet] holds no NaN: in each of its
    rows, [pd.notna] of a cell says whether the cell is not [None], also
    for a column the sheet does not have, and a cell that is a float is
    not NaN. *)
Theorem read_sheets_hold_no_nan (xl : Workbook F) name header :
  Forall
    (fun row =>
       forall k,
         notna (row_get row k) = is_not_none (row_get row k)
         /\ forall x, row_get row k = SFloat x -> f_isnan x = false)
    (iterrows (safe_read_sheet xl name header)).
Proof.
  apply Forall_forall. intros row I k.
  assert (C : row_get row k = SNone
              \/ exists c, row_get row k = nan_to_none c).
  { unfold safe_read_sheet in I. destruct (xl name header) as [df|].
    - unfold iterrows, replace_nan in I. simpl in I.
      apply in_map_iff in I. destruct I as (cells & <- & Ic).
      apply in_map_iff in Ic. destruct Ic as (cells0 & <- & _).
      unfold row_get, dget_or.
      destruct (dget k _) as [c|] eqn:G; [|now left]. right.
      apply dget_combine_In in G. apply in_map_iff in G.
      destruct G as (c0 & <- & _). eauto.
    - destruct I. }
  destruct C as [->|(c & ->)]; [split; [reflexivity|discriminate]|].
  destruct c as [|b|z|x|s|s]; simpl; try (split; [reflexivity|discriminate]).
  destruct (f_isnan x) eqn:N; simpl.
  - split; [reflexivity|discriminate].
  - rewrite N. split; [reflexivity|]. now intros y [= <-].
Qed.

(** X23: the defaults of the literals.  A numeric field whose cell is
    blank (no such column, an empty cell, an empty text, zero or [False])
    is the float 0, or the integer 0 for a count; the literal never holds
    [None] there.  A blank date field is [None], while a field written
    with a bare [str] holds the text "None" for an empty cell. *)
Theorem blank_cells_take_the_default row k :
  (blank row k ->
     cell_float row k = Ok (VScalar (SFloat (f_of_int 0)))
     /\ cell_int row k = Ok (vint 0)
     /\ amount row k = Ok (SFloat (f_of_int 0)))
  /\ (forall v, cell_float row k = Ok v -> exists x, v = VScalar (SFloat x))
  /\ (forall v, cell_int row k = Ok v -> exists z, v = vint z)
  /\ (row_get row k = SNone ->
        cell_str_notna row k = Ok vnone /\ cell_str row k = Ok (vstr "None")).
Proof.
  split; [|split; [|split]].
  - unfold blank, cell_float, cell_int, amount, row_get0, dget_or, or0.
    intros [H|[H|[H|[H|H]]]]; rewrite H; repeat split; reflexivity.
  - unfold cell_float. intros v. destruct (py_float _) as [x|?]; cbn [bind]; [|discriminate].
    intros [= <-]. eauto.
  - unfold cell_int. intros v. destruct (py_int _) as [z|?]; cbn [bind]; [|discriminate].
    intros [= <-]. eauto.
  - intros H. unfold cell_str_notna, cell_str. rewrite H. split; reflexivity.
Qed.

(** *** Rows that raise half-way *)

(** X24: a row that raises leaves behind what it wrote before.  A roster
    row whose amounts cannot be converted has already replaced the
    identifier and the profile of its record, the summary is the old one.
    An override row without the FC column has filed the receiver's entry
    and not the copy.  A commission or policy row whose literal raises has
    created the record it names and appended nothing. *)
Theorem failing_rows_are_partly_applied row st :
  (forall c x,
     row_item row "사번" = Ok c -> financials_of row = Err x ->
     exists st',
       individual_statement_row row st = Raise x st'
       /\ dget (scalar_str c) st'
          = Some (with_profile (profile_of row)
                    (with_sabon (scalar_str c) (record_of (scalar_str c) st))))
  /\ (forall c o,
        row_item row "[오버라이드] 대상자사번" = Ok c -> override_of row = Ok o ->
        dget "[FC] 대상자사번" row = None ->
        exists st',
          override_record_row row st = Raise (KeyError "[FC] 대상자사번") st'
          /\ overrides_of (scalar_str c) st' = overrides_of (scalar_str c) st ++ [o]
          /\ override_entries st' = override_entries st + 1)
  /\ (forall c x,
        row_item row "지급사원번호" = Ok c -> contract_of row = Err x ->
        commission_contract_row row st = Raise x (ensure (scalar_str c) st))
  /\ (forall c x,
        row_item row "사번" = Ok c -> policy_of row = Err x ->
        policy_contract_row row st = Raise x (ensure (scalar_str c) st)).
Proof.
  split; [|split; [|split]].
  - intros c x I E. unfold individual_statement_row, update_with. rewrite I, E.
    eexists. split; [reflexivity|]. set (k := scalar_str c).
    assert (G : dget k (if dmem k st then st else dset k new_employee st)
                = Some (record_of k st)).
    { unfold record_of, field_of, dmem. destruct (dget k st) as [e0|] eqn:G.
      - exact G.
      - apply dget_dset_same. }
    now rewrite (dget_dmodify_same _ _ _ _ G).
  - intros c o I E G. unfold override_record_row, row_item at 2. rewrite I, E, G.
    eexists. split; [reflexivity|]. split.
    + rewrite overrides_of_append by apply dmem_ensure.
      now rewrite overrides_of_ensure.
    + rewrite override_entries_append by apply dmem_ensure.
      rewrite override_entries_ensure. lia.
  - intros c x I E. unfold commission_contract_row, update_with. now rewrite I, E.
  - intros c x I E. unfold policy_contract_row, update_with. now rewrite I, E.
Qed.

(** *** The storage form *)

Lemma map_VDict_inj (l l' : list (Entry F)) :
  map (@VDict F) l = map (@VDict F) l' -> l = l'.
Proof.
  revert l'. induction l as [|a l IH]; intros [|b l']; simpl; try discriminate;
    [reflexivity|].
  intros [= -> H]. f_equal. now apply IH.
Qed.

Lemma map_VScalar_inj (d d' : dict (Scalar F)) :
  map (fun kv => (fst kv, VScalar (snd kv))) d
  = map (fun kv => (fst kv, VScalar (snd kv))) d' -> d = d'.
Proof.
  revert d'. induction d as [|[k v] d IH]; intros [|[k' v'] d']; simpl;
    try discriminate; [reflexivity|].
  intros [= -> -> H]. f_equal. now apply IH.
Qed.

(** X25: [to_dict] loses nothing: it files the nine fields of the record
    under nine fixed keys, and two records with the same storage form are
    the same record. *)
Theorem to_dict_keeps_the_record (e e' : EmployeeDataStructure F) :
  keys (to_dict e)
  = [ "sabon"; "employee_profile"; "commission_contracts"; "override_records";
      "policy_contracts"; "performance_records"; "additional_allowances";
      "clawback_records"; "summary_financials" ]
  /\ (to_dict e = to_dict e' -> e = e').
Proof.
  split; [reflexivity|]. destruct e, e'. unfold to_dict. simpl.
  intros [= -> -> C O P Pf -> Cl S].
  apply map_VDict_inj in C, O, P, Pf, Cl. apply map_VScalar_inj in S.
  now subst.
Qed.

End CellFacts.

(* ------------------------------------------------------------------ *)
(** ** The properties on the sample sheets *)

Lemma embed_fixed_answers : embeds_every_batch embed_fixed.
Proof.
  intros w texts _. exists w, (map (fun _ => [1%Z; 0%Z]) texts).
  split; [reflexivity|apply length_map].
Qed.

Lemma upsert_accepts_answers : accepts_every_call upsert_accepts.
Proof. intros w vectors namespace. now exists w. Qed.

Lemma commission_entries_follow_the_sheet_witness :
  process_all outside_book = Done outside_employees
  /\ map (dget "보험사") (commissions_of "999" outside_employees)
     = [Some (vstr "A생명"); Some (vstr "B화재")]
  /\ commissions_of "555" outside_employees = [].
Proof.
  assert (H : process_all outside_book = Done outside_employees)
    by (vm_compute; reflexivity).
  split; [exact H|].
  destruct (commission_entries_follow_the_sheet outside_book outside_employees H)
    as [_ E].
  rewrite !E. split; vm_compute; reflexivity.
Defined.

Lemma policy_entries_follow_the_sheet_witness :
  process_all outside_book = Done outside_employees
  /\ map (dget "지급시책_합계") (policies_of "101" outside_employees)
     = map (dget "지급시책_합계")
         (entries_for "사번" policy_of "101" (policy_rows outside_book))
  /\ length (policies_of "101" outside_employees) = 1.
Proof.
  assert (H : process_all outside_book = Done outside_employees)
    by (vm_compute; reflexivity).
  split; [exact H|].
  destruct (policy_entries_follow_the_sheet outside_book outside_employees H)
    as [_ E].
  rewrite !E. split; vm_compute; reflexivity.
Defined.

Lemma roster_last_row_wins_witness :
  process_individual_statements outside_book [] = Done outside_roster
  /\ match last_keyed "사번" "101" (roster_rows outside_book) with
     | Some row =>
         exists fin,
           financials_of row = Ok fin
           /\ dget "101" outside_roster
              = Some (refreshed row fin "101" (record_of "101" []))
     | None => dget "101" outside_roster = dget "101" []
     end.
Proof.
  split; [vm_compute; reflexivity|].
  apply (roster_last_row_wins outside_book [] outside_roster).
  vm_compute; reflexivity.
Defined.

Lemma profile_comes_from_the_roster_witness :
  (process_all outside_book = Done outside_employees
   /\ dget "999" outside_employees = Some outside_record)
  /\ sabon outside_record = "999"
  /\ match last_keyed "사번" "999" (roster_rows outside_book) with
     | Some row => employee_profile outside_record = profile_of row
     | None =>
         employee_profile outside_record = []
         /\ (forall parts,
               text_parts outside_record = Ok parts ->
               exists rest, parts = summary_header :: rest)
         /\ (forall doc,
               profile_document "999" outside_record = Ok doc ->
               dget "사원명" (metadata doc) = Some (vstr ""))
     end.
Proof.
  split; [split; vm_compute; reflexivity|].
  apply (profile_comes_from_the_roster outside_book outside_employees);
    vm_compute; reflexivity.
Defined.

Lemma required_sheet_missing_or_unkeyed_witness :
  process_commission_contracts unkeyed_book [] = Raise (KeyError "지급사원번호") []
  /\ process_all (book []) = Done [].
Proof.
  destruct (@required_sheet_missing_or_unkeyed Z integral_floats) as [Sheets Empty].
  split.
  - refine (proj2 (proj2 (Sheets "건별수수료" "지급사원번호" process_commission_contracts
                            _ unkeyed_book []))
              (sheet ["보험사"] [ [SStr "A생명"] ]) eq_refl eq_refl _).
    + right; left; reflexivity.
    + discriminate.
  - apply Empty. reflexivity.
Defined.

Lemma blank_identifier_is_filed_under_None_witness :
  row_item blank_commission_row "지급사원번호" = Ok SNone
  /\ (exists c,
        contract_of blank_commission_row = Ok c
        /\ commissions_of "None"
             (state_of (commission_contract_row blank_commission_row outside_employees))
           = [c]
        /\ commissions_of "999"
             (state_of (commission_contract_row blank_commission_row outside_employees))
           = commissions_of "999" outside_employees)
  /\ keyed (sheet ["사번"; "지급액"] []) "사번" blank_clawback_row
       (clawback_row clawback_policy_of blank_clawback_row) []
     = Done [].
Proof.
  destruct (@blank_identifier_is_filed_under_None Z integral_floats)
    as (_ & Commission & _ & _ & _ & Optional & _).
  split; [reflexivity|]. split.
  - assert (H : commission_contract_row blank_commission_row outside_employees
                = Done (state_of (commission_contract_row blank_commission_row
                                    outside_employees)))
      by (vm_compute; reflexivity).
    destruct (Commission blank_commission_row outside_employees _ eq_refl H)
      as (c & C & E & Other).
    exists c. split; [exact C|]. split.
    + rewrite E. assert (N : commissions_of "None" outside_employees = [])
        by (vm_compute; reflexivity).
      now rewrite N.
    + apply Other. discriminate.
  - refine (Optional {| os_name := "환수_시책2지급분_완료"; os_header := 5;
                        os_key := "사번";
                        os_body := clawback_row clawback_policy_of |}
              _ (sheet ["사번"; "지급액"] []) blank_clawback_row [] eq_refl).
    apply in_or_app. right. left. reflexivity.
Defined.

Lemma lists_only_grow_witness :
  calculate_aggregated_financials sample_sources = Done sample_employees
  /\ kept grown sample_sources sample_employees
  /\ keys sample_employees = keys sample_sources.
Proof.
  split; [vm_compute; reflexivity|].
  apply (proj2 (proj2 (proj2 (lists_only_grow sample_book sample_sources)))).
  vm_compute; reflexivity.
Defined.

Lemma report_reconciles_with_the_sheets_witness :
  process_all outside_book = Done outside_employees
  /\ count_records commission_contracts outside_employees = 3
  /\ count_records override_records outside_employees = 6
  /\ count_records policy_contracts outside_employees = 2
  /\ count_records performance_records outside_employees = 4
  /\ snd (print_summary outside_employees) = None.
Proof.
  assert (H : process_all outside_book = Done outside_employees)
    by (vm_compute; reflexivity).
  split; [exact H|].
  destruct (report_reconciles_with_the_sheets outside_book outside_employees H)
    as (C & O & P & Pf & payments & commissions & overrides & Printed).
  rewrite C, O, P, Pf, Printed. repeat split.
Defined.

Lemma stored_vectors_are_isolated_witness :
  In ("employee_1001", [vector_without_branch; vector_without_branch])
    (("employee_1001", [vector_without_branch; vector_without_branch])
       :: upserted sample_upload)
  /\ forall namespace vectors v,
       In (namespace, vectors) (upserted sample_upload) ->
       In v vectors ->
       dget "사번" (vector_metadata v) = Some (vstr "2002") ->
       namespace = "employee_2002".
Proof.
  split; [now left|].
  intros namespace vectors v I Iv G.
  exact (proj2 (stored_vectors_are_isolated unit embed_fixed upsert_accepts
                  sample_documents 2 tt)
           namespace vectors v "2002" I Iv G).
Defined.

Lemma only_the_script_ends_an_upload_witness :
  upload_documents unit embed_fixed upsert_accepts [nameless_document] 1 tt
  = Aborted (KeyError "사원명") (start tt)
  /\ raised_by_the_script (KeyError "사원명").
Proof.
  assert (H : upload_documents unit embed_fixed upsert_accepts [nameless_document] 1 tt
              = Aborted (KeyError "사원명") (start tt))
    by (vm_compute; reflexivity).
  split; [exact H|].
  exact (only_the_script_ends_an_upload unit embed_fixed upsert_accepts
           [nameless_document] 1 tt _ _ H).
Defined.


Lemma every_document_is_stored_witness :
  Forall uploadable sample_documents
  /\ exists groups st,
       group_documents sample_documents = Ok groups
       /\ upload_documents unit embed_fixed upsert_accepts sample_documents 2 tt
          = Uploaded st
       /\ map fst (upserted st) = namespaces_of 2 groups
       /\ map vector_id (stored_vectors st) = map id (grouped_documents groups)
       /\ total_uploaded st = 3.
Proof.
  assert (U : Forall uploadable sample_documents).
  { repeat (apply Forall_cons;
            [split; [eexists; reflexivity|reflexivity]|]).
    apply Forall_nil. }
  split; [exact U|].
  apply (every_document_is_stored unit embed_fixed upsert_accepts
           embed_fixed_answers upsert_accepts_answers sample_documents 2 tt).
  - lia.
  - discriminate.
  - exact U.
Defined.



Lemma clawback_section_totals_by_type_witness :
  (process_all outside_book = Done outside_employees
   /\ dget "101" outside_employees = Some twice_named_record
   /\ length (clawback_records twice_named_record) = 3)
  /\ Forall clawback_tagged (clawback_records twice_named_record)
  /\ exists ls,
       clawback_lines twice_named_record = Ok ls
       /\ clawback_section (clawback_records twice_named_record) ls
       /\ length ls <= 5.
Proof.
  split; [split; [|split]; vm_compute; reflexivity|].
  apply (clawback_section_totals_by_type outside_book outside_employees "101").
  - vm_compute; reflexivity.
  - vm_compute; reflexivity.
  - intros E. vm_compute in E. discriminate.
Defined.

Lemma retention_entries_are_not_rendered_witness :
  (append_retention sample_retention sample_fc = Ok sample_fc_retained
   /\ additional_allowances sample_fc <> []
   /\ sample_fc_retained <> sample_fc)
  /\ to_text_for_embedding sample_fc_retained = to_text_for_embedding sample_fc.
Proof.
  assert (A : append_retention sample_retention sample_fc = Ok sample_fc_retained)
    by (vm_compute; reflexivity).
  assert (N : additional_allowances sample_fc <> [])
    by (intros E; vm_compute in E; discriminate).
  split.
  - split; [exact A|]. split; [exact N|].
    intros E. apply (f_equal additional_allowances) in E.
    vm_compute in E. discriminate.
  - exact (proj1 (retention_entries_are_not_rendered sample_retention sample_fc
                    sample_fc_retained A) N).
Defined.

Lemma vector_carries_the_metadata_witness :
  vector_of document_without_branch [1%Z; 0%Z] = Ok vector_without_branch
  /\ NoDup (keys (vector_metadata vector_without_branch))
  /\ vector_of nameless_document [1%Z; 0%Z] = Err (KeyError "사원명").
Proof.
  assert (V : vector_of document_without_branch [1%Z; 0%Z] = Ok vector_without_branch)
    by (vm_compute; reflexivity).
  split; [exact V|]. split; [|vm_compute; reflexivity].
  refine (proj2 (proj2 (proj2 (proj2
            (proj1 (vector_carries_the_metadata document_without_branch [1%Z; 0%Z])
               vector_without_branch V)))) _).
  repeat (apply NoDup_cons; [simpl; intuition discriminate|]). apply NoDup_nil.
Defined.

Lemma uploader_needs_both_keys_witness :
  validate_environment both_keys = None
  /\ connect empty_openai_key (Ok tt) (Ok [small_index]) (Ok tt) "hof-branch-chatbot"
       "text-embedding-3-large" 3072
     = Exited 1
  /\ connect both_keys (Ok tt) (Ok [small_index]) (Ok tt) "hof-branch-chatbot"
       "text-embedding-3-large" 3072
     = Connected {| index_name := "hof-branch-chatbot";
                    embedding_model := "text-embedding-3-small";
                    dimension := 1536 |}.
Proof.
  split; [|split].
  - apply (proj1 (uploader_needs_both_keys both_keys)).
    split; eexists; (split; [reflexivity|discriminate]).
  - apply (proj1 (proj2 (uploader_needs_both_keys empty_openai_key))).
    discriminate.
  - reflexivity.
Defined.

Lemma blank_cells_take_the_default_witness :
  blank malformed_roster_row "커미션계"
  /\ amount malformed_roster_row "커미션계" = Ok (SFloat 0%Z)
  /\ cell_str blank_commission_row "지급사원번호" = Ok (vstr "None").
Proof.
  assert (B : blank malformed_roster_row "커미션계") by (left; reflexivity).
  split; [exact B|]. split.
  - exact (proj2 (proj2 (proj1 (blank_cells_take_the_default
                                  malformed_roster_row "커미션계") B))).
  - exact (proj2 (proj2 (proj2 (proj2 (blank_cells_take_the_default
                                         blank_commission_row "지급사원번호")))
                    eq_refl)).
Defined.

Lemma failing_rows_are_partly_applied_witness :
  financials_of malformed_roster_row = Err (ValueError "could not convert string to float")
  /\ (exists st',
        individual_statement_row malformed_roster_row outside_employees
        = Raise (ValueError "could not convert string to float") st'
        /\ dget "101" st'
           = Some (with_profile (profile_of malformed_roster_row)
                     (with_sabon "101" (record_of "101" outside_employees))))
  /\ exists st',
       override_record_row fc_less_override_row outside_employees
       = Raise (KeyError "[FC] 대상자사번") st'
       /\ override_entries st' = 7.
Proof.
  assert (E : financials_of malformed_roster_row
              = Err (ValueError "could not convert string to float"))
    by (vm_compute; reflexivity).
  assert (K : scalar_str (@SInt Z 101) = "101") by (vm_compute; reflexivity).
  destruct (failing_rows_are_partly_applied fc_less_override_row outside_employees)
    as (_ & Override & _).
  destruct (failing_rows_are_partly_applied malformed_roster_row outside_employees)
    as (Roster & _).
  split; [exact E|]. split.
  - destruct (Roster (SInt 101) _ eq_refl E) as (st' & R & G).
    rewrite K in G. exists st'. split; [exact R|exact G].
  - destruct (override_of fc_less_override_row) as [o|x] eqn:O;
      [|vm_compute in O; discriminate].
    destruct (Override (SInt 101) o eq_refl eq_refl eq_refl) as (st' & R & _ & N).
    exists st'. split; [exact R|]. rewrite N. vm_compute; reflexivity.
Defined.
